(** * Zonos model synchronisation: verification of [zonos.py]

    A shallow embedding of the model-artifact subsystem of
    [src/Zonos/zonos.py]: cache-path resolution, hash verification, the
    verification document, the download orchestrator, the repository
    check and the update coordinator, and with them the verification
    command, the model check, the discovery of the interfaces and the
    steps of the installation.

    Conventions of the embedding.
    - A Python call either returns, raises an [Exception], or leaves the
      process through [sys.exit]; [SystemExit] is not an [Exception], so
      [except Exception] does not stop it.  This is the type [result].
    - Functions that only read the file system take it as an argument and
      return a [result]; functions that change something run in the monad
      [M] over a [World] (file system and a trace of external actions).
    - What the Python libraries and the external collaborators compute
      (the digest, the JSON codec, [int] on a string, the clock, the fetch
      call, the module imports, child processes) is a [Platform] the
      definitions are stated over.
    - A Python [str] is a sequence of code points; it is represented by
      the string of the bytes of its UTF-8 encoding.  The content of a
      file is the string of its bytes.
    - The verifier, the recorder and the orchestrator are first defined
      over the resolver they call and the registry they read (the
      definitions named [..._via]); the functions of the program are
      their instances at [get_model_cache_path] and [MODEL_CONFIGS].
    - Diagnostic [log] calls neither branch nor touch the file system and
      are not embedded, except in the coordinator, whose claims are about
      what is reported; the log file is not part of the file system model
      and writing to it is taken to succeed.  Ownership and mode bits are
      not part of the file system model, so the ownership helpers only
      appear where they create a directory. *)

From Stdlib Require Import String Ascii List ZArith Bool Lia DecimalString.
Import ListNotations.
Open Scope string_scope.
Open Scope Z_scope.
Set Warnings "-register-all".

(* ================================================================== *)
(** * Python strings *)
(* ================================================================== *)

Module PyStr.

(** [s.replace(c, r)] for a one-character pattern [c]. *)
Fixpoint replace (c : ascii) (r : string) (s : string) : string :=
  match s with
  | EmptyString => EmptyString
  | String a s' =>
      if Ascii.eqb a c then r ++ replace c r s' else String a (replace c r s')
  end.

(** [s.split(c)]: never empty, the pieces between the separators. *)
Fixpoint split (c : ascii) (s : string) : list string :=
  match s with
  | EmptyString => [EmptyString]
  | String a s' =>
      if Ascii.eqb a c then EmptyString :: split c s'
      else match split c s' with
           | h :: t => String a h :: t
           | [] => [String a EmptyString]
           end
  end.

(** [l[-1]] on a list of strings known to be non-empty. *)
Definition last_item (l : list string) : string := List.last l EmptyString.

(** [sub in s] for strings: [sub] occurs in [s]. *)
Fixpoint contains (sub s : string) : bool :=
  String.prefix sub s ||
  match s with
  | EmptyString => false
  | String _ s' => contains sub s'
  end.

(** White space, as [str.isspace] and [str.strip] know it, by the UTF-8
    encoding of the code point: U+0009 to U+000D, U+001C to U+0020; U+0085
    and U+00A0; U+1680, U+2000 to U+200A, U+2028, U+2029, U+202F, U+205F
    and U+3000. *)
Definition is_space (a : ascii) : bool :=
  let n := nat_of_ascii a in
  ((9 <=? n) && (n <=? 13) || (28 <=? n) && (n <=? 32))%nat.

Definition is_space2 (a b : ascii) : bool :=
  let m := nat_of_ascii a in
  let n := nat_of_ascii b in
  ((m =? 194) && ((n =? 133) || (n =? 160)))%nat.

Definition is_space3 (a b c : ascii) : bool :=
  let l := nat_of_ascii a in
  let m := nat_of_ascii b in
  let n := nat_of_ascii c in
  ((l =? 225) && (m =? 154) && (n =? 128)
   || (l =? 226) && (m =? 128)
      && ((128 <=? n) && (n <=? 138) || (n =? 168) || (n =? 169)
          || (n =? 175))
   || (l =? 226) && (m =? 129) && (n =? 159)
   || (l =? 227) && (m =? 128) && (n =? 128))%nat.

(** [s.lstrip()]. *)
Fixpoint lstrip (s : string) : string :=
  match s with
  | EmptyString => EmptyString
  | String a s1 =>
      if is_space a then lstrip s1
      else
        match s1 with
        | String b s2 =>
            if is_space2 a b then lstrip s2
            else
              match s2 with
              | String c s3 => if is_space3 a b c then lstrip s3 else s
              | EmptyString => s
              end
        | EmptyString => s
        end
  end.

Fixpoint rev_onto (s acc : string) : string :=
  match s with
  | EmptyString => acc
  | String a s' => rev_onto s' (String a acc)
  end.

(** The bytes of [s] in reverse order. *)
Definition rev (s : string) : string := rev_onto s EmptyString.

(** [lstrip] on the reversed bytes: the last byte of a code point comes
    first. *)
Fixpoint lstrip_rev (s : string) : string :=
  match s with
  | EmptyString => EmptyString
  | String c s1 =>
      if is_space c then lstrip_rev s1
      else
        match s1 with
        | String b s2 =>
            if is_space2 b c then lstrip_rev s2
            else
              match s2 with
              | String a s3 => if is_space3 a b c then lstrip_rev s3 else s
              | EmptyString => s
              end
        | EmptyString => s
        end
  end.

(** [s.rstrip()]. *)
Definition rstrip (s : string) : string := rev (lstrip_rev (rev s)).

(** [s.strip()]. *)
Definition strip (s : string) : string := rstrip (lstrip s).

Definition lower_char (a : ascii) : ascii :=
  let n := nat_of_ascii a in
  if ((65 <=? n) && (n <=? 90))%nat then ascii_of_nat (n + 32) else a.

(** The encoding of U+212A, the Kelvin sign. *)
Definition is_kelvin (a b c : ascii) : bool :=
  ((nat_of_ascii a =? 226) && (nat_of_ascii b =? 132)
   && (nat_of_ascii c =? 170))%nat.

(** [s.lower()] as far as comparisons with words of ASCII letters go: the
    letters [A] to [Z], and U+212A, the one code point outside ASCII whose
    lower case is an ASCII letter ([k]).  Other letters outside ASCII are
    left as they are, where Python gives their lower case; that lower
    case is never ASCII, so [lower s] is a word of ASCII characters
    exactly when [s.lower()] is, and then they are equal. *)
Fixpoint lower (s : string) : string :=
  match s with
  | EmptyString => EmptyString
  | String a s1 =>
      match s1 with
      | String b (String c s3) =>
          if is_kelvin a b c then String "k" (lower s3)
          else String (lower_char a) (lower s1)
      | _ => String (lower_char a) (lower s1)
      end
  end.

(** A byte that continues a code point. *)
Definition is_continuation (a : ascii) : bool :=
  let n := nat_of_ascii a in ((128 <=? n) && (n <? 192))%nat.

(** [s[:n]]: the first [n] code points. *)
Fixpoint take (n : nat) (s : string) : string :=
  match s with
  | EmptyString => EmptyString
  | String a s' =>
      if is_continuation a then String a (take n s')
      else
        match n with
        | O => EmptyString
        | S n' => String a (take n' s')
        end
  end.

(** Truth value of a string: non-empty. *)
Definition truthy (s : string) : bool :=
  match s with EmptyString => false | _ => true end.

Definition digit_of (a : ascii) : option Z :=
  let n := nat_of_ascii a in
  if ((48 <=? n) && (n <=? 57))%nat then Some (Z.of_nat n - 48) else None.

(** Digits of a decimal literal; a single underscore may separate two
    digits.  [acc] is the value so far, [prev] tells whether the previous
    character was a digit. *)
Fixpoint digits (s : string) (acc : Z) (prev : bool) : option Z :=
  match s with
  | EmptyString => if prev then Some acc else None
  | String a s' =>
      match digit_of a with
      | Some d => digits s' (10 * acc + d) true
      | None =>
          if Ascii.eqb a "_" && prev then digits s' acc false else None
      end
  end.

(** The decimal literals of ASCII digits among the strings [int(s)]
    accepts: surrounding white space, an optional sign, then digits; the
    sample platform reads numbers with it. *)
Definition to_int (s : string) : option Z :=
  match strip s with
  | String "-" t => option_map Z.opp (digits t 0 false)
  | String "+" t => digits t 0 false
  | t => digits t 0 false
  end.

End PyStr.

(* ================================================================== *)
(** * Exceptions and results *)
(* ================================================================== *)

Inductive exn_class : Type :=
  | TypeError | KeyError | ValueError | AttributeError
  | FileNotFoundError | PermissionError | IsADirectoryError
  | NotADirectoryError | FileExistsError
  | JSONDecodeError | UnicodeDecodeError | RecursionError
  | ImportError | ModuleNotFoundError
  | OtherException.

Definition exn_class_eqb (a b : exn_class) : bool :=
  match a, b with
  | TypeError, TypeError | KeyError, KeyError | ValueError, ValueError
  | AttributeError, AttributeError
  | FileNotFoundError, FileNotFoundError
  | PermissionError, PermissionError
  | IsADirectoryError, IsADirectoryError
  | NotADirectoryError, NotADirectoryError
  | FileExistsError, FileExistsError
  | JSONDecodeError, JSONDecodeError
  | UnicodeDecodeError, UnicodeDecodeError
  | RecursionError, RecursionError | ImportError, ImportError
  | ModuleNotFoundError, ModuleNotFoundError
  | OtherException, OtherException => true
  | _, _ => false
  end.

(** An exception: its class and [str(e)].  The texts given to
    exceptions of the interpreter and the libraries are indicative. *)
Record exn : Type := mkExn { exn_cls : exn_class; exn_msg : string }.

(** [isinstance(e, c)] for the classes the handlers of the source name. *)
Definition isinstance (e : exn) (c : exn_class) : bool :=
  exn_class_eqb (exn_cls e) c ||
  match c, exn_cls e with
  | ImportError, ModuleNotFoundError => true
  | ValueError, JSONDecodeError => true
  | ValueError, UnicodeDecodeError => true
  | _, _ => false
  end.

Inductive result (A : Type) : Type :=
  | Ret (a : A)
  | Raise (e : exn)
  | Exit (code : Z).
Arguments Ret {A} a.
Arguments Raise {A} e.
Arguments Exit {A} code.

Definition rbind {A B} (r : result A) (k : A -> result B) : result B :=
  match r with
  | Ret a => k a
  | Raise e => Raise e
  | Exit c => Exit c
  end.

(** [try: r  except (c1, c2, ...): h e]. *)
Definition rcatch {A} (r : result A) (classes : list exn_class)
    (h : exn -> result A) : result A :=
  match r with
  | Raise e => if existsb (isinstance e) classes then h e else Raise e
  | _ => r
  end.

Declare Scope result_scope.
Delimit Scope result_scope with result.
Notation "x <- r ;; k" := (rbind r (fun x => k))
  (at level 61, r at next level, right associativity) : result_scope.

(* ================================================================== *)
(** * JSON values and the dictionary operations used on them *)
(* ================================================================== *)

(** What [json.load] can return.  An object keeps its keys in insertion
    order, as a Python [dict] does. *)
Inductive json : Type :=
  | JNull
  | JBool (b : bool)
  | JNum (literal : string)
  | JStr (s : string)
  | JArr (items : list json)
  | JObj (fields : list (string * json)).

Module Dict.
Section Ops.
Context {V : Type}.

(** [d.get(k)]. *)
Fixpoint get (k : string) (d : list (string * V)) : option V :=
  match d with
  | [] => None
  | (k', v) :: d' => if String.eqb k k' then Some v else get k d'
  end.

(** [d[k] = v]: an existing key keeps its position, a new one goes
    last. *)
Fixpoint set (k : string) (v : V) (d : list (string * V))
  : list (string * V) :=
  match d with
  | [] => [(k, v)]
  | (k', v') :: d' =>
      if String.eqb k k' then (k, v) :: d' else (k', v') :: set k v d'
  end.

(** [k in d]. *)
Definition mem (k : string) (d : list (string * V)) : bool :=
  match get k d with Some _ => true | None => false end.

(** [del d[k]]. *)
Definition remove (k : string) (d : list (string * V))
  : list (string * V) :=
  filter (fun e => negb (String.eqb k (fst e))) d.

Definition keys (d : list (string * V)) : list string := map fst d.
End Ops.
End Dict.

Definition type_error (msg : string) : exn := mkExn TypeError msg.

Definition is_str (k : string) (j : json) : bool :=
  match j with JStr s => String.eqb s k | _ => false end.

(** [k in v] for a string [k] and a value [v] as [json.load] returns it:
    key membership in a dict, element membership in a list, substring
    test in a string, [TypeError] otherwise. *)
Definition py_contains (k : string) (v : json) : result bool :=
  match v with
  | JObj d => Ret (Dict.mem k d)
  | JArr l => Ret (existsb (is_str k) l)
  | JStr s => Ret (PyStr.contains k s)
  | _ => Raise (type_error "argument is not iterable")
  end.

(** [v[k]] for a string [k]. *)
Definition py_getitem (v : json) (k : string) : result json :=
  match v with
  | JObj d =>
      match Dict.get k d with
      | Some x => Ret x
      | None => Raise (mkExn KeyError k)
      end
  | JArr _ => Raise (type_error "list indices must be integers or slices, not str")
  | JStr _ => Raise (type_error "string indices must be integers, not 'str'")
  | _ => Raise (type_error "object is not subscriptable")
  end.

(** [v[k] = x] for a string [k]. *)
Definition py_setitem (v : json) (k : string) (x : json) : result json :=
  match v with
  | JObj d => Ret (JObj (Dict.set k x d))
  | JArr _ => Raise (type_error "list indices must be integers or slices, not str")
  | _ => Raise (type_error "object does not support item assignment")
  end.

(** [v != s] for a string [s]. *)
Definition py_ne_str (v : json) (s : string) : bool := negb (is_str s v).

(* ================================================================== *)
(** * Paths and the file system *)
(* ================================================================== *)

(** An absolute [pathlib.Path]: its segments below the root. *)
Definition Path : Type := list string.

Definition segments (s : string) : list string :=
  filter (fun x => negb (String.eqb x "") && negb (String.eqb x "."))
         (PyStr.split "/" s).

(** [p / s]: an absolute [s] replaces [p]. *)
Definition joinpath (p : Path) (s : string) : Path :=
  if String.prefix "/" s then segments s else (p ++ segments s)%list.

Notation "p // s" := (joinpath p s) (at level 40, left associativity).

(** [p.name]. *)
Definition path_name (p : Path) : string := List.last p "".

(** [str(p)]. *)
Definition path_str (p : Path) : string :=
  match p with
  | [] => "/"
  | _ => String.concat "" (map (fun s => "/" ++ s) p)
  end.

(** The operands of the Python expressions that build the candidate
    paths: a [str] or a [Path]. *)
Inductive pyval : Type :=
  | VStr (s : string)
  | VPath (p : Path).

(** [a / b]: defined by [pathlib] when one side is a path; the paths
    here are absolute, so a path on the right is the result. *)
Definition py_truediv (a b : pyval) : result pyval :=
  match a, b with
  | VPath p, VStr s => Ret (VPath (p // s))
  | VPath p, VPath q => Ret (VPath q)
  | VStr s, VPath q => Ret (VPath q)
  | VStr _, VStr _ =>
      Raise (type_error "unsupported operand type(s) for /: 'str' and 'str'")
  end.

(** The error of adding a string to a path. *)
Definition path_plus_str_error : exn :=
  type_error "unsupported operand type(s) for +: 'PosixPath' and 'str'".

(** [a + b]: concatenation of two strings; [pathlib] paths define no
    addition and [str] does not add to a path. *)
Definition py_add (a b : pyval) : result pyval :=
  match a, b with
  | VStr s, VStr t => Ret (VStr (s ++ t))
  | VPath _, VStr _ => Raise path_plus_str_error
  | VStr _, VPath _ =>
      Raise (type_error "can only concatenate str (not 'PosixPath') to str")
  | VPath _, VPath _ =>
      Raise (type_error "unsupported operand type(s) for +: 'PosixPath' and 'PosixPath'")
  end.

(** A file has content and may be unreadable; a directory has a
    modification time and lists its entries in the order [iterdir] yields
    them. *)
Inductive node : Type :=
  | File (readable : bool) (content : string)
  | Dir (mtime : Z) (entries : list (string * node)).

(** The file system: the root directory. *)
Definition FS : Type := node.

Module Fs.

Fixpoint lookup (p : Path) (n : node) : option node :=
  match p with
  | [] => Some n
  | s :: p' =>
      match n with
      | Dir _ es =>
          match Dict.get s es with
          | Some c => lookup p' c
          | None => None
          end
      | File _ _ => None
      end
  end.

(** [p.exists()]. *)
Definition exists_ (p : Path) (fs : FS) : bool :=
  match lookup p fs with Some _ => true | None => false end.

(** [p.is_dir()]. *)
Definition is_dir (p : Path) (fs : FS) : bool :=
  match lookup p fs with Some (Dir _ _) => true | _ => false end.

(** [p.stat().st_mtime] of a directory. *)
Definition mtime (p : Path) (fs : FS) : Z :=
  match lookup p fs with Some (Dir m _) => m | _ => 0 end.

(** [list(p.iterdir())]. *)
Definition iterdir (p : Path) (fs : FS) : result (list Path) :=
  match lookup p fs with
  | Some (Dir _ es) => Ret (map (fun e => (p ++ [fst e])%list) es)
  | Some (File _ _) => Raise (mkExn NotADirectoryError (path_str p))
  | None => Raise (mkExn FileNotFoundError (path_str p))
  end.

(** [open(p, 'r').read()]. *)
Definition read (p : Path) (fs : FS) : result string :=
  match lookup p fs with
  | Some (File true c) => Ret c
  | Some (File false _) => Raise (mkExn PermissionError (path_str p))
  | Some (Dir _ _) => Raise (mkExn IsADirectoryError (path_str p))
  | None => Raise (mkExn FileNotFoundError (path_str p))
  end.

(** [open(p, 'w').write(c)]: the parent must be a directory and the
    target a writable file or absent; [None] when the write fails. *)
Fixpoint write (p : Path) (c : string) (n : node) : option node :=
  match n with
  | File _ _ => None
  | Dir m es =>
      match p with
      | [] => None
      | [s] =>
          match Dict.get s es with
          | Some (Dir _ _) => None
          | Some (File false _) => None
          | _ => Some (Dir m (Dict.set s (File true c) es))
          end
      | s :: p' =>
          match Dict.get s es with
          | Some child =>
              match write p' c child with
              | Some child' => Some (Dir m (Dict.set s child' es))
              | None => None
              end
          | None => None
          end
      end
  end.

(** [p.unlink()]: [None] when it fails. *)
Fixpoint unlink (p : Path) (n : node) : option node :=
  match n with
  | File _ _ => None
  | Dir m es =>
      match p with
      | [] => None
      | [s] =>
          match Dict.get s es with
          | Some (File _ _) => Some (Dir m (Dict.remove s es))
          | _ => None
          end
      | s :: p' =>
          match Dict.get s es with
          | Some child =>
              match unlink p' child with
              | Some child' => Some (Dir m (Dict.set s child' es))
              | None => None
              end
          | None => None
          end
      end
  end.

(** [p.mkdir(parents=True, exist_ok=True)] at time [t]: [None] when a
    file is in the way. *)
Fixpoint mkdir_p (t : Z) (p : Path) (n : node) : option node :=
  match n with
  | File _ _ => None
  | Dir m es =>
      match p with
      | [] => Some n
      | s :: p' =>
          match Dict.get s es with
          | Some child =>
              match mkdir_p t p' child with
              | Some child' => Some (Dir m (Dict.set s child' es))
              | None => None
              end
          | None =>
              match mkdir_p t p' (Dir t []) with
              | Some child' => Some (Dir m (Dict.set s child' es))
              | None => None
              end
          end
      end
  end.

(** [shutil.rmtree(p)] for a directory other than the root: [None] when
    it fails. *)
Fixpoint rmtree (p : Path) (n : node) : option node :=
  match n with
  | File _ _ => None
  | Dir m es =>
      match p with
      | [] => None
      | [s] =>
          match Dict.get s es with
          | Some (Dir _ _) => Some (Dir m (Dict.remove s es))
          | _ => None
          end
      | s :: p' =>
          match Dict.get s es with
          | Some child =>
              match rmtree p' child with
              | Some child' => Some (Dir m (Dict.set s child' es))
              | None => None
              end
          | None => None
          end
      end
  end.

End Fs.

(* ================================================================== *)
(** * The artifact registry *)
(* ================================================================== *)

(** One entry of [MODEL_CONFIGS]. *)
Record model_config : Type := mkConfig {
  cfg_name : string;
  cfg_description : string;
  files_to_check : list string
}.

(** A registry: model identity to configuration, in insertion order. *)
Definition Registry : Type := list (string * model_config).

Definition MODEL_CONFIGS : Registry :=
  [ ("Zyphra/Zonos-v0.1-hybrid",
     mkConfig "hybrid_model" "Zonos v0.1 Hybrid Model"
              ["config.json"; "pytorch_model.bin"; "tokenizer.json"]);
    ("Zyphra/Zonos-v0.1-transformer",
     mkConfig "transformer_model" "Zonos v0.1 Transformer Model"
              ["config.json"; "pytorch_model.bin"; "tokenizer.json"]) ].

Definition MODELS_DOWNLOAD_DIR : string := "zonos_download_models".
Definition MODEL_VERIFICATION_FILE : string := "model_verification.json".
Definition REPO_NAME : string := "Zonos".

(* ================================================================== *)
(** * CachePathResolver: [get_model_cache_path] *)
(* ================================================================== *)

Local Open Scope result_scope.

(** A method of [Path] called on an operand. *)
Definition as_path (v : pyval) : result Path :=
  match v with
  | VPath p => Ret p
  | VStr _ => Raise (mkExn AttributeError "'str' object has no attribute 'exists'")
  end.

(** [for path in possible_paths: if path.exists(): return path]. *)
Fixpoint first_existing (possible_paths : list pyval) (fs : FS)
  : result (option Path) :=
  match possible_paths with
  | [] => Ret None
  | v :: rest =>
      path <- as_path v ;;
      if Fs.exists_ path fs then Ret (Some path) else first_existing rest fs
  end.

(** [get_model_cache_path(model_name, models_dir)].  The three candidates
    are built first, as the list display does; in the first one [/] binds
    tighter than [+], so it is [(models_dir / "models--") + ...]. *)
Definition get_model_cache_path (model_name : string) (models_dir : Path)
    (fs : FS) : result (option Path) :=
  p1 <- (d <- py_truediv (VPath models_dir) (VStr "models--") ;;
         py_add d (VStr (PyStr.replace "/" "--" model_name))) ;;
  p2 <- py_truediv (VPath models_dir)
                   (VStr (PyStr.replace "/" "--" model_name)) ;;
  p3 <- py_truediv (VPath models_dir)
                   (VStr (PyStr.last_item (PyStr.split "/" model_name))) ;;
  found <- first_existing [p1; p2; p3] fs ;;
  match found with
  | Some path => Ret (Some path)
  | None =>
      subdirs <- Fs.iterdir models_dir fs ;;
      Ret (find (fun subdir =>
                   Fs.is_dir subdir fs &&
                   PyStr.contains
                     (PyStr.last_item (PyStr.split "/" model_name))
                     (path_name subdir))
                subdirs)
  end.

(* ================================================================== *)
(** * The world outside the program *)
(* ================================================================== *)

(** External actions, in the order they happen. *)
Inductive event : Type :=
  | EvFetch (model_name : string)
  | EvCmd (command : list string)
  | EvLog (level message : string)
  | EvPrint (text : string).

Record World : Type := mkWorld { fs : FS; trace : list event }.

(** The names fetched, in order, among the events of a trace. *)
Definition fetched (t : list event) : list string :=
  flat_map (fun e => match e with EvFetch n => [n] | _ => [] end) t.

(** How a child process ends: it completes with a return code and its
    output, or it cannot be run at all. *)
Inductive proc_outcome : Type :=
  | Completed (returncode : Z) (stdout : string)
  | SpawnFailed (e : exn).

(** What [json.load(f)] does on a file opened for reading as text, by
    the bytes of the file: it returns a value, or it raises;
    [JSONDecodeError] when the text is no JSON document,
    [UnicodeDecodeError] when the bytes are no text in the encoding of the
    locale, [RecursionError] when the document nests too deep. *)
Inductive json_outcome : Type :=
  | JsonValue (v : json)
  | JsonRaises (e : exn).

(** What [int(s)] does on a string: a number, or [ValueError] with its
    message. *)
Inductive int_outcome : Type :=
  | IntValue (n : Z)
  | IntRaises (message : string).

(** The libraries and collaborators.  Each oracle sees the world at the
    moment of the call; those that act on the file system give the file
    system they leave.
    - [sha256_hexdigest]: [hashlib.sha256] of a file's content;
    - [json_load]: reading the open file and [json.load] on it; the empty
      file is no JSON document;
    - [json_dump]: [json.dump(..., indent=2)];
    - [int_of_str]: [int(s)] on a string;
    - [clock], [now_isoformat]: the time a new directory is stamped with,
      and [datetime.now().isoformat()];
    - [import_modules]: the imports of [torch], [torchaudio] and [zonos]
      and the device probing at the head of the [try] of
      [download_models], with the exception they raise, if any;
    - [from_pretrained]: [Zonos.from_pretrained], the fetch call;
    - [run_process]: the child process [run_command] starts; its output
      is the text [run_command] hands on as [stdout]. *)
Record Platform : Type := mkPlatform {
  sha256_hexdigest : string -> string;
  json_load : string -> json_outcome;
  json_load_empty :
    json_load ""
    = JsonRaises (mkExn JSONDecodeError
                    "Expecting value: line 1 column 1 (char 0)");
  json_dump : json -> string;
  int_of_str : string -> int_outcome;
  clock : World -> Z;
  now_isoformat : World -> string;
  import_modules : World -> option exn;
  from_pretrained : string -> World -> option exn * FS;
  run_process : list string -> World -> proc_outcome * FS
}.

(* ================================================================== *)
(** * IntegrityVerifier and VerificationStore: the reading side *)
(* ================================================================== *)

(** The resolver a function calls, as a function of the file system. *)
Definition Resolver : Type := string -> Path -> FS -> result (option Path).

(** [max(l, key=key)] on a non-empty list: the first greatest element. *)
Definition max_by {A} (key : A -> Z) (x : A) (l : list A) : A :=
  fold_left (fun best y => if key best <? key y then y else best) l x.

(** The snapshot directories below [cache_path / "snapshots"]:
    [[d for d in (cache_path / "snapshots").iterdir() if d.is_dir()]]. *)
Definition snapshot_dirs (cache_path : Path) (fs : FS)
  : result (list Path) :=
  entries <- Fs.iterdir (cache_path // "snapshots") fs ;;
  Ret (filter (fun d => Fs.is_dir d fs) entries).

(** The block that finds the directory of the model files, written out
    in both [verify_model_integrity] and [save_model_verification]. *)
Definition model_files_dir_of (cache_path : Path) (fs : FS) : result Path :=
  if Fs.exists_ (cache_path // "snapshots") fs then
    snapshots <- snapshot_dirs cache_path fs ;;
    match snapshots with
    | [] => Ret cache_path
    | d :: ds => Ret (max_by (fun x => Fs.mtime x fs) d ds)
    end
  else Ret cache_path.

Section Reading.
Context (P : Platform).

(** [calculate_file_hash(file_path)]: the two handled errors give the
    empty string. *)
Definition calculate_file_hash (file_path : Path) (fs : FS)
  : result string :=
  rcatch (content <- Fs.read file_path fs ;;
          Ret (sha256_hexdigest P content))
         [FileNotFoundError; PermissionError]
         (fun _ => Ret "").

(** [with open(path, 'r') as f: json.load(f)]. *)
Definition json_load_file (path : Path) (fs : FS) : result json :=
  text <- Fs.read path fs ;;
  match json_load P text with
  | JsonValue v => Ret v
  | JsonRaises e => Raise e
  end.

(** [load_verification_data(verification_file)]. *)
Definition load_verification_data (verification_file : Path) (fs : FS)
  : result json :=
  if negb (Fs.exists_ verification_file fs) then Ret (JObj [])
  else rcatch (json_load_file verification_file fs)
              [JSONDecodeError; FileNotFoundError]
              (fun _ => Ret (JObj [])).

(** The loop over [files_to_check] of [verify_model_integrity]. *)
Fixpoint verify_files (files : list string) (model_files_dir : Path)
    (stored_hashes : json) (fs : FS) : result bool :=
  match files with
  | [] => Ret true
  | file_name :: rest =>
      let file_path := model_files_dir // file_name in
      if negb (Fs.exists_ file_path fs) then Ret false
      else
        current_hash <- calculate_file_hash file_path fs ;;
        if negb (PyStr.truthy current_hash) then Ret false
        else
          present <- py_contains file_name stored_hashes ;;
          if negb present then Ret false
          else
            stored <- py_getitem stored_hashes file_name ;;
            if py_ne_str stored current_hash then Ret false
            else verify_files rest model_files_dir stored_hashes fs
  end.

Section WithResolver.
Context (resolve : Resolver) (registry : Registry).

(** [verify_model_integrity(model_name, models_dir, verification_data)]
    over the resolver it calls and the registry it reads. *)
Definition verify_model_integrity_via (model_name : string)
    (models_dir : Path) (verification_data : json) (fs : FS)
  : result bool :=
  match Dict.get model_name registry with
  | None => Ret false
  | Some model_config =>
      cache_path <- resolve model_name models_dir fs ;;
      match cache_path with
      | None => Ret false
      | Some cache_path =>
          if negb (Fs.exists_ cache_path fs) then Ret false
          else
            let model_key := cfg_name model_config in
            known <- py_contains model_key verification_data ;;
            if negb known then Ret false
            else
              stored_hashes <- py_getitem verification_data model_key ;;
              model_files_dir <- model_files_dir_of cache_path fs ;;
              verify_files (files_to_check model_config)
                           model_files_dir stored_hashes fs
      end
  end.
End WithResolver.

(** The program's verifier. *)
Definition verify_model_integrity : string -> Path -> json -> FS -> result bool :=
  verify_model_integrity_via get_model_cache_path MODEL_CONFIGS.

End Reading.

(* ================================================================== *)
(** * Stateful code: the monad [M] *)
(* ================================================================== *)

Definition M (A : Type) : Type := World -> result A * World.

Definition mret {A} (a : A) : M A := fun w => (Ret a, w).

Definition mbind {A B} (m : M A) (k : A -> M B) : M B :=
  fun w =>
    match m w with
    | (Ret a, w') => k a w'
    | (Raise e, w') => (Raise e, w')
    | (Exit c, w') => (Exit c, w')
    end.

Definition mraise {A} (e : exn) : M A := fun w => (Raise e, w).

(** [sys.exit(code)]. *)
Definition sys_exit {A} (code : Z) : M A := fun w => (Exit code, w).

(** A call that only reads the file system. *)
Definition reading {A} (f : FS -> result A) : M A :=
  fun w => (f (fs w), w).

(** A value that needs no file system. *)
Definition pure_result {A} (r : result A) : M A := fun w => (r, w).

(** [try: m  except Exception as e: h e]; [sys.exit] passes through. *)
Definition except_Exception {A} (m : M A) (h : exn -> M A) : M A :=
  fun w =>
    match m w with
    | (Raise e, w') => h e w'
    | other => other
    end.

Definition emit (e : event) : M unit :=
  fun w => (Ret tt, mkWorld (fs w) (trace w ++ [e])).

Declare Scope M_scope.
Delimit Scope M_scope with M.
Notation "x <- m ;; k" := (mbind m (fun x => k))
  (at level 61, m at next level, right associativity) : M_scope.
Notation "m ;; k" := (mbind m (fun _ => k))
  (at level 61, right associativity) : M_scope.

(** What [download_models] can hand back to its caller. *)
Inductive pyret : Type :=
  | RNone
  | RList (items : list string).

Section Writing.
Context (P : Platform).
Local Open Scope M_scope.

(** [ensure_directory_permissions(directory)]: creates the directory
    when it is missing; every failure is swallowed.  The owner and the
    mode it then gives the directory are not part of the file system
    model, so those two steps leave no mark here. *)
Definition ensure_directory_permissions (directory : Path) : M unit :=
  fun w =>
    if negb (Fs.exists_ directory (fs w)) then
      match Fs.mkdir_p (clock P w) directory (fs w) with
      | Some fs' => (Ret tt, mkWorld fs' (trace w))
      | None => (Ret tt, w)
      end
    else (Ret tt, w).

(** [setup_environment_variables()]: on the file system it only makes
    sure that the models directory exists. *)
Definition setup_environment_variables (models_dir : Path) : M unit :=
  ensure_directory_permissions models_dir.

(** The loop of [save_model_verification] that hashes the files that
    are present. *)
Fixpoint hash_present_files (files : list string) (model_files_dir : Path)
    (model_hashes : list (string * json)) (fs : FS)
  : result (list (string * json)) :=
  match files with
  | [] => Ret model_hashes
  | file_name :: rest =>
      let file_path := model_files_dir // file_name in
      if Fs.exists_ file_path fs then
        (h <- calculate_file_hash P file_path fs ;;
         hash_present_files rest model_files_dir
           (Dict.set file_name (JStr h) model_hashes) fs)%result
      else hash_present_files rest model_files_dir model_hashes fs
  end.

(** The record stored for one artifact. *)
Definition verification_record (model_hashes : list (string * json))
    (model_name download_time : string) (cache_path : Path) : json :=
  JObj [ ("hashes", JObj model_hashes);
         ("model_name", JStr model_name);
         ("download_time", JStr download_time);
         ("cache_path", JStr (path_str cache_path)) ].

(** The document [save_model_verification] starts from. *)
Definition existing_verification_data (verification_file : Path) (fs : FS)
  : result json :=
  if Fs.exists_ verification_file fs then
    rcatch (json_load_file P verification_file fs)
           [JSONDecodeError; FileNotFoundError]
           (fun _ => Ret (JObj []))
  else Ret (JObj []).

(** [with open(verification_file, 'w') as f: json.dump(data, f)]
    inside [try ... except Exception]: a failed write changes nothing. *)
Definition try_dump (verification_file : Path) (data : json) : M unit :=
  fun w =>
    match Fs.write verification_file (json_dump P data) (fs w) with
    | Some fs' => (Ret tt, mkWorld fs' (trace w))
    | None => (Ret tt, w)
    end.

Section WithResolver.
Context (resolve : Resolver) (registry : Registry).

(** [save_model_verification(model_name, models_dir, verification_file)]. *)
Definition save_model_verification_via (model_name : string)
    (models_dir verification_file : Path) : M unit :=
  match Dict.get model_name registry with
  | None => mret tt
  | Some model_config =>
      verification_data <-
        reading (existing_verification_data verification_file) ;;
      cache_path <- reading (resolve model_name models_dir) ;;
      match cache_path with
      | None => mret tt
      | Some cache_path =>
          model_files_dir <- reading (model_files_dir_of cache_path) ;;
          model_hashes <-
            reading (hash_present_files (files_to_check model_config)
                                        model_files_dir []) ;;
          download_time <- (fun w => (Ret (now_isoformat P w), w)) ;;
          verification_data' <-
            pure_result
              (py_setitem verification_data (cfg_name model_config)
                 (verification_record model_hashes model_name
                                      download_time cache_path)) ;;
          try_dump verification_file verification_data'
      end
  end.

(** [model = Zonos.from_pretrained(model_name, device=device)]. *)
Definition fetch (model_name : string) : M unit :=
  fun w =>
    let '(failure, fs') := from_pretrained P model_name w in
    let w' := mkWorld fs' (trace w ++ [EvFetch model_name]) in
    match failure with
    | None => (Ret tt, w')
    | Some e => (Raise e, w')
    end.

(** The [try] block of the loop of [download_models]: fetch, record,
    look the cache path up again for the ownership pass; the handler
    logs and raises the exception again.  The block also appends to
    [downloaded_models]; as a failed block ends the run, the loop below
    extends the list once the block has succeeded. *)
Definition download_attempt (models_dir verification_file : Path)
    (model_name : string) : M unit :=
  except_Exception
    (fetch model_name ;;
     save_model_verification_via model_name models_dir
       verification_file ;;
     reading (resolve model_name models_dir) ;;
     mret tt)
    (fun e => mraise e).

(** The body of [for model_name in models_to_download], with the
    list [downloaded_models] it extends. *)
Fixpoint download_loop (models_dir verification_file : Path)
    (verification_data : json) (models_to_download : list string)
    (downloaded_models : list string) : M (list string) :=
  match models_to_download with
  | [] => mret downloaded_models
  | model_name :: rest =>
      match Dict.get model_name registry with
      | None => mraise (mkExn KeyError model_name)
      | Some _ =>
          verified <-
            reading (verify_model_integrity_via P resolve registry
                       model_name models_dir verification_data) ;;
          if verified then
            download_loop models_dir verification_file
              verification_data rest downloaded_models
          else
            download_attempt models_dir verification_file model_name ;;
            download_loop models_dir verification_file
              verification_data rest
              (downloaded_models ++ [model_name])%list
      end
  end.

(** [download_models()], for the script directory [SCRIPT_DIR]. *)
Definition download_models_via (SCRIPT_DIR : Path) : M pyret :=
  let models_dir := SCRIPT_DIR // MODELS_DOWNLOAD_DIR in
  setup_environment_variables models_dir ;;
  ensure_directory_permissions models_dir ;;
  let verification_file := models_dir // MODEL_VERIFICATION_FILE in
  verification_data <-
    reading (load_verification_data P verification_file) ;;
  except_Exception
    ((fun w => match import_modules P w with
               | None => (Ret tt, w)
               | Some e => (Raise e, w)
               end) ;;
     downloaded_models <-
       download_loop models_dir verification_file verification_data
         (Dict.keys registry) [] ;;
     mret RNone)
    (fun e => if isinstance e ImportError then sys_exit 1 else sys_exit 1).

End WithResolver.

(** The program's recorder and orchestrator. *)
Definition save_model_verification : string -> Path -> Path -> M unit :=
  save_model_verification_via get_model_cache_path MODEL_CONFIGS.

Definition download_models : Path -> M pyret :=
  download_models_via get_model_cache_path MODEL_CONFIGS.

End Writing.

(* ================================================================== *)
(** * UpdateChecker and UpdateCoordinator *)
(* ================================================================== *)

(** [subprocess.CompletedProcess], as far as it is read. *)
Record completed : Type := mkCompleted { returncode : Z; stdout : string }.

(** The dictionary [check_repository_updates] returns, by its status. *)
Inductive repo_status : Type :=
  | not_installed (message : string)
  | up_to_date (commit : string)
  | update_available (current_commit remote_commit : string)
      (commits_behind : Z) (latest_message : string)
  | error (message : string).

Definition newline : string := String (ascii_of_nat 10) EmptyString.

Fixpoint repeat_string (s : string) (n : nat) : string :=
  match n with
  | O => EmptyString
  | S n' => s ++ repeat_string s n'
  end.

(** [choice in [...]]. *)
Definition one_of (choice : string) (options : list string) : bool :=
  existsb (String.eqb choice) options.

(** The operator's answer turned into the choice the apply phase reads
    (the prompt of [update_zonos]); reached only when a domain needs an
    update. *)
Definition normalized_choice (repo_needs_update model_needs_update : bool)
    (answer : string) : string :=
  let choice := PyStr.lower (PyStr.strip answer) in
  if repo_needs_update && model_needs_update then choice
  else if repo_needs_update then
    if one_of choice ["yes"; "y"] then "repo" else "none"
  else
    if one_of choice ["yes"; "y"] then "models" else "none".

(** The commands of the repository check. *)
Definition cmd_fetch : list string := ["git"; "fetch"; "origin"].
Definition cmd_head : list string := ["git"; "rev-parse"; "HEAD"].
Definition cmd_main : list string := ["git"; "rev-parse"; "origin/main"].
Definition cmd_count (current_commit remote_commit : string) : list string :=
  ["git"; "rev-list"; "--count"; current_commit ++ ".." ++ remote_commit].
Definition cmd_log : list string :=
  ["git"; "log"; "-1"; "--pretty=format:%s"; "origin/main"].

Section Updating.
Context (P : Platform) (SCRIPT_DIR : Path).
Local Open Scope M_scope.

Definition INSTALL_DIR : Path := SCRIPT_DIR.

(** [run_command(command, check=check)]: a command that cannot be run
    ends the process; so does a failed one when [check] is set.  The
    error text and the echo of the output only concern the log. *)
Definition run_command (command : list string) (check : bool)
  : M completed :=
  fun w =>
    let '(outcome, fs') := run_process P command w in
    let w' := mkWorld fs' (trace w ++ [EvCmd command]) in
    match outcome with
    | Completed rc out =>
        if check && negb (rc =? 0) then (Exit rc, w')
        else (Ret (mkCompleted rc out), w')
    | SpawnFailed _ => (Exit 1, w')
    end.

(** [os.chdir(path)]; the working directory itself is not modelled. *)
Definition chdir (path : Path) : M unit :=
  reading (fun fs =>
    match Fs.lookup path fs with
    | Some (Dir _ _) => Ret tt
    | Some (File _ _) => Raise (mkExn NotADirectoryError (path_str path))
    | None => Raise (mkExn FileNotFoundError (path_str path))
    end).

(** [result.stdout.strip() if result.returncode == 0 else default]. *)
Definition stdout_or (res : completed) (default : string) : string :=
  if returncode res =? 0 then PyStr.strip (stdout res) else default.

(** [int(result.stdout.strip()) if result.returncode == 0 else 0]. *)
Definition count_or_zero (res : completed) : result Z :=
  if returncode res =? 0 then
    match int_of_str P (PyStr.strip (stdout res)) with
    | IntValue n => Ret n
    | IntRaises message => Raise (mkExn ValueError message)
    end
  else Ret 0.

(** [check_repository_updates()]. *)
Definition check_repository_updates : M repo_status :=
  let repo_path := INSTALL_DIR // REPO_NAME in
  present <- reading (fun fs => Ret (Fs.exists_ repo_path fs)) ;;
  if negb present then mret (not_installed "Repository not found")
  else
    except_Exception
      (chdir repo_path ;;
       run_command cmd_fetch false ;;
       res <- run_command cmd_head false ;;
       let current_commit := stdout_or res "" in
       res <- run_command cmd_main false ;;
       let remote_commit := stdout_or res "" in
       if PyStr.truthy current_commit && PyStr.truthy remote_commit then
         if negb (String.eqb current_commit remote_commit) then
           res <- run_command (cmd_count current_commit remote_commit)
                              false ;;
           commits_behind <- pure_result (count_or_zero res) ;;
           res <- run_command cmd_log false ;;
           let latest_message := stdout_or res "No message" in
           mret (update_available (PyStr.take 8 current_commit)
                                  (PyStr.take 8 remote_commit)
                                  commits_behind latest_message)
         else mret (up_to_date (PyStr.take 8 current_commit))
       else mret (error "Could not determine commit status"))
      (fun e => mret (error (exn_msg e))).

(** [update_repository()]. *)
Definition update_repository : M bool :=
  let repo_path := INSTALL_DIR // REPO_NAME in
  present <- reading (fun fs => Ret (Fs.exists_ repo_path fs)) ;;
  if negb present then mret false
  else
    except_Exception
      (chdir repo_path ;;
       run_command ["git"; "stash"] false ;;
       res <- run_command ["git"; "pull"; "origin"; "main"] false ;;
       if negb (returncode res =? 0) then mret false
       else
         run_command ["./bin/uv"; "sync"] false ;;
         run_command ["./bin/uv"; "sync"; "--extra"; "compile"] false ;;
         mret true)
      (fun _ => mret false).

(** [verification_file.unlink()] inside [try ... except Exception],
    when the file exists. *)
Definition remove_verification_file (verification_file : Path) : M unit :=
  fun w =>
    if Fs.exists_ verification_file (fs w) then
      match Fs.unlink verification_file (fs w) with
      | Some fs' => (Ret tt, mkWorld fs' (trace w))
      | None => (Ret tt, w)
      end
    else (Ret tt, w).

(** [update_models()]. *)
Definition update_models : M bool :=
  let models_dir := SCRIPT_DIR // MODELS_DOWNLOAD_DIR in
  let verification_file := models_dir // MODEL_VERIFICATION_FILE in
  remove_verification_file verification_file ;;
  except_Exception
    (chdir (INSTALL_DIR // REPO_NAME) ;;
     download_models P SCRIPT_DIR ;;
     mret true)
    (fun _ => mret false).

Definition log (level message : string) : M unit :=
  emit (EvLog level message).

Definition print (text : string) : M unit := emit (EvPrint text).

(** The part of [update_zonos()] under [# Apply updates], for the
    choice the prompt produced. *)
Definition update_zonos_apply (choice : string) : M unit :=
  (if one_of choice ["repo"; "both"] then
     print (newline ++ "🔄 Updating repository...") ;;
     ok <- update_repository ;;
     if ok then log "INFO" "✅ Repository update completed successfully!"
     else log "ERROR" "❌ Repository update failed!"
   else mret tt) ;;
  (if one_of choice ["models"; "both"] then
     print (newline ++ "🔄 Updating models...") ;;
     ok <- update_models ;;
     if ok then log "INFO" "✅ Model update completed successfully!"
     else log "ERROR" "❌ Model update failed!"
   else mret tt) ;;
  (if String.eqb choice "none" then log "INFO" "Update cancelled by user."
   else mret tt) ;;
  print (newline ++ repeat_string "=" 60) ;;
  log "INFO" "Update check completed!".

End Updating.

(* ================================================================== *)
(** * Verification command, model check and the whole coordinator *)
(* ================================================================== *)

(** A number literal denotes zero when its mantissa has no other
    character than sign, zeros and the point. *)
Fixpoint number_is_zero (literal : string) : bool :=
  match literal with
  | EmptyString => true
  | String a rest =>
      if Ascii.eqb a "e" || Ascii.eqb a "E" then true
      else if Ascii.eqb a "0" || Ascii.eqb a "-" || Ascii.eqb a "+"
              || Ascii.eqb a "."
      then number_is_zero rest
      else false
  end.

(** Truth value of what [json.load] returned ([if not verification_data]). *)
Definition py_truthy (v : json) : bool :=
  match v with
  | JNull => false
  | JBool b => b
  | JNum literal => negb (number_is_zero literal)
  | JStr s => PyStr.truthy s
  | JArr [] => false
  | JArr _ => true
  | JObj [] => false
  | JObj _ => true
  end.

(** [str(n)] for an integer. *)
Definition str_of_Z (n : Z) : string := NilZero.string_of_int (Z.to_int n).

(** [for line in lines: print(line)]. *)
Fixpoint print_lines (lines : list string) : M unit :=
  match lines with
  | [] => mret tt
  | line :: rest => mbind (print line) (fun _ => print_lines rest)
  end.

(** One entry of the list [check_model_updates] reports. *)
Record model_update : Type := mkModelUpdate {
  mu_model_name : string;
  mu_description : string;
  mu_reason : string
}.

(** The dictionary [check_model_updates] returns, by its status. *)
Inductive model_status : Type :=
  | models_not_downloaded (message : string)
  | models_no_verification (message : string)
  | models_updates_available (models : list model_update)
  | models_up_to_date (message : string)
  | models_cannot_check (message : string)
  | models_error (message : string).

Section Checking.
Context (P : Platform) (resolve : Resolver) (registry : Registry).
Local Open Scope M_scope.

(** The loop of [verify_models], with the list [failed_models] of
    descriptions it extends. *)
Fixpoint verify_models_loop (models_dir : Path) (verification_data : json)
    (names : list string) (failed_models : list string) (fs : FS)
  : result (list string) :=
  match names with
  | [] => Ret failed_models
  | model_name :: rest =>
      match Dict.get model_name registry with
      | None => Raise (mkExn KeyError model_name)
      | Some model_config =>
          (verified <- verify_model_integrity_via P resolve registry
                         model_name models_dir verification_data fs ;;
           if verified then
             verify_models_loop models_dir verification_data rest
               failed_models fs
           else
             verify_models_loop models_dir verification_data rest
               (failed_models ++ [cfg_description model_config])%list fs)%result
      end
  end.

(** [verify_models()]; its summary is printed, and recorded as such. *)
Definition verify_models_via (SCRIPT_DIR : Path) : M unit :=
  let models_dir := SCRIPT_DIR // MODELS_DOWNLOAD_DIR in
  present <- reading (fun fs => Ret (Fs.exists_ models_dir fs)) ;;
  if negb present then sys_exit 1
  else
    let verification_file := models_dir // MODEL_VERIFICATION_FILE in
    verification_data <-
      reading (load_verification_data P verification_file) ;;
    if negb (py_truthy verification_data) then mret tt
    else
      failed_models <-
        reading (verify_models_loop models_dir verification_data
                   (Dict.keys registry) []) ;;
      match failed_models with
      | [] => mret tt
      | _ =>
          print (newline ++ "Verification summary:") ;;
          print_lines (map (fun name => "  ✗ " ++ name) failed_models) ;;
          print (newline ++
                 "You may continue using verified models, or re-download the failed ones.")
      end.

(** The inner [try] of the loop of [check_model_updates] for one model:
    fetch, verify, and report the model when the verification fails or
    anything raises. *)
Definition check_one_model (models_dir : Path) (verification_data : json)
    (model_name : string) (model_config : model_config)
    (updates_available : list model_update) : M (list model_update) :=
  except_Exception
    (fetch P model_name ;;
     verified <- reading (verify_model_integrity_via P resolve registry
                            model_name models_dir verification_data) ;;
     if verified then mret updates_available
     else mret (updates_available ++
                [mkModelUpdate model_name (cfg_description model_config)
                   "verification_failed"])%list)
    (fun _ =>
       mret (updates_available ++
             [mkModelUpdate model_name (cfg_description model_config)
                "check_failed"])%list).

(** The loop of [check_model_updates]. *)
Fixpoint check_models_loop (models_dir : Path) (verification_data : json)
    (names : list string) (updates_available : list model_update)
  : M (list model_update) :=
  match names with
  | [] => mret updates_available
  | model_name :: rest =>
      match Dict.get model_name registry with
      | None => mraise (mkExn KeyError model_name)
      | Some model_config =>
          updates_available' <-
            check_one_model models_dir verification_data model_name
              model_config updates_available ;;
          check_models_loop models_dir verification_data rest
            updates_available'
      end
  end.

(** [check_model_updates()]. *)
Definition check_model_updates_via (SCRIPT_DIR : Path) : M model_status :=
  let models_dir := SCRIPT_DIR // MODELS_DOWNLOAD_DIR in
  present <- reading (fun fs => Ret (Fs.exists_ models_dir fs)) ;;
  if negb present then mret (models_not_downloaded "Models not found")
  else
    let verification_file := models_dir // MODEL_VERIFICATION_FILE in
    verification_data <-
      reading (load_verification_data P verification_file) ;;
    if negb (py_truthy verification_data)
    then mret (models_no_verification "No verification data found")
    else
      except_Exception
        ((fun w => match import_modules P w with
                   | None => (Ret tt, w)
                   | Some e => (Raise e, w)
                   end) ;;
         updates_available <-
           check_models_loop models_dir verification_data
             (Dict.keys registry) [] ;;
         match updates_available with
         | [] => mret (models_up_to_date "All models are current")
         | _ => mret (models_updates_available updates_available)
         end)
        (fun e =>
           if isinstance e ImportError
           then mret (models_cannot_check
                        "Cannot check models - dependencies not available")
           else mret (models_error (exn_msg e))).

End Checking.

(** The program's verification command and model check. *)
Definition verify_models (P : Platform) : Path -> M unit :=
  verify_models_via P get_model_cache_path MODEL_CONFIGS.

Definition check_model_updates (P : Platform) : Path -> M model_status :=
  check_model_updates_via P get_model_cache_path MODEL_CONFIGS.

(** The line printed for one reported model. *)
Definition model_update_line (model : model_update) : string :=
  let reason := if String.eqb (mu_reason model) "verification_failed"
                then "verification failed" else "check failed" in
  "     - " ++ mu_description model ++ " (" ++ reason ++ ")".

Section Coordinating.
Context (P : Platform) (SCRIPT_DIR : Path).
Local Open Scope M_scope.

(** The repository part of the report of [update_zonos]: what is
    printed, and [None] when the function returns there, else
    [repo_needs_update]. *)
Definition show_repository_status (status : repo_status) : M (option bool) :=
  print (newline ++ "📦 REPOSITORY STATUS:") ;;
  match status with
  | not_installed _ =>
      print "  ❌ Repository not installed" ;; mret None
  | up_to_date commit =>
      print ("  ✅ Repository is up to date (commit: " ++ commit ++ ")") ;;
      mret (Some false)
  | update_available current_commit remote_commit commits_behind
                     latest_message =>
      print "  🔄 Updates available!" ;;
      print ("     Current: " ++ current_commit) ;;
      print ("     Latest:  " ++ remote_commit) ;;
      print ("     Behind by: " ++ str_of_Z commits_behind ++ " commits") ;;
      print ("     Latest change: " ++ latest_message) ;;
      mret (Some true)
  | error message =>
      print ("  ⚠️  Error checking repository: " ++ message) ;;
      mret (Some false)
  end.

(** The models part of the report: what is printed, and
    [model_needs_update]. *)
Definition show_model_status (status : model_status) : M bool :=
  print (newline ++ "🤖 MODELS STATUS:") ;;
  match status with
  | models_not_downloaded _ =>
      print "  ❌ Models not downloaded" ;; mret false
  | models_up_to_date _ =>
      print "  ✅ All models are current" ;; mret false
  | models_updates_available models =>
      print "  🔄 Model updates may be available:" ;;
      print_lines (map model_update_line models) ;;
      mret true
  | models_cannot_check message =>
      print ("  ⚠️  Cannot check models: " ++ message) ;; mret false
  | models_no_verification message | models_error message =>
      print ("  ⚠️  Error checking models: " ++ message) ;; mret false
  end.

(** The prompt of [update_zonos]: what is printed, and the choice made
    of the operator's [answer]. *)
Definition ask_choice (repo_needs_update model_needs_update : bool)
    (answer : string) : M string :=
  print (newline ++ repeat_string "=" 60) ;;
  (if repo_needs_update && model_needs_update then
     print "Both repository and models have updates available." ;;
     print "What would you like to update? (repo/models/both/none): "
   else if repo_needs_update then
     print "Repository updates are available." ;;
     print "Update repository? (yes/no): "
   else
     print "Model updates may be available." ;;
     print "Update models? (yes/no): ") ;;
  mret (normalized_choice repo_needs_update model_needs_update answer).

(** [update_zonos()] from the two statuses on, for the [answer] the
    operator gives if asked. *)
Definition update_zonos_with (repo : repo_status) (model : model_status)
    (answer : string) : M unit :=
  print (newline ++ repeat_string "=" 60) ;;
  print "ZONOS UPDATE CHECK" ;;
  print (repeat_string "=" 60) ;;
  repo_needs_update <- show_repository_status repo ;;
  match repo_needs_update with
  | None => mret tt
  | Some repo_needs_update =>
      model_needs_update <- show_model_status model ;;
      if negb repo_needs_update && negb model_needs_update then
        print (newline ++ "🎉 Everything is up to date!")
      else
        choice <- ask_choice repo_needs_update model_needs_update answer ;;
        update_zonos_apply P SCRIPT_DIR choice
  end.

(** [update_zonos()]. *)
Definition update_zonos (answer : string) : M unit :=
  log "INFO" "Checking for Zonos updates..." ;;
  repo_status <- check_repository_updates P SCRIPT_DIR ;;
  model_status <- check_model_updates P SCRIPT_DIR ;;
  update_zonos_with repo_status model_status answer.

End Coordinating.

(** The events that act on the outside: commands run and fetches. *)
Definition is_action (e : event) : bool :=
  match e with
  | EvFetch _ | EvCmd _ => true
  | EvLog _ _ | EvPrint _ => false
  end.

Definition actions (t : list event) : list event := filter is_action t.

(** The commands run, in order, among the events of a trace. *)
Definition commands (t : list event) : list (list string) :=
  flat_map (fun e => match e with EvCmd c => [c] | _ => [] end) t.

(* ================================================================== *)
(** * Interface discovery and the installation steps *)
(* ================================================================== *)

(** The loop of [discover_gradio_interfaces] over the entries of the
    base directory. *)
Fixpoint discover_loop (subdirs : list Path)
    (interfaces : list (string * Path)) (fs : FS) : list (string * Path) :=
  match subdirs with
  | [] => interfaces
  | subdir :: rest =>
      if Fs.is_dir subdir fs then
        let gradio_file := subdir // "gradio_interface.py" in
        if Fs.exists_ gradio_file fs
        then discover_loop rest
               (Dict.set (path_name subdir) gradio_file interfaces) fs
        else discover_loop rest interfaces fs
      else discover_loop rest interfaces fs
  end.

(** [discover_gradio_interfaces()]. *)
Definition discover_gradio_interfaces (SCRIPT_DIR : Path) (fs : FS)
  : result (list (string * Path)) :=
  let gradio_base_dir :=
    SCRIPT_DIR // REPO_NAME // "Gradio_InterfacePY_Types" in
  if negb (Fs.exists_ gradio_base_dir fs) then Ret []
  else
    (subdirs <- Fs.iterdir gradio_base_dir fs ;;
     Ret (discover_loop subdirs [] fs))%result.

Definition REPO_URL : string := "https://github.com/Zyphra/Zonos.git".
Definition VENV_NAME : string := ".".

Section Installing.
Context (P : Platform) (SCRIPT_DIR : Path).
(** [shutil.which(command) is not None], as the machine answers it. *)
Context (command_exists : string -> World -> bool).
Local Open Scope M_scope.

(** [validate_prerequisites()]. *)
Definition validate_prerequisites : M unit :=
  fun w =>
    if negb (command_exists "git" w) then (Exit 1, w)
    else if negb (command_exists "python3" w) then (Exit 1, w)
    else if negb (command_exists "apt" w) then (Exit 1, w)
    else (Ret tt, w).

(** [install_system_dependencies()]. *)
Definition install_system_dependencies : M unit :=
  run_command P ["sudo"; "apt"; "update"] true ;;
  missing <- (fun w => (Ret (negb (command_exists "espeak-ng" w)), w)) ;;
  if missing then
    run_command P ["sudo"; "apt"; "install"; "-y"; "espeak-ng"] true ;;
    mret tt
  else mret tt.

(** [try: os.chdir(path)  except OSError: sys.exit(1)]. *)
Definition chdir_or_exit (path : Path) : M unit :=
  except_Exception (chdir path) (fun _ => sys_exit 1).

(** [shutil.rmtree(path)]. *)
Definition rmtree (path : Path) : M unit :=
  fun w =>
    match Fs.rmtree path (fs w) with
    | Some fs' => (Ret tt, mkWorld fs' (trace w))
    | None => (Raise (mkExn NotADirectoryError (path_str path)), w)
    end.

(** [clone_repository()]. *)
Definition clone_repository : M unit :=
  chdir_or_exit (INSTALL_DIR SCRIPT_DIR) ;;
  let repo_path := INSTALL_DIR SCRIPT_DIR // REPO_NAME in
  present <- reading (fun fs => Ret (Fs.exists_ repo_path fs)) ;;
  (if present then rmtree repo_path else mret tt) ;;
  run_command P ["git"; "clone"; REPO_URL] true ;;
  chdir_or_exit repo_path.

(** [setup_virtual_environment()], [install_uv()], [sync_dependencies()]
    and [sync_compile_dependencies()]. *)
Definition setup_virtual_environment : M unit :=
  run_command P ["python3"; "-m"; "venv"; VENV_NAME] true ;; mret tt.

Definition install_uv : M unit :=
  run_command P ["./bin/pip"; "install"; "-U"; "uv"] true ;; mret tt.

Definition sync_dependencies : M unit :=
  run_command P ["./bin/uv"; "sync"] true ;; mret tt.

Definition sync_compile_dependencies : M unit :=
  run_command P ["./bin/uv"; "sync"; "--extra"; "compile"] true ;; mret tt.

(** The [try] statement of [install_zonos()], which follows the set-up
    of the log: the steps in order; the handler logs and raises the
    exception again.  What comes after [download_models()] in the block
    fixes ownership and reports. *)
Definition install_zonos_steps : M unit :=
  except_Exception
    (validate_prerequisites ;;
     install_system_dependencies ;;
     clone_repository ;;
     setup_virtual_environment ;;
     install_uv ;;
     sync_dependencies ;;
     sync_compile_dependencies ;;
     download_models P SCRIPT_DIR ;;
     mret tt)
    (fun e => mraise e).

End Installing.

(* ================================================================== *)
(** * Vocabulary of the statements *)
(* ================================================================== *)

(** [a] is [b] with some of its elements left out. *)
Inductive subsequence {A : Type} : list A -> list A -> Prop :=
  | subsequence_nil : subsequence [] []
  | subsequence_skip (x : A) (a b : list A) :
      subsequence a b -> subsequence a (x :: b)
  | subsequence_keep (x : A) (a b : list A) :
      subsequence a b -> subsequence (x :: a) (x :: b).

(** The commands of the version-control client that change neither the
    work tree nor the current branch. *)
Definition inspects_repository (command : list string) : bool :=
  match command with
  | "git" :: verb :: _ => one_of verb ["fetch"; "rev-parse"; "rev-list"; "log"]
  | _ => false
  end.

(** [repo_needs_update] and [model_needs_update] of [update_zonos], by
    the status they are set from. *)
Definition repository_needs_update (status : repo_status) : bool :=
  match status with
  | update_available _ _ _ _ => true
  | _ => false
  end.

Definition models_need_update (status : model_status) : bool :=
  match status with
  | models_updates_available _ => true
  | _ => false
  end.

(** The description of a registered model, as the loops read it. *)
Definition description_of (registry : Registry) (model_name : string)
  : string :=
  match Dict.get model_name registry with
  | Some model_config => cfg_description model_config
  | None => ""
  end.

(** What [verify_models] prints for the descriptions of the models that
    failed. *)
Definition verification_summary (failed_models : list string) : list event :=
  match failed_models with
  | [] => []
  | _ =>
      (EvPrint (newline ++ "Verification summary:")
       :: map (fun name => EvPrint ("  ✗ " ++ name)) failed_models
       ++ [EvPrint (newline ++
             "You may continue using verified models, or re-download the failed ones.")])%list
  end.

(* ================================================================== *)
(** * Sample inputs *)
(* ================================================================== *)

Module Sample.

(** A platform for the examples: the digest is the content behind a
    prefix, the only content that decodes is [doc_text], content that
    starts with the byte 255 is no text, every imported module is there,
    every fetch succeeds and leaves the file system as it is, every
    command completes with status 0 and no output. *)
Definition doc_text : string := "stored document".

Definition doc : json :=
  JObj [("other_model", JObj [("weights.bin", JStr "sha256:abc")])].

(** A file of one byte that starts no UTF-8 sequence. *)
Definition not_text : string := String (ascii_of_nat 255) EmptyString.

Definition no_document : exn :=
  mkExn JSONDecodeError "Expecting value: line 1 column 1 (char 0)".

Definition load (text : string) : json_outcome :=
  if String.eqb text doc_text then JsonValue doc
  else if String.prefix not_text text then
    JsonRaises
      (mkExn UnicodeDecodeError
         "'utf-8' codec can't decode byte 0xff in position 0: invalid start byte")
  else JsonRaises no_document.

Definition read_int (s : string) : int_outcome :=
  match PyStr.to_int s with
  | Some n => IntValue n
  | None =>
      IntRaises ("invalid literal for int() with base 10: '" ++ s ++ "'")
  end.

Definition platform : Platform :=
  mkPlatform (fun c => "sha256:" ++ c) load eq_refl
             (fun _ => "rewritten document") read_int
             (fun _ => 1700000000) (fun _ => "2025-07-06T12:00:00")
             (fun _ => None)
             (fun _ w => (None, fs w))
             (fun _ w => (Completed 0 "", fs w)).

(** The same platform with a fetch that fails for [bad]. *)
Definition platform_failing_on (bad : string) : Platform :=
  mkPlatform (sha256_hexdigest platform) load eq_refl
             (json_dump platform) read_int
             (clock platform) (now_isoformat platform)
             (import_modules platform)
             (fun name w =>
                if String.eqb name bad
                then (Some (mkExn OtherException "connection reset"), fs w)
                else (None, fs w))
             (run_process platform).

(** The same platform with a version-control client given by [git]. *)
Definition platform_with_git (git : list string -> proc_outcome) : Platform :=
  mkPlatform (sha256_hexdigest platform) load eq_refl
             (json_dump platform) read_int
             (clock platform) (now_isoformat platform)
             (import_modules platform) (from_pretrained platform)
             (fun command w => (git command, fs w)).

Definition SCRIPT_DIR : Path := ["opt"; "app"].
Definition models_dir : Path := SCRIPT_DIR // MODELS_DOWNLOAD_DIR.
Definition verification_file : Path := models_dir // MODEL_VERIFICATION_FILE.

(** A resolver that finds nothing, and one that always answers [p]. *)
Definition resolve_nothing : Resolver := fun _ _ _ => Ret None.
Definition resolve_to (p : Path) : Resolver := fun _ _ _ => Ret (Some p).

(** [/opt/app] with the cloned repository and an empty models directory. *)
Definition fs_installed : FS :=
  Dir 1 [("opt", Dir 1 [("app", Dir 1
     [ ("Zonos", Dir 5 []);
       ("zonos_download_models", Dir 7 []) ])])].

(** The models directory holds a cached model with two snapshots and a
    verification document. *)
Definition cache_path : Path := models_dir // "models--Zyphra--Zonos-v0.1-hybrid".

Definition snapshot (mtime : Z) (config : string) : node :=
  Dir mtime [ ("config.json", File true config);
          ("pytorch_model.bin", File true "weights");
          ("tokenizer.json", File true "tokens") ].

Definition fs_cached : FS :=
  Dir 1 [("opt", Dir 1 [("app", Dir 1
     [ ("Zonos", Dir 5 []);
       ("zonos_download_models", Dir 7
          [ ("model_verification.json", File true doc_text);
            ("models--Zyphra--Zonos-v0.1-hybrid", Dir 8
               [ ("snapshots", Dir 9
                    [ ("aaa", snapshot 100 "old");
                      ("bbb", snapshot 200 "new");
                      ("README", File true "notes") ]) ]) ]) ])])].


Definition world (f : FS) : World := mkWorld f [].

(** The registry reduced to the cached model, the hashes of its files in
    the later snapshot, the document as [save_model_verification] builds
    it from them, and a document that maps the file names directly. *)
Definition hybrid_only : Registry :=
  [ ("Zyphra/Zonos-v0.1-hybrid",
     mkConfig "hybrid_model" "Zonos v0.1 Hybrid Model"
              ["config.json"; "pytorch_model.bin"; "tokenizer.json"]) ].

Definition hybrid_hashes : list (string * json) :=
  [ ("config.json", JStr "sha256:new");
    ("pytorch_model.bin", JStr "sha256:weights");
    ("tokenizer.json", JStr "sha256:tokens") ].

Definition recorded_data : json :=
  JObj [ ("hybrid_model",
          verification_record hybrid_hashes "Zyphra/Zonos-v0.1-hybrid"
            "2025-07-06T12:00:00" cache_path) ].

Definition flat_data : json := JObj [ ("hybrid_model", JObj hybrid_hashes) ].


(** A client whose refs differ and whose count command prints a word. *)
Definition git_count_garbled (command : list string) : proc_outcome :=
  match command with
  | ["git"; "rev-parse"; "HEAD"] => Completed 0 "1111111111111111"
  | ["git"; "rev-parse"; "origin/main"] => Completed 0 "2222222222222222"
  | "git" :: "rev-list" :: _ => Completed 0 "many"
  | "git" :: "log" :: _ => Completed 0 "Fix the tokenizer"
  | _ => Completed 0 ""
  end.

(** Texts outside ASCII, by the bytes of their encoding: U+00A0, U+2003
    and U+3000, which are white space; U+200B, which is not; U+212A, the
    Kelvin sign; U+00E9. *)
Definition bytes (l : list nat) : string :=
  fold_right (fun n s => String (ascii_of_nat n) s) EmptyString l.

Definition no_break_space : string := bytes [194; 160]%nat.
Definition em_space : string := bytes [226; 128; 131]%nat.
Definition ideographic_space : string := bytes [227; 128; 128]%nat.
Definition zero_width_space : string := bytes [226; 128; 139]%nat.
Definition kelvin_sign : string := bytes [226; 132; 170]%nat.
Definition e_acute : string := bytes [195; 169]%nat.

(** A machine without a version-control client. *)
Definition git_missing (command : list string) : proc_outcome :=
  SpawnFailed (mkExn FileNotFoundError "git").

(** A platform on which every text of the verification document but the
    empty one decodes to [document]. *)
Definition platform_loading (document : json) : Platform :=
  mkPlatform (sha256_hexdigest platform)
             (fun text => if String.eqb text ""
                          then JsonRaises no_document
                          else JsonValue document)
             eq_refl
             (json_dump platform) read_int
             (clock platform) (now_isoformat platform)
             (import_modules platform) (from_pretrained platform)
             (run_process platform).

(** The installation with a verification document that cannot be read. *)
Definition fs_unreadable_document : FS :=
  Dir 1 [("opt", Dir 1 [("app", Dir 1
     [ ("Zonos", Dir 5 []);
       ("zonos_download_models", Dir 7
          [ ("model_verification.json", File false "{}") ]) ])])].

(** The repository with two interface directories, a directory without
    an interface file, and a file beside them. *)
Definition fs_with_interfaces : FS :=
  Dir 1 [("opt", Dir 1 [("app", Dir 1
     [ ("Zonos", Dir 5
          [ ("Gradio_InterfacePY_Types", Dir 6
               [ ("Inference Mode Gradio", Dir 6
                    [ ("gradio_interface.py", File true "import gradio") ]);
                 ("Drafts", Dir 6 [ ("notes.txt", File true "todo") ]);
                 ("README.md", File true "interfaces");
                 ("Streaming", Dir 6
                    [ ("gradio_interface.py", File true "import gradio") ]) ]) ]) ])])].

(** A client whose pull fails, and an installation whose dependency
    sync fails. *)
Definition git_pull_fails (command : list string) : proc_outcome :=
  match command with
  | "git" :: "pull" :: _ => Completed 1 "fatal: unable to access"
  | _ => Completed 0 ""
  end.

Definition sync_fails (command : list string) : proc_outcome :=
  match command with
  | "./bin/uv" :: _ => Completed 2 "error: resolution failed"
  | "git" :: "stash" :: _ => Completed 1 "No local changes to save"
  | _ => Completed 0 ""
  end.




(** A machine with every prerequisite, and one without [apt]. *)
Definition every_command (command : string) (w : World) : bool := true.

Definition without_apt (command : string) (w : World) : bool :=
  negb (String.eqb command "apt").

End Sample.

(* ================================================================== *)
(** * Facts about dictionaries and the monad *)
(* ================================================================== *)

Lemma dict_get_set_same {V} (k : string) (v : V) (d : list (string * V)) :
  Dict.get k (Dict.set k v d) = Some v.
Proof.
  induction d as [|[k' v'] d IH]; simpl.
  - now rewrite String.eqb_refl.
  - destruct (String.eqb k k') eqn:E; simpl.
    + now rewrite String.eqb_refl.
    + now rewrite E.
Qed.

Lemma dict_get_set_other {V} (k k0 : string) (v : V) (d : list (string * V)) :
  k0 <> k -> Dict.get k0 (Dict.set k v d) = Dict.get k0 d.
Proof.
  intros Hne. induction d as [|[k' v'] d IH]; simpl.
  - destruct (String.eqb_spec k0 k); [contradiction | reflexivity].
  - destruct (String.eqb_spec k k') as [->|Hkk']; simpl.
    + destruct (String.eqb_spec k0 k'); [contradiction | reflexivity].
    + destruct (String.eqb_spec k0 k'); [reflexivity | exact IH].
Qed.

Lemma dict_get_of_key {V} (k : string) (d : list (string * V)) :
  In k (Dict.keys d) -> exists v, Dict.get k d = Some v.
Proof.
  induction d as [|[k' v'] d IH]; simpl; [tauto|].
  intros [->|Hin].
  - rewrite String.eqb_refl. eauto.
  - destruct (String.eqb k k'); eauto.
Qed.

Lemma fetched_app (t u : list event) :
  fetched (t ++ u) = (fetched t ++ fetched u)%list.
Proof. unfold fetched. apply flat_map_app. Qed.

(* ================================================================== *)
(** * The resolver and what depends on it *)
(* ================================================================== *)

(** C3 (fails on the code).  For every model identity, cache root and
    file system, [get_model_cache_path] raises [TypeError] while it builds
    its first candidate: it returns neither a path nor [None]. *)
Theorem get_model_cache_path_raises :
  forall (model_name : string) (models_dir : Path) (fs : FS),
    get_model_cache_path model_name models_dir fs = Raise path_plus_str_error.
Proof. intros. reflexivity. Qed.

(** C2 (fails on the code).  For both artifacts of [MODEL_CONFIGS], and
    whatever the cache root, the verification document and the file
    system, [verify_model_integrity] raises [TypeError]; it does not fail
    closed with [False]. *)
Theorem verify_model_integrity_raises :
  forall (P : Platform) (models_dir : Path) (verification_data : json)
         (fs : FS),
    verify_model_integrity P "Zyphra/Zonos-v0.1-hybrid" models_dir
      verification_data fs = Raise path_plus_str_error /\
    verify_model_integrity P "Zyphra/Zonos-v0.1-transformer" models_dir
      verification_data fs = Raise path_plus_str_error.
Proof. intros. split; reflexivity. Qed.

(** A record written by [save_model_verification] is never accepted by
    the verifier: the verifier looks the file names up in the record
    itself, the recorder stores them one level down, under [hashes]. *)
Lemma verifier_rejects_recorded_hashes (P : Platform) (resolve : Resolver)
    (registry : Registry) (model_name : string) (models_dir : Path)
    (verification_data : json) (fs : FS) (model_config : model_config)
    (model_hashes : list (string * json)) (download_time : string)
    (cache_path : Path) (file_name : string) (rest : list string) :
  Dict.get model_name registry = Some model_config ->
  files_to_check model_config = file_name :: rest ->
  one_of file_name ["hashes"; "model_name"; "download_time"; "cache_path"]
    = false ->
  py_getitem verification_data (cfg_name model_config)
    = Ret (verification_record model_hashes model_name download_time
             cache_path) ->
  verify_model_integrity_via P resolve registry model_name models_dir
    verification_data fs <> Ret true.
Proof.
  intros Hcfg Hfiles Hname Hrec.
  unfold verify_model_integrity_via. rewrite Hcfg.
  destruct (resolve model_name models_dir fs) as [[cp|]|e|c];
    simpl; try discriminate.
  destruct (negb (Fs.exists_ cp fs)); [discriminate|].
  destruct (py_contains _ verification_data) as [[|]|e|c];
    simpl; try discriminate.
  rewrite Hrec. simpl.
  destruct (model_files_dir_of cp fs) as [d|e|c]; simpl; try discriminate.
  rewrite Hfiles. simpl.
  destruct (negb (Fs.exists_ _ fs)); [discriminate|].
  destruct (calculate_file_hash P _ fs) as [h|e|c]; simpl; try discriminate.
  destruct (negb (PyStr.truthy h)); [discriminate|].
  unfold one_of in Hname. simpl in Hname.
  unfold Dict.mem. simpl.
  destruct (String.eqb file_name "hashes"); [discriminate|].
  destruct (String.eqb file_name "model_name"); [discriminate|].
  destruct (String.eqb file_name "download_time"); [discriminate|].
  destruct (String.eqb file_name "cache_path"); discriminate.
Qed.

(* ================================================================== *)
(** * VerificationStore: loading *)
(* ================================================================== *)




(* ================================================================== *)
(** * IntegrityVerifier: snapshot selection *)
(* ================================================================== *)

Lemma max_by_spec {A} (key : A -> Z) (l : list A) (x : A) :
  In (max_by key x l) (x :: l) /\
  forall y, In y (x :: l) -> key y <= key (max_by key x l).
Proof.
  unfold max_by. revert x.
  induction l as [|a l IH]; intros x; simpl.
  - split; [now left | intros y [<-|[]]; lia].
  - destruct (IH (if key x <? key a then a else x)) as [Hin Hge].
    split.
    + destruct Hin as [Hin|Hin]; [|now right; right].
      rewrite <- Hin. destruct (key x <? key a); [right; now left | now left].
    + intros y [<-|[<-|Hy]].
      * etransitivity; [|apply Hge; now left].
        destruct (Z.ltb_spec (key x) (key a)); lia.
      * etransitivity; [|apply Hge; now left].
        destruct (Z.ltb_spec (key x) (key a)); lia.
      * apply Hge. now right.
Qed.

Lemma snapshot_dirs_exists (cache_path : Path) (fs : FS) (l : list Path) :
  snapshot_dirs cache_path fs = Ret l ->
  Fs.exists_ (cache_path // "snapshots") fs = true.
Proof.
  unfold snapshot_dirs, Fs.iterdir, Fs.exists_, rbind.
  destruct (Fs.lookup _ fs) as [[r c|m es]|]; now try discriminate.
Qed.

(** C7.  When the resolved cache location holds a [snapshots] directory
    with at least one subdirectory, the directory of the model files is
    the snapshot subdirectory with the greatest modification time, and
    the verifier's answer is the check of the required files below that
    directory; of two snapshots with different modification times it is
    the later one. *)
Theorem verifier_reads_latest_snapshot :
  forall (cache_path : Path) (fs : FS) (snapshots : list Path),
    snapshot_dirs cache_path fs = Ret snapshots ->
    snapshots <> [] ->
    exists latest,
      In latest snapshots /\
      (forall d, In d snapshots -> Fs.mtime d fs <= Fs.mtime latest fs) /\
      (forall a b, snapshots = [a; b] -> Fs.mtime a fs <> Fs.mtime b fs ->
         latest = if Fs.mtime a fs <? Fs.mtime b fs then b else a) /\
      model_files_dir_of cache_path fs = Ret latest /\
      (forall (P : Platform) (resolve : Resolver) (registry : Registry)
              (model_name : string) (models_dir : Path)
              (verification_data stored_hashes : json)
              (model_config : model_config),
          Dict.get model_name registry = Some model_config ->
          resolve model_name models_dir fs = Ret (Some cache_path) ->
          Fs.exists_ cache_path fs = true ->
          py_contains (cfg_name model_config) verification_data = Ret true ->
          py_getitem verification_data (cfg_name model_config)
            = Ret stored_hashes ->
          verify_model_integrity_via P resolve registry model_name
            models_dir verification_data fs
          = verify_files P (files_to_check model_config) latest
              stored_hashes fs).
Proof.
  intros cp fs snaps Hs Hne.
  destruct snaps as [|d ds]; [contradiction|].
  destruct (max_by_spec (fun x => Fs.mtime x fs) ds d) as [Hin Hge].
  assert (Hdir : model_files_dir_of cp fs
                 = Ret (max_by (fun x => Fs.mtime x fs) d ds)).
  { unfold model_files_dir_of.
    rewrite (snapshot_dirs_exists _ _ _ Hs), Hs. reflexivity. }
  exists (max_by (fun x => Fs.mtime x fs) d ds).
  repeat split; try assumption.
  - intros a b E Hab. injection E as -> ->. reflexivity.
  - intros P resolve registry name dir data stored cfg Hc Hr He Hk Hg.
    unfold verify_model_integrity_via.
    rewrite Hc, Hr. simpl. rewrite He. simpl.
    rewrite Hk. simpl. rewrite Hg. simpl. rewrite Hdir. reflexivity.
Qed.

Lemma verifier_reads_latest_snapshot_witness :
  snapshot_dirs Sample.cache_path Sample.fs_cached
    = Ret [Sample.cache_path // "snapshots" // "aaa";
           Sample.cache_path // "snapshots" // "bbb"] /\
  model_files_dir_of Sample.cache_path Sample.fs_cached
    = Ret (Sample.cache_path // "snapshots" // "bbb").
Proof.
  split; [reflexivity|].
  destruct (verifier_reads_latest_snapshot Sample.cache_path Sample.fs_cached
              [Sample.cache_path // "snapshots" // "aaa";
               Sample.cache_path // "snapshots" // "bbb"])
    as (latest & _ & _ & Hlate & Hdir & _).
  - reflexivity.
  - discriminate.
  - rewrite Hdir. f_equal.
    exact (Hlate _ _ eq_refl
             (fun E : Fs.mtime (Sample.cache_path // "snapshots" // "aaa")
                        Sample.fs_cached
                      = Fs.mtime (Sample.cache_path // "snapshots" // "bbb")
                          Sample.fs_cached =>
                ltac:(discriminate E))).
Defined.

(* ================================================================== *)
(** * VerificationStore: saving *)
(* ================================================================== *)

Lemma try_dump_run (P : Platform) (f : Path) (data : json) (w : World) :
  exists w', try_dump P f data w = (Ret tt, w') /\ trace w' = trace w /\
    (fs w' = fs w \/ Fs.write f (json_dump P data) (fs w) = Some (fs w')).
Proof.
  unfold try_dump. destruct (Fs.write f _ (fs w)) as [fs'|] eqn:E.
  - eexists. split; [reflexivity|]. simpl. auto.
  - eexists. split; [reflexivity|]. auto.
Qed.

Lemma save_model_verification_effect :
  forall (P : Platform) (resolve : Resolver) (registry : Registry)
         (model_name : string) (models_dir verification_file : Path)
         (w : World),
    let w' := snd (save_model_verification_via P resolve registry model_name
                     models_dir verification_file w) in
    trace w' = trace w /\
    (fs w' = fs w \/
     exists model_config loaded saved,
       Dict.get model_name registry = Some model_config /\
       existing_verification_data P verification_file (fs w)
         = Ret (JObj loaded) /\
       Fs.write verification_file (json_dump P (JObj saved)) (fs w)
         = Some (fs w') /\
       (exists record,
           Dict.get (cfg_name model_config) saved = Some record) /\
       forall key, key <> cfg_name model_config ->
                   Dict.get key saved = Dict.get key loaded).
Proof.
  intros P resolve registry name dir f w. simpl.
  unfold save_model_verification_via.
  destruct (Dict.get name registry) as [cfg|] eqn:Hcfg;
    [|simpl; auto].
  unfold mbind, reading, pure_result, mret.
  destruct (existing_verification_data P f (fs w)) as [data|e|c] eqn:Hload;
    simpl; auto.
  destruct (resolve name dir (fs w)) as [[cp|]|e|c]; simpl; auto.
  destruct (model_files_dir_of cp (fs w)) as [mdir|e|c]; simpl; auto.
  destruct (hash_present_files P (files_to_check cfg) mdir [] (fs w))
    as [hashes|e|c]; simpl; auto.
  destruct data as [| | | | |loaded]; simpl; auto.
  destruct (try_dump_run P f
              (JObj (Dict.set (cfg_name cfg)
                       (verification_record hashes name (now_isoformat P w) cp)
                       loaded)) w) as (w' & E & Ht & Hfs).
  rewrite E. simpl. split; [exact Ht|].
  destruct Hfs as [Hfs|Hfs]; [now left|right].
  exists cfg, loaded,
    (Dict.set (cfg_name cfg)
       (verification_record hashes name (now_isoformat P w) cp) loaded).
  repeat split; try assumption.
  - eexists. apply dict_get_set_same.
  - intros key Hkey. now apply dict_get_set_other.
Qed.





Lemma save_model_verification_trace (P : Platform) (resolve : Resolver)
    (registry : Registry) (name : string) (dir f : Path) (w : World) :
  trace (snd (save_model_verification_via P resolve registry name dir f w))
  = trace w.
Proof. apply (save_model_verification_effect P resolve registry name dir f w). Qed.

(** A save that does write: the document is replaced. *)
Example save_model_verification_writes :
  Fs.read Sample.verification_file
    (fs (snd (save_model_verification_via Sample.platform
                (Sample.resolve_to Sample.cache_path) MODEL_CONFIGS
                "Zyphra/Zonos-v0.1-hybrid" Sample.models_dir
                Sample.verification_file (Sample.world Sample.fs_cached))))
  = Ret "rewritten document".
Proof. reflexivity. Qed.

(* ================================================================== *)
(** * SyncOrchestrator *)
(* ================================================================== *)

Lemma ensure_directory_permissions_trace (P : Platform) (d : Path) (w : World) :
  fst (ensure_directory_permissions P d w) = Ret tt /\
  trace (snd (ensure_directory_permissions P d w)) = trace w.
Proof.
  unfold ensure_directory_permissions.
  destruct (negb (Fs.exists_ d (fs w))); [|split; reflexivity].
  destruct (Fs.mkdir_p (clock P w) d (fs w)); split; reflexivity.
Qed.

Lemma load_verification_data_no_exit (P : Platform) (f : Path) (fs : FS)
    (c : Z) :
  load_verification_data P f fs <> Exit c.
Proof.
  unfold load_verification_data, rcatch, json_load_file, rbind, Fs.read.
  destruct (negb _); [discriminate|].
  destruct (Fs.lookup f fs) as [[[|] t|m es]|]; simpl; try discriminate.
  destruct (json_load P t) as [v|e]; simpl; [discriminate|].
  destruct (isinstance e JSONDecodeError || _); discriminate.
Qed.

Section Orchestrator.
Context (P : Platform) (resolve : Resolver) (registry : Registry).
Context (models_dir verification_file : Path) (verification_data : json).

Lemma attempt_trace (model_name : string) (w : World) :
  trace (snd (download_attempt P resolve registry models_dir
                verification_file model_name w))
  = (trace w ++ [EvFetch model_name])%list.
Proof.
  unfold download_attempt, except_Exception, mbind, fetch, reading, mret,
    mraise.
  destruct (from_pretrained P model_name w) as [[e|] fs']; [reflexivity|].
  set (w1 := mkWorld fs' (trace w ++ [EvFetch model_name])).
  pose proof (save_model_verification_trace P resolve registry model_name
                models_dir verification_file w1) as Hs.
  destruct (save_model_verification_via P resolve registry model_name
              models_dir verification_file w1) as [[[]|e|c] ws];
    simpl in Hs; try exact Hs.
  destruct (resolve model_name models_dir (fs ws)); exact Hs.
Qed.

Lemma attempt_fetch_fails (model_name : string) (w : World) (e : exn)
    (fs' : FS) :
  from_pretrained P model_name w = (Some e, fs') ->
  download_attempt P resolve registry models_dir verification_file
    model_name w
  = (Raise e, mkWorld fs' (trace w ++ [EvFetch model_name])).
Proof.
  intros H. unfold download_attempt, except_Exception, mbind, fetch.
  rewrite H. reflexivity.
Qed.

(** One turn of the loop, by the verifier's answer. *)
Lemma loop_cons (model_name : string) (rest downloaded : list string)
    (w : World) :
  download_loop P resolve registry models_dir verification_file
    verification_data (model_name :: rest) downloaded w =
  match Dict.get model_name registry with
  | None => (Raise (mkExn KeyError model_name), w)
  | Some _ =>
      match verify_model_integrity_via P resolve registry model_name
              models_dir verification_data (fs w) with
      | Ret true =>
          download_loop P resolve registry models_dir verification_file
            verification_data rest downloaded w
      | Ret false =>
          match download_attempt P resolve registry models_dir
                  verification_file model_name w with
          | (Ret _, w') =>
              download_loop P resolve registry models_dir verification_file
                verification_data rest (downloaded ++ [model_name])%list w'
          | (Raise e, w') => (Raise e, w')
          | (Exit c, w') => (Exit c, w')
          end
      | Raise e => (Raise e, w)
      | Exit c => (Exit c, w)
      end
  end.
Proof.
  simpl.
  destruct (Dict.get model_name registry); [|reflexivity].
  unfold mbind at 1, reading at 1.
  destruct (verify_model_integrity_via _ _ _ _ _ _ _) as [[|]|e|c];
    reflexivity.
Qed.

Lemma loop_app (pre rest downloaded : list string) (w : World) :
  download_loop P resolve registry models_dir verification_file
    verification_data (pre ++ rest) downloaded w =
  match download_loop P resolve registry models_dir verification_file
          verification_data pre downloaded w with
  | (Ret downloaded', w') =>
      download_loop P resolve registry models_dir verification_file
        verification_data rest downloaded' w'
  | (Raise e, w') => (Raise e, w')
  | (Exit c, w') => (Exit c, w')
  end.
Proof.
  revert downloaded w.
  induction pre as [|n pre IH]; intros downloaded w; [reflexivity|].
  rewrite <- app_comm_cons, !loop_cons.
  destruct (Dict.get n registry); [|reflexivity].
  destruct (verify_model_integrity_via _ _ _ _ _ _ _) as [[|]|e|c];
    try reflexivity; [apply IH|].
  destruct (download_attempt _ _ _ _ _ n w) as [[[]|e|c] w'];
    try reflexivity.
  apply IH.
Qed.

(** The list the loop returns is what it was given followed by the
    artifacts it fetched, in order. *)
Lemma loop_fetched (names downloaded : list string) (w : World)
    (l : list string) (w' : World) :
  download_loop P resolve registry models_dir verification_file
    verification_data names downloaded w = (Ret l, w') ->
  exists d, l = (downloaded ++ d)%list /\
            fetched (trace w') = (fetched (trace w) ++ d)%list.
Proof.
  revert downloaded w.
  induction names as [|n names IH]; intros downloaded w H.
  - injection H as <- <-. exists []. now rewrite !app_nil_r.
  - rewrite loop_cons in H.
    destruct (Dict.get n registry); [|discriminate].
    destruct (verify_model_integrity_via _ _ _ _ _ _ _) as [[|]|e|c];
      try discriminate; [now apply IH|].
    pose proof (attempt_trace n w) as Ht.
    destruct (download_attempt _ _ _ _ _ n w) as [[[]|e|c] w1];
      try discriminate.
    simpl in Ht. apply IH in H. destruct H as (d & -> & Hf).
    exists (n :: d). rewrite Hf, Ht, fetched_app. simpl.
    now rewrite <- !app_assoc.
Qed.

(** An artifact the verifier accepts at its turn is skipped: the loop
    goes on in the same world, with no fetch. *)
Lemma loop_skips_verified (model_name : string)
    (rest downloaded : list string) (w : World) :
  In model_name (Dict.keys registry) ->
  verify_model_integrity_via P resolve registry model_name models_dir
    verification_data (fs w) = Ret true ->
  download_loop P resolve registry models_dir verification_file
    verification_data (model_name :: rest) downloaded w
  = download_loop P resolve registry models_dir verification_file
      verification_data rest downloaded w.
Proof.
  intros Hin Hv. rewrite loop_cons, Hv.
  destruct (dict_get_of_key _ _ Hin) as [cfg ->]. reflexivity.
Qed.

End Orchestrator.

(** The world in which the loop of [download_models] starts. *)
Lemma download_models_prelude (P : Platform) (resolve : Resolver)
    (registry : Registry) (SCRIPT_DIR : Path) (w : World) :
  let models_dir := SCRIPT_DIR // MODELS_DOWNLOAD_DIR in
  let verification_file := models_dir // MODEL_VERIFICATION_FILE in
  let w1 := snd (ensure_directory_permissions P models_dir
                   (snd (ensure_directory_permissions P models_dir w))) in
  trace w1 = trace w /\
  download_models_via P resolve registry SCRIPT_DIR w =
  match load_verification_data P verification_file (fs w1) with
  | Ret verification_data =>
      match import_modules P w1 with
      | Some _ => (Exit 1, w1)
      | None =>
          match download_loop P resolve registry models_dir
                  verification_file verification_data
                  (Dict.keys registry) [] w1 with
          | (Ret _, w') => (Ret RNone, w')
          | (Raise _, w') => (Exit 1, w')
          | (Exit c, w') => (Exit c, w')
          end
      end
  | Raise e => (Raise e, w1)
  | Exit c => (Exit c, w1)
  end.
Proof.
  simpl. set (d := SCRIPT_DIR // MODELS_DOWNLOAD_DIR).
  unfold download_models_via, setup_environment_variables. fold d.
  unfold mbind at 1.
  destruct (ensure_directory_permissions_trace P d w) as [R1 T1].
  destruct (ensure_directory_permissions P d w) as [r1 w1].
  simpl in R1, T1 |- *; subst r1.
  unfold mbind at 1.
  destruct (ensure_directory_permissions_trace P d w1) as [R2 T2].
  destruct (ensure_directory_permissions P d w1) as [r2 w2].
  simpl in R2, T2 |- *; subst r2.
  split; [congruence|].
  unfold mbind at 1, reading at 1.
  destruct (load_verification_data P _ (fs w2)) as [data|e|c];
    try reflexivity.
  unfold except_Exception, mbind at 1.
  destruct (import_modules P w2) as [e|].
  - destruct (isinstance e ImportError); reflexivity.
  - unfold mbind.
    destruct (download_loop _ _ _ _ _ _ _ _ w2) as [[l|e|c] w'];
      try reflexivity.
    destruct (isinstance e ImportError); reflexivity.
Qed.

(** C5.  When the fetch of an artifact raises, the run ends there with
    exit status 1: the failed fetch is the last event, so no later
    artifact is fetched, and the file system is the one the failed fetch
    left, so no record was written for the artifact. *)
Theorem fetch_failure_aborts_run :
  forall (P : Platform) (resolve : Resolver) (registry : Registry)
         (SCRIPT_DIR : Path) (w : World)
         (earlier later downloaded : list string) (model_name : string)
         (verification_data : json) (w_turn : World) (e : exn) (fs' : FS),
    let models_dir := SCRIPT_DIR // MODELS_DOWNLOAD_DIR in
    let verification_file := models_dir // MODEL_VERIFICATION_FILE in
    let w1 := snd (ensure_directory_permissions P models_dir
                     (snd (ensure_directory_permissions P models_dir w))) in
    load_verification_data P verification_file (fs w1)
      = Ret verification_data ->
    import_modules P w1 = None ->
    Dict.keys registry = (earlier ++ model_name :: later)%list ->
    download_loop P resolve registry models_dir verification_file
      verification_data earlier [] w1 = (Ret downloaded, w_turn) ->
    verify_model_integrity_via P resolve registry model_name models_dir
      verification_data (fs w_turn) = Ret false ->
    from_pretrained P model_name w_turn = (Some e, fs') ->
    exists w_end,
      download_models_via P resolve registry SCRIPT_DIR w = (Exit 1, w_end) /\
      trace w_end = (trace w_turn ++ [EvFetch model_name])%list /\
      fs w_end = fs' /\
      (Fs.lookup verification_file fs'
         = Fs.lookup verification_file (fs w_turn) ->
       Fs.lookup verification_file (fs w_end)
         = Fs.lookup verification_file (fs w_turn)).
Proof.
  intros P resolve registry S w earlier later downloaded name data w_turn
         e fs' models_dir vf w1 Hload Himp Hkeys Hpre Hver Hfetch.
  exists (mkWorld fs' (trace w_turn ++ [EvFetch name])).
  split; [|simpl; auto].
  destruct (download_models_prelude P resolve registry S w) as [_ ->].
  fold models_dir vf w1. rewrite Hload, Himp, Hkeys, loop_app, Hpre.
  rewrite loop_cons, Hver.
  assert (Hin : In name (Dict.keys registry)).
  { rewrite Hkeys. apply in_or_app. right. now left. }
  destruct (dict_get_of_key _ _ Hin) as [cfg ->].
  now rewrite (attempt_fetch_fails _ _ _ _ _ _ _ _ _ Hfetch).
Qed.

Lemma fetch_failure_aborts_run_witness :
  download_models_via
    (Sample.platform_failing_on "Zyphra/Zonos-v0.1-transformer")
    Sample.resolve_nothing MODEL_CONFIGS Sample.SCRIPT_DIR
    (Sample.world Sample.fs_installed)
  = (Exit 1,
     mkWorld Sample.fs_installed
       [EvFetch "Zyphra/Zonos-v0.1-hybrid";
        EvFetch "Zyphra/Zonos-v0.1-transformer"]).
Proof.
  destruct (fetch_failure_aborts_run
              (Sample.platform_failing_on "Zyphra/Zonos-v0.1-transformer")
              Sample.resolve_nothing MODEL_CONFIGS Sample.SCRIPT_DIR
              (Sample.world Sample.fs_installed)
              ["Zyphra/Zonos-v0.1-hybrid"] []
              ["Zyphra/Zonos-v0.1-hybrid"]
              "Zyphra/Zonos-v0.1-transformer" (JObj [])
              (mkWorld Sample.fs_installed
                 [EvFetch "Zyphra/Zonos-v0.1-hybrid"])
              (mkExn OtherException "connection reset")
              Sample.fs_installed
              eq_refl eq_refl eq_refl eq_refl eq_refl eq_refl)
    as (w_end & Hrun & Htrace & Hfs & _).
  rewrite Hrun. destruct w_end as [f t]. simpl in Htrace, Hfs.
  now rewrite Htrace, Hfs.
Defined.

(** Two runs that complete, neither of them a run of the program: one
    over an empty registry with the program's resolver, one over
    [MODEL_CONFIGS] with a resolver that finds nothing, which fetches
    both artifacts.  Each returns [None]. *)
Example download_models_via_returns_none_examples :
  download_models_via Sample.platform get_model_cache_path []
    Sample.SCRIPT_DIR (Sample.world Sample.fs_installed)
  = (Ret RNone, Sample.world Sample.fs_installed) /\
  RNone <> RList [] /\
  download_models_via Sample.platform Sample.resolve_nothing MODEL_CONFIGS
    Sample.SCRIPT_DIR (Sample.world Sample.fs_installed)
  = (Ret RNone,
     mkWorld Sample.fs_installed
       [EvFetch "Zyphra/Zonos-v0.1-hybrid";
        EvFetch "Zyphra/Zonos-v0.1-transformer"]) /\
  RNone <> RList ["Zyphra/Zonos-v0.1-hybrid";
                  "Zyphra/Zonos-v0.1-transformer"].
Proof. repeat split; (reflexivity || discriminate). Qed.

(** Over any resolver and registry, a run of the orchestrator that
    completes returns [None]; the list [downloaded_models] its loop built
    holds exactly the artifacts fetched during the run, in the order of
    the fetches. *)
Lemma download_models_returns_none :
  forall (P : Platform) (resolve : Resolver) (registry : Registry)
         (SCRIPT_DIR : Path) (w : World) (v : pyret) (w_end : World),
    download_models_via P resolve registry SCRIPT_DIR w = (Ret v, w_end) ->
    v = RNone /\
    exists (verification_data : json) (w1 : World)
           (downloaded_models : list string),
      download_loop P resolve registry (SCRIPT_DIR // MODELS_DOWNLOAD_DIR)
        (SCRIPT_DIR // MODELS_DOWNLOAD_DIR // MODEL_VERIFICATION_FILE)
        verification_data (Dict.keys registry) [] w1
      = (Ret downloaded_models, w_end) /\
      trace w1 = trace w /\
      fetched (trace w_end)
      = (fetched (trace w) ++ downloaded_models)%list.
Proof.
  intros P resolve registry S w v w_end H.
  destruct (download_models_prelude P resolve registry S w) as [Ht E].
  rewrite E in H. clear E.
  destruct (load_verification_data P _ _) as [data|e|c]; try discriminate.
  destruct (import_modules P _); try discriminate.
  destruct (download_loop _ _ _ _ _ _ _ _ _) as [[l|e|c] w'] eqn:L;
    try discriminate.
  injection H as <- <-. split; [reflexivity|].
  exists data. eexists. exists l. split; [exact L|]. split; [exact Ht|].
  destruct (loop_fetched _ _ _ _ _ _ _ _ _ _ _ L) as (d & -> & Hf).
  simpl. now rewrite Hf, Ht.
Qed.

Example download_models_returns_none_example :
  let w_end := mkWorld Sample.fs_installed
                 [EvFetch "Zyphra/Zonos-v0.1-hybrid";
                  EvFetch "Zyphra/Zonos-v0.1-transformer"] in
  download_models_via Sample.platform Sample.resolve_nothing MODEL_CONFIGS
    Sample.SCRIPT_DIR (Sample.world Sample.fs_installed)
  = (Ret RNone, w_end) /\
  exists (verification_data : json) (w1 : World)
         (downloaded_models : list string),
    download_loop Sample.platform Sample.resolve_nothing MODEL_CONFIGS
      Sample.models_dir Sample.verification_file
      verification_data (Dict.keys MODEL_CONFIGS) [] w1
    = (Ret downloaded_models, w_end) /\
    trace w1 = [] /\
    fetched (trace w_end) = ([] ++ downloaded_models)%list.
Proof.
  split; [reflexivity|].
  exact (proj2 (download_models_returns_none Sample.platform
                  Sample.resolve_nothing MODEL_CONFIGS Sample.SCRIPT_DIR
                  (Sample.world Sample.fs_installed) RNone _ eq_refl)).
Defined.

Lemma download_models_run (P : Platform) (SCRIPT_DIR : Path) (w : World) :
  exists r w',
    download_models P SCRIPT_DIR w = (r, w') /\
    (r = Exit 1 \/ exists e, r = Raise e) /\ trace w' = trace w.
Proof.
  unfold download_models, download_models_via, setup_environment_variables.
  set (d := SCRIPT_DIR // MODELS_DOWNLOAD_DIR).
  unfold mbind at 1.
  destruct (ensure_directory_permissions_trace P d w) as [R1 T1].
  destruct (ensure_directory_permissions P d w) as [r1 w1].
  simpl in R1, T1; subst r1.
  unfold mbind at 1.
  destruct (ensure_directory_permissions_trace P d w1) as [R2 T2].
  destruct (ensure_directory_permissions P d w1) as [r2 w2].
  simpl in R2, T2; subst r2.
  unfold mbind at 1, reading at 1.
  destruct (load_verification_data P _ (fs w2)) as [data|e|c] eqn:L.
  - unfold except_Exception, mbind at 1.
    destruct (import_modules P w2) as [e|].
    + destruct (isinstance e ImportError); do 2 eexists;
        (split; [reflexivity | split; [now left | congruence]]).
    + do 2 eexists. split; [reflexivity | split; [now left | congruence]].
  - do 2 eexists. split; [reflexivity | split; [right; eauto | congruence]].
  - now apply load_verification_data_no_exit in L.
Qed.

(** Whatever the platform, the script directory and the world, a run of
    [download_models] over [MODEL_CONFIGS] does not complete: it exits
    with status 1, or raises before its [try], and it adds no event, so
    no fetch, to the trace. *)
Lemma download_models_never_completes :
  forall (P : Platform) (SCRIPT_DIR : Path) (w : World),
    (fst (download_models P SCRIPT_DIR w) = Exit 1 \/
     exists e, fst (download_models P SCRIPT_DIR w) = Raise e) /\
    trace (snd (download_models P SCRIPT_DIR w)) = trace w.
Proof.
  intros P S w.
  destruct (download_models_run P S w) as (r & w' & E & Hr & Ht).
  rewrite E. simpl. split; assumption.
Qed.




(** The hashes the recorder computes for the cached model, and the two
    ways a document can hold them.  Under a resolver that finds the
    cache, the artifact recorded the recorder's way is fetched again;
    only a document that maps the file names directly lets the loop skip
    it. *)
Example recorder_hashes_of_cached_model :
  hash_present_files Sample.platform
    ["config.json"; "pytorch_model.bin"; "tokenizer.json"]
    (Sample.cache_path // "snapshots" // "bbb") [] Sample.fs_cached
  = Ret Sample.hybrid_hashes.
Proof. reflexivity. Qed.

Example recorded_artifact_is_fetched_again :
  let run := download_loop Sample.platform
               (Sample.resolve_to Sample.cache_path) Sample.hybrid_only
               Sample.models_dir Sample.verification_file
               Sample.recorded_data ["Zyphra/Zonos-v0.1-hybrid"] []
               (Sample.world Sample.fs_cached) in
  fst run = Ret ["Zyphra/Zonos-v0.1-hybrid"] /\
  trace (snd run) = [EvFetch "Zyphra/Zonos-v0.1-hybrid"].
Proof. split; reflexivity. Qed.

Example flat_document_is_skipped :
  download_loop Sample.platform
    (Sample.resolve_to Sample.cache_path) Sample.hybrid_only
    Sample.models_dir Sample.verification_file
    Sample.flat_data ["Zyphra/Zonos-v0.1-hybrid"] []
    (Sample.world Sample.fs_cached)
  = (Ret [], Sample.world Sample.fs_cached).
Proof. reflexivity. Qed.

(* ================================================================== *)
(** * UpdateChecker: the repository check *)
(* ================================================================== *)

Lemma truthy_false (s : string) : PyStr.truthy s = false <-> s = "".
Proof. destruct s; simpl; split; congruence. Qed.

Lemma truthy_true (s : string) : PyStr.truthy s = true <-> s <> "".
Proof. destruct s; simpl; split; congruence. Qed.

Lemma chdir_dir (path : Path) (w : World) :
  Fs.is_dir path (fs w) = true -> chdir path w = (Ret tt, w).
Proof.
  unfold Fs.is_dir, chdir, reading.
  destruct (Fs.lookup path (fs w)) as [[r c|m es]|]; now try discriminate.
Qed.

Lemma is_dir_exists (path : Path) (fs : FS) :
  Fs.is_dir path fs = true -> Fs.exists_ path fs = true.
Proof.
  unfold Fs.is_dir, Fs.exists_.
  destruct (Fs.lookup path fs) as [[r c|m es]|]; now try discriminate.
Qed.


(** The check, command by command. *)
Lemma check_repository_updates_steps (P : Platform) (SCRIPT_DIR : Path)
    (w : World) :
  check_repository_updates P SCRIPT_DIR w =
  if negb (Fs.exists_ (SCRIPT_DIR // REPO_NAME) (fs w))
  then (Ret (not_installed "Repository not found"), w)
  else
    match chdir (SCRIPT_DIR // REPO_NAME) w with
    | (Ret _, w0) =>
        match run_command P cmd_fetch false w0 with
        | (Ret _, w1) =>
            match run_command P cmd_head false w1 with
            | (Ret head, w2) =>
                match run_command P cmd_main false w2 with
                | (Ret main, w3) =>
                    let current_commit := stdout_or head "" in
                    let remote_commit := stdout_or main "" in
                    if PyStr.truthy current_commit &&
                       PyStr.truthy remote_commit
                    then
                      if negb (String.eqb current_commit remote_commit)
                      then
                        match run_command P
                                (cmd_count current_commit remote_commit)
                                false w3 with
                        | (Ret count, w4) =>
                            match count_or_zero P count with
                            | Ret commits_behind =>
                                match run_command P cmd_log false w4 with
                                | (Ret message, w5) =>
                                    (Ret (update_available
                                            (PyStr.take 8 current_commit)
                                            (PyStr.take 8 remote_commit)
                                            commits_behind
                                            (stdout_or message "No message")),
                                     w5)
                                | (Raise e, w5) =>
                                    (Ret (error (exn_msg e)), w5)
                                | (Exit c, w5) => (Exit c, w5)
                                end
                            | Raise e => (Ret (error (exn_msg e)), w4)
                            | Exit c => (Exit c, w4)
                            end
                        | (Raise e, w4) => (Ret (error (exn_msg e)), w4)
                        | (Exit c, w4) => (Exit c, w4)
                        end
                      else (Ret (up_to_date (PyStr.take 8 current_commit)),
                            w3)
                    else (Ret (error "Could not determine commit status"),
                          w3)
                | (Raise e, w3) => (Ret (error (exn_msg e)), w3)
                | (Exit c, w3) => (Exit c, w3)
                end
            | (Raise e, w2) => (Ret (error (exn_msg e)), w2)
            | (Exit c, w2) => (Exit c, w2)
            end
        | (Raise e, w1) => (Ret (error (exn_msg e)), w1)
        | (Exit c, w1) => (Exit c, w1)
        end
    | (Raise e, w0) => (Ret (error (exn_msg e)), w0)
    | (Exit c, w0) => (Exit c, w0)
    end.
Proof.
  unfold check_repository_updates, INSTALL_DIR.
  unfold mbind at 1, reading at 1.
  destruct (negb (Fs.exists_ (SCRIPT_DIR // REPO_NAME) (fs w)));
    [reflexivity|].
  unfold except_Exception, mbind, pure_result, mret.
  destruct (chdir (SCRIPT_DIR // REPO_NAME) w) as [[[]|e|c] w0];
    try reflexivity.
  destruct (run_command P cmd_fetch false w0) as [[r0|e|c] w1];
    try reflexivity.
  destruct (run_command P cmd_head false w1) as [[head|e|c] w2];
    try reflexivity.
  destruct (run_command P cmd_main false w2) as [[main|e|c] w3];
    try reflexivity.
  cbv zeta.
  destruct (PyStr.truthy (stdout_or head "") &&
            PyStr.truthy (stdout_or main "")); [|reflexivity].
  destruct (negb (String.eqb (stdout_or head "") (stdout_or main "")));
    [|reflexivity].
  destruct (run_command P _ false w3) as [[count|e|c] w4]; try reflexivity.
  destruct (count_or_zero P count) as [n|e|c]; try reflexivity.
  destruct (run_command P cmd_log false w4) as [[message|e|c] w5];
    reflexivity.
Qed.




(** A count that is no number: the status is [error] with the message
    of the [ValueError] that [int] raised. *)
Example check_repository_updates_count_not_a_number :
  check_repository_updates
    (Sample.platform_with_git Sample.git_count_garbled)
    Sample.SCRIPT_DIR (Sample.world Sample.fs_installed)
  = (Ret (error "invalid literal for int() with base 10: 'many'"),
     mkWorld Sample.fs_installed
       [EvCmd cmd_fetch; EvCmd cmd_head; EvCmd cmd_main;
        EvCmd (cmd_count "1111111111111111" "2222222222222222")]).
Proof. reflexivity. Qed.

(* ================================================================== *)
(** * UpdateCoordinator: the apply phase *)
(* ================================================================== *)

Lemma remove_verification_file_run (f : Path) (w : World) :
  exists w0, remove_verification_file f w = (Ret tt, w0).
Proof.
  unfold remove_verification_file.
  destruct (Fs.exists_ f (fs w)); [|eauto].
  destruct (Fs.unlink f (fs w)); eauto.
Qed.

(** The model refresh of the program never reports success: it returns
    [False] or ends the process with status 1. *)
Lemma update_models_never_succeeds (P : Platform) (SCRIPT_DIR : Path)
    (w : World) :
  exists r w', update_models P SCRIPT_DIR w = (r, w') /\
               (r = Ret false \/ r = Exit 1).
Proof.
  unfold update_models. unfold mbind at 1.
  destruct (remove_verification_file_run
              (SCRIPT_DIR // MODELS_DOWNLOAD_DIR // MODEL_VERIFICATION_FILE) w)
    as [w0 ->].
  unfold except_Exception, mbind.
  destruct (chdir (INSTALL_DIR SCRIPT_DIR // REPO_NAME) w0)
    as [[[]|e|c] w1] eqn:Hc.
  - destruct (download_models_run P SCRIPT_DIR w1)
      as (r & w2 & -> & [->|[e ->]] & _); unfold mret; eauto.
  - unfold mret. eauto.
  - exfalso. unfold chdir, reading in Hc.
    destruct (Fs.lookup _ _) as [[? ?|? ?]|]; discriminate.
Qed.

(** C9 (fails on the code).  With the choice [both], in an installation
    where every command succeeds: the repository refresh runs first and
    its success is reported; the model refresh then ends the process with
    exit status 1, so its failure is not logged and the final report is
    not reached. *)
Theorem update_zonos_apply_model_failure_exits :
  update_zonos_apply Sample.platform Sample.SCRIPT_DIR "both"
    (Sample.world Sample.fs_installed)
  = (Exit 1,
     mkWorld Sample.fs_installed
       [EvPrint (newline ++ "🔄 Updating repository...");
        EvCmd ["git"; "stash"];
        EvCmd ["git"; "pull"; "origin"; "main"];
        EvCmd ["./bin/uv"; "sync"];
        EvCmd ["./bin/uv"; "sync"; "--extra"; "compile"];
        EvLog "INFO" "✅ Repository update completed successfully!";
        EvPrint (newline ++ "🔄 Updating models...")]).
Proof. reflexivity. Qed.

Example normalized_choice_both :
  normalized_choice true true " Both " = "both" /\
  normalized_choice true false "both" = "none" /\
  normalized_choice false true "Y" = "models".
Proof. repeat split. Qed.

(** The string operations on text outside ASCII: white space of any
    script is stripped, at both ends; U+200B is no white space; the
    Kelvin sign has the lower case [k]; a slice counts code points. *)
Example strings_outside_ascii :
  PyStr.strip (Sample.no_break_space ++ " yes" ++ Sample.em_space
               ++ Sample.ideographic_space ++ newline) = "yes" /\
  PyStr.strip (Sample.zero_width_space ++ "yes")
  = Sample.zero_width_space ++ "yes" /\
  normalized_choice true false ("Yes" ++ Sample.no_break_space) = "repo" /\
  normalized_choice false true (Sample.em_space ++ "y") = "models" /\
  PyStr.lower (Sample.kelvin_sign ++ "ELVIN") = "kelvin" /\
  PyStr.take 2 (Sample.e_acute ++ "tude") = Sample.e_acute ++ "t".
Proof. repeat split. Qed.

(* ================================================================== *)
(** * Further properties: the verifier and the recorder *)
(* ================================================================== *)

(** One required file against a mapping of stored hashes. *)
Lemma verify_files_cons (P : Platform) (file_name : string)
    (rest : list string) (dir : Path) (d : list (string * json)) (fs : FS) :
  verify_files P (file_name :: rest) dir (JObj d) fs =
  match Fs.lookup (dir // file_name) fs with
  | Some (File true content) =>
      if PyStr.truthy (sha256_hexdigest P content) then
        match Dict.get file_name d with
        | Some (JStr stored) =>
            if String.eqb stored (sha256_hexdigest P content)
            then verify_files P rest dir (JObj d) fs
            else Ret false
        | _ => Ret false
        end
      else Ret false
  | Some (File false _) => Ret false
  | Some (Dir _ _) =>
      Raise (mkExn IsADirectoryError (path_str (dir // file_name)))
  | None => Ret false
  end.
Proof.
  simpl. unfold Fs.exists_, calculate_file_hash, Fs.read, Dict.mem.
  destruct (Fs.lookup (dir // file_name) fs) as [[[|] c|m es]|];
    simpl; try reflexivity.
  destruct (PyStr.truthy (sha256_hexdigest P c)); simpl; [|reflexivity].
  destruct (Dict.get file_name d) as [[| ? | ? | s | ? | ?]|]; simpl;
    try reflexivity.
  unfold py_ne_str. simpl.
  destruct (String.eqb s (sha256_hexdigest P c)); reflexivity.
Qed.

(** X1.  Against a mapping from file names to hashes, the loop over the
    required files answers [True] exactly when every required file is a
    readable file whose digest is not empty and is the string stored
    under its name. *)
Theorem verify_files_accepts_iff :
  forall (P : Platform) (files : list string) (dir : Path)
         (d : list (string * json)) (fs : FS),
    verify_files P files dir (JObj d) fs = Ret true <->
    Forall (fun file_name =>
              exists content,
                Fs.lookup (dir // file_name) fs = Some (File true content) /\
                sha256_hexdigest P content <> "" /\
                Dict.get file_name d
                = Some (JStr (sha256_hexdigest P content)))
           files.
Proof.
  intros P files dir d fs.
  induction files as [|f rest IH]; [split; [constructor | reflexivity]|].
  rewrite verify_files_cons. split.
  - intros H.
    destruct (Fs.lookup (dir // f) fs) as [[[|] c|m es]|] eqn:Hl;
      try discriminate.
    destruct (PyStr.truthy (sha256_hexdigest P c)) eqn:Ht;
      [|discriminate].
    destruct (Dict.get f d) as [[| ? | ? | s | ? | ?]|] eqn:Hg;
      simpl in H; try discriminate.
    destruct (String.eqb s (sha256_hexdigest P c)) eqn:E; [|discriminate].
    apply String.eqb_eq in E. subst s.
    constructor; [|now apply IH].
    exists c. split; [exact Hl|]. split; [|exact Hg].
    now apply truthy_true.
  - intros H. inversion H as [|? ? (c & Hl & Hne & Hg) Hrest]; subst.
    rewrite Hl. apply truthy_true in Hne. rewrite Hne, Hg.
    rewrite String.eqb_refl. now apply IH.
Qed.

(** X2.  Fail closed: when the resolver returns, every record of the
    document is a mapping, the directory of the model files can be
    determined and no required file name denotes a directory there, the
    verifier returns a boolean; it does not raise. *)
Theorem verifier_fails_closed :
  forall (P : Platform) (resolve : Resolver) (registry : Registry)
         (model_name : string) (models_dir : Path)
         (document : list (string * json)) (fs : FS)
         (location : option Path),
    resolve model_name models_dir fs = Ret location ->
    (forall key record,
        Dict.get key document = Some record -> exists d, record = JObj d) ->
    (forall cache_path model_config,
        location = Some cache_path ->
        Dict.get model_name registry = Some model_config ->
        exists model_files_dir,
          model_files_dir_of cache_path fs = Ret model_files_dir /\
          forall file_name,
            In file_name (files_to_check model_config) ->
            Fs.is_dir (model_files_dir // file_name) fs = false) ->
    exists answer,
      verify_model_integrity_via P resolve registry model_name models_dir
        (JObj document) fs = Ret answer.
Proof.
  intros P resolve registry name dir doc fs loc Hres Hrec Hdir.
  unfold verify_model_integrity_via.
  destruct (Dict.get name registry) as [cfg|] eqn:Hcfg; [|eauto].
  rewrite Hres. simpl.
  destruct loc as [cp|]; [|eauto].
  destruct (negb (Fs.exists_ cp fs)); [eauto|].
  unfold Dict.mem.
  destruct (Dict.get (cfg_name cfg) doc) as [record|] eqn:Hget;
    simpl; [|eauto].
  destruct (Hrec _ _ Hget) as [d ->].
  destruct (Hdir cp cfg eq_refl eq_refl) as (mdir & -> & Hfiles). simpl.
  clear Hget Hcfg. induction (files_to_check cfg) as [|f rest IH];
    [simpl; eauto|].
  rewrite verify_files_cons.
  assert (Hf : Fs.is_dir (mdir // f) fs = false) by (apply Hfiles; now left).
  unfold Fs.is_dir in Hf.
  destruct (Fs.lookup (mdir // f) fs) as [[[|] c|m es]|];
    try discriminate; eauto.
  destruct (PyStr.truthy _); [|eauto].
  destruct (Dict.get f d) as [[| ? | ? | s | ? | ?]|]; eauto.
  destruct (String.eqb s _); [|eauto].
  apply IH. intros g Hg. apply Hfiles. now right.
Qed.

Lemma verifier_fails_closed_witness :
  exists answer,
    verify_model_integrity_via Sample.platform
      (Sample.resolve_to Sample.cache_path) Sample.hybrid_only
      "Zyphra/Zonos-v0.1-hybrid" Sample.models_dir
      (JObj [("hybrid_model", JObj Sample.hybrid_hashes)]) Sample.fs_cached
    = Ret answer.
Proof.
  apply (verifier_fails_closed Sample.platform
           (Sample.resolve_to Sample.cache_path) Sample.hybrid_only
           "Zyphra/Zonos-v0.1-hybrid" Sample.models_dir
           [("hybrid_model", JObj Sample.hybrid_hashes)] Sample.fs_cached
           (Some Sample.cache_path) eq_refl).
  - intros key record. simpl.
    destruct (String.eqb key "hybrid_model"); [|discriminate].
    intros H. injection H as <-. eauto.
  - intros cp cfg Hcp Hcfg. injection Hcp as <-. injection Hcfg as <-.
    exists (Sample.cache_path // "snapshots" // "bbb").
    split; [reflexivity|].
    intros f [<-|[<-|[<-|[]]]]; reflexivity.
Defined.

(** The recorder's loop, with the mapping it has built so far. *)
Lemma hash_present_files_spec (P : Platform) (files : list string)
    (dir : Path) (fs : FS) :
  forall (acc hashes : list (string * json)),
    hash_present_files P files dir acc fs = Ret hashes ->
    forall file_name,
      (In file_name files ->
       Fs.exists_ (dir // file_name) fs = true ->
       exists h, calculate_file_hash P (dir // file_name) fs = Ret h /\
                 Dict.get file_name hashes = Some (JStr h)) /\
      (~ In file_name files \/ Fs.exists_ (dir // file_name) fs = false ->
       Dict.get file_name hashes = Dict.get file_name acc).
Proof.
  induction files as [|a rest IH]; intros acc hashes H f.
  - injection H as <-. split; [intros []|reflexivity].
  - simpl in H.
    destruct (Fs.exists_ (dir // a) fs) eqn:Ha.
    + destruct (calculate_file_hash P (dir // a) fs) as [h|e|c] eqn:Hh;
        try discriminate.
      simpl in H. destruct (IH _ _ H f) as [IH1 IH2]. split.
      * intros Hin Hex.
        destruct (in_dec string_dec f rest) as [Hr|Hr]; [now apply IH1|].
        destruct Hin as [->|Hin]; [|contradiction].
        exists h. split; [exact Hh|].
        rewrite IH2 by now left. apply dict_get_set_same.
      * intros Hno. rewrite IH2.
        -- apply dict_get_set_other. intros ->.
           destruct Hno as [Hno|Hno]; [apply Hno; now left | congruence].
        -- destruct Hno as [Hno|Hno]; [left | now right].
           intros Hr. apply Hno. now right.
    + destruct (IH _ _ H f) as [IH1 IH2]. split.
      * intros [->|Hin] Hex; [congruence | now apply IH1].
      * intros Hno.
        destruct (in_dec string_dec f rest) as [Hr|Hr].
        -- destruct Hno as [Hno|Hno]; [exfalso; apply Hno; now right|].
           apply IH2. now right.
        -- apply IH2. now left.
Qed.

(** X3.  The mapping the recorder builds has one entry for each required
    file that exists and none for the others: a readable file is stored
    with its digest, an unreadable one with the empty string, and a
    missing file is passed over without an error. *)
Theorem recorder_hashes_present_files :
  forall (P : Platform) (files : list string) (dir : Path) (fs : FS)
         (hashes : list (string * json)),
    hash_present_files P files dir [] fs = Ret hashes ->
    forall file_name,
      (Dict.mem file_name hashes = true <->
       In file_name files /\ Fs.exists_ (dir // file_name) fs = true) /\
      (forall content,
          In file_name files ->
          Fs.lookup (dir // file_name) fs = Some (File true content) ->
          Dict.get file_name hashes
          = Some (JStr (sha256_hexdigest P content))) /\
      (forall content,
          In file_name files ->
          Fs.lookup (dir // file_name) fs = Some (File false content) ->
          Dict.get file_name hashes = Some (JStr "")).
Proof.
  intros P files dir fs hashes H f.
  destruct (hash_present_files_spec P files dir fs [] hashes H f)
    as [H1 H2].
  split; [split|split].
  - intros Hm. unfold Dict.mem in Hm.
    destruct (in_dec string_dec f files) as [Hin|Hin].
    + split; [exact Hin|].
      destruct (Fs.exists_ (dir // f) fs) eqn:He; [reflexivity|].
      rewrite H2 in Hm by now right. discriminate.
    + rewrite H2 in Hm by now left. discriminate.
  - intros [Hin He]. destruct (H1 Hin He) as (h & _ & Hg).
    unfold Dict.mem. now rewrite Hg.
  - intros c Hin Hl.
    assert (He : Fs.exists_ (dir // f) fs = true)
      by (unfold Fs.exists_; now rewrite Hl).
    destruct (H1 Hin He) as (h & Hh & Hg). rewrite Hg.
    unfold calculate_file_hash, Fs.read in Hh. rewrite Hl in Hh.
    simpl in Hh. now injection Hh as <-.
  - intros c Hin Hl.
    assert (He : Fs.exists_ (dir // f) fs = true)
      by (unfold Fs.exists_; now rewrite Hl).
    destruct (H1 Hin He) as (h & Hh & Hg). rewrite Hg.
    unfold calculate_file_hash, Fs.read in Hh. rewrite Hl in Hh.
    simpl in Hh. now injection Hh as <-.
Qed.

Lemma recorder_hashes_present_files_witness :
  hash_present_files Sample.platform
    ["config.json"; "missing.bin"; "tokenizer.json"]
    (Sample.cache_path // "snapshots" // "bbb") [] Sample.fs_cached
  = Ret [("config.json", JStr "sha256:new");
         ("tokenizer.json", JStr "sha256:tokens")] /\
  (Dict.mem "missing.bin"
     [("config.json", JStr "sha256:new");
      ("tokenizer.json", JStr "sha256:tokens")] = true <->
   In "missing.bin" ["config.json"; "missing.bin"; "tokenizer.json"] /\
   Fs.exists_ (Sample.cache_path // "snapshots" // "bbb" // "missing.bin")
     Sample.fs_cached = true).
Proof.
  split; [reflexivity|].
  apply (recorder_hashes_present_files Sample.platform
           ["config.json"; "missing.bin"; "tokenizer.json"]
           (Sample.cache_path // "snapshots" // "bbb") Sample.fs_cached
           _ eq_refl "missing.bin").
Defined.

(* ================================================================== *)
(** * Further properties: the file system under the program *)
(* ================================================================== *)

Lemma lookup_app (p q : Path) (n : node) :
  Fs.lookup (p ++ q)%list n =
  match Fs.lookup p n with
  | Some c => Fs.lookup q c
  | None => None
  end.
Proof.
  revert n. induction p as [|s p IH]; intros n; [reflexivity|].
  simpl. destruct n as [r c|m es]; [reflexivity|].
  destruct (Dict.get s es); [apply IH | reflexivity].
Qed.

Lemma lookup_child_parent (d : Path) (s : string) (fs : FS) (n : node) :
  Fs.lookup (d ++ [s])%list fs = Some n -> Fs.is_dir d fs = true.
Proof.
  rewrite lookup_app. unfold Fs.is_dir.
  destruct (Fs.lookup d fs) as [[r c|m es]|]; simpl; congruence.
Qed.

Lemma ensure_directory_permissions_present (P : Platform) (d : Path)
    (w : World) :
  Fs.exists_ d (fs w) = true ->
  ensure_directory_permissions P d w = (Ret tt, w).
Proof. intros H. unfold ensure_directory_permissions. now rewrite H. Qed.

(** A run of [download_models] in a world where the models directory
    exists. *)
Lemma download_models_in_place (P : Platform) (resolve : Resolver)
    (registry : Registry) (SCRIPT_DIR : Path) (w : World) :
  Fs.exists_ (SCRIPT_DIR // MODELS_DOWNLOAD_DIR) (fs w) = true ->
  download_models_via P resolve registry SCRIPT_DIR w =
  match load_verification_data P
          (SCRIPT_DIR // MODELS_DOWNLOAD_DIR // MODEL_VERIFICATION_FILE)
          (fs w) with
  | Ret verification_data =>
      match import_modules P w with
      | Some _ => (Exit 1, w)
      | None =>
          match download_loop P resolve registry
                  (SCRIPT_DIR // MODELS_DOWNLOAD_DIR)
                  (SCRIPT_DIR // MODELS_DOWNLOAD_DIR
                   // MODEL_VERIFICATION_FILE)
                  verification_data (Dict.keys registry) [] w with
          | (Ret _, w') => (Ret RNone, w')
          | (Raise _, w') => (Exit 1, w')
          | (Exit c, w') => (Exit c, w')
          end
      end
  | Raise e => (Raise e, w)
  | Exit c => (Exit c, w)
  end.
Proof.
  intros H.
  destruct (download_models_prelude P resolve registry SCRIPT_DIR w)
    as [_ E].
  rewrite E. rewrite (ensure_directory_permissions_present P _ w H).
  cbn [snd]. rewrite (ensure_directory_permissions_present P _ w H).
  reflexivity.
Qed.

(** X4.  A verification document that is there but cannot be read as a
    file (no permission, or a directory under that name) is not one of
    the failures the loader turns into an empty mapping: the error
    leaves [load_verification_data], and [download_models], which loads
    before its [try], raises it in an unchanged world instead of exiting
    with status 1. *)
Theorem download_models_unreadable_document_raises :
  forall (P : Platform) (resolve : Resolver) (registry : Registry)
         (SCRIPT_DIR : Path) (w : World) (n : node),
    let verification_file :=
      SCRIPT_DIR // MODELS_DOWNLOAD_DIR // MODEL_VERIFICATION_FILE in
    Fs.lookup verification_file (fs w) = Some n ->
    (forall content, n <> File true content) ->
    let e := mkExn (match n with
                    | Dir _ _ => IsADirectoryError
                    | File _ _ => PermissionError
                    end) (path_str verification_file) in
    load_verification_data P verification_file (fs w) = Raise e /\
    download_models_via P resolve registry SCRIPT_DIR w = (Raise e, w).
Proof.
  intros P resolve registry S w n vf Hn Hbad e.
  assert (L : load_verification_data P vf (fs w) = Raise e).
  { unfold load_verification_data, Fs.exists_, json_load_file, Fs.read.
    rewrite Hn. simpl.
    destruct n as [[|] c|m es]; [now destruct (Hbad c)| |]; reflexivity. }
  split; [exact L|].
  rewrite download_models_in_place.
  - fold vf. now rewrite L.
  - apply is_dir_exists.
    apply (lookup_child_parent (S // MODELS_DOWNLOAD_DIR)
             MODEL_VERIFICATION_FILE (fs w) n Hn).
Qed.

Lemma download_models_unreadable_document_raises_witness :
  download_models_via Sample.platform (Sample.resolve_to Sample.cache_path)
    MODEL_CONFIGS Sample.SCRIPT_DIR
    (Sample.world Sample.fs_unreadable_document)
  = (Raise (mkExn PermissionError
              "/opt/app/zonos_download_models/model_verification.json"),
     Sample.world Sample.fs_unreadable_document).
Proof.
  apply (download_models_unreadable_document_raises Sample.platform
           (Sample.resolve_to Sample.cache_path) MODEL_CONFIGS
           Sample.SCRIPT_DIR (Sample.world Sample.fs_unreadable_document)
           (File false "{}") eq_refl).
  intros content H. discriminate H.
Defined.

(** X5.  When the models directory is there, the document loads, the
    imports succeed and the verifier accepts every registered artifact,
    a run of [download_models] returns [None] and leaves the world as it
    found it: nothing is fetched, nothing is written. *)
Theorem download_models_all_verified_changes_nothing :
  forall (P : Platform) (resolve : Resolver) (registry : Registry)
         (SCRIPT_DIR : Path) (w : World) (verification_data : json),
    let models_dir := SCRIPT_DIR // MODELS_DOWNLOAD_DIR in
    Fs.exists_ models_dir (fs w) = true ->
    load_verification_data P (models_dir // MODEL_VERIFICATION_FILE) (fs w)
      = Ret verification_data ->
    import_modules P w = None ->
    (forall model_name,
        In model_name (Dict.keys registry) ->
        verify_model_integrity_via P resolve registry model_name models_dir
          verification_data (fs w) = Ret true) ->
    download_models_via P resolve registry SCRIPT_DIR w = (Ret RNone, w).
Proof.
  intros P resolve registry S w data dir Hdir Hload Himp Hok.
  rewrite download_models_in_place by exact Hdir.
  fold dir. rewrite Hload, Himp.
  assert (L : forall names,
             incl names (Dict.keys registry) ->
             download_loop P resolve registry dir
               (dir // MODEL_VERIFICATION_FILE) data names [] w
             = (Ret [], w)).
  { induction names as [|n names IH]; intros Hincl; [reflexivity|].
    rewrite loop_skips_verified.
    - apply IH. intros x Hx. apply Hincl. now right.
    - apply Hincl. now left.
    - apply Hok, Hincl. now left. }
  rewrite L by apply incl_refl. reflexivity.
Qed.

Lemma download_models_all_verified_changes_nothing_witness :
  download_models_via (Sample.platform_loading Sample.flat_data)
    (Sample.resolve_to Sample.cache_path) Sample.hybrid_only
    Sample.SCRIPT_DIR (Sample.world Sample.fs_cached)
  = (Ret RNone, Sample.world Sample.fs_cached).
Proof.
  apply (download_models_all_verified_changes_nothing
           (Sample.platform_loading Sample.flat_data)
           (Sample.resolve_to Sample.cache_path) Sample.hybrid_only
           Sample.SCRIPT_DIR (Sample.world Sample.fs_cached)
           Sample.flat_data eq_refl eq_refl eq_refl).
  intros model_name [<-|[]]. reflexivity.
Defined.

(** X6.  The ways a run of [download_models] can end, whatever the
    resolver and the registry: it returns [None]; or the process exits;
    or it raises, and then the exception is the one reading the
    verification document gives on the file system the run leaves, and
    the run has added no event.  Everything raised after the load ends
    in an exit. *)
Theorem download_models_outcomes :
  forall (P : Platform) (resolve : Resolver) (registry : Registry)
         (SCRIPT_DIR : Path) (w : World),
    let run := download_models_via P resolve registry SCRIPT_DIR w in
    fst run = Ret RNone \/
    (exists code, fst run = Exit code) \/
    (exists e,
        fst run = Raise e /\
        trace (snd run) = trace w /\
        load_verification_data P
          (SCRIPT_DIR // MODELS_DOWNLOAD_DIR // MODEL_VERIFICATION_FILE)
          (fs (snd run)) = Raise e).
Proof.
  intros P resolve registry S w. cbv zeta.
  destruct (download_models_prelude P resolve registry S w) as [T E].
  cbv zeta in T, E. rewrite E.
  set (w1 := snd (ensure_directory_permissions P _ (snd _))) in *.
  destruct (load_verification_data P _ (fs w1)) as [data|e|c] eqn:L.
  - destruct (import_modules P w1); [right; left; simpl; eauto|].
    destruct (download_loop _ _ _ _ _ _ _ _ w1) as [[l|e|c] w'];
      simpl; eauto.
  - right. right. exists e. simpl. auto.
  - right. left. simpl. eauto.
Qed.

Lemma subsequence_nil_l {A} (l : list A) : subsequence [] l.
Proof. induction l; constructor; assumption. Qed.

(** What a run of the loop fetches, however it ends. *)
Lemma loop_fetches_subsequence (P : Platform) (resolve : Resolver)
    (registry : Registry) (models_dir verification_file : Path)
    (verification_data : json) (names : list string) :
  forall (downloaded : list string) (w : World),
  exists d,
    fetched (trace (snd (download_loop P resolve registry models_dir
                           verification_file verification_data names
                           downloaded w)))
    = (fetched (trace w) ++ d)%list /\
    subsequence d names.
Proof.
  induction names as [|n names IH]; intros downloaded w.
  - exists []. simpl. rewrite app_nil_r. split; [reflexivity | constructor].
  - rewrite loop_cons.
    destruct (Dict.get n registry).
    2:{ exists []. simpl. rewrite app_nil_r.
        split; [reflexivity | apply subsequence_nil_l]. }
    destruct (verify_model_integrity_via _ _ _ _ _ _ _) as [[|]|e|c].
    + destruct (IH downloaded w) as (d & Hd & Hs).
      exists d. split; [exact Hd | now apply subsequence_skip].
    + pose proof (attempt_trace P resolve registry models_dir
                    verification_file n w) as Ht.
      destruct (download_attempt _ _ _ _ _ n w) as [[[]|e|c] w1];
        simpl in Ht.
      * destruct (IH (downloaded ++ [n])%list w1) as (d & Hd & Hs).
        exists (n :: d). split; [|now apply subsequence_keep].
        rewrite Hd, Ht, fetched_app. simpl. now rewrite <- app_assoc.
      * exists [n]. simpl. rewrite Ht, fetched_app.
        split; [reflexivity|]. apply subsequence_keep, subsequence_nil_l.
      * exists [n]. simpl. rewrite Ht, fetched_app.
        split; [reflexivity|]. apply subsequence_keep, subsequence_nil_l.
    + exists []. simpl. rewrite app_nil_r.
      split; [reflexivity | apply subsequence_nil_l].
    + exists []. simpl. rewrite app_nil_r.
      split; [reflexivity | apply subsequence_nil_l].
Qed.

(** X7.  However a run of [download_models] ends, what it fetched is the
    registry's list of artifacts with some left out: every fetch is of a
    registered artifact, the fetches come in registry order, and no
    position of the registry is fetched twice. *)
Theorem download_models_fetches_in_registry_order :
  forall (P : Platform) (resolve : Resolver) (registry : Registry)
         (SCRIPT_DIR : Path) (w : World),
  exists d,
    fetched (trace (snd (download_models_via P resolve registry
                           SCRIPT_DIR w)))
    = (fetched (trace w) ++ d)%list /\
    subsequence d (Dict.keys registry).
Proof.
  intros P resolve registry S w.
  destruct (download_models_prelude P resolve registry S w) as [T E].
  cbv zeta in T, E. rewrite E.
  set (w1 := snd (ensure_directory_permissions P _ (snd _))) in *.
  assert (N : exists d : list string,
             fetched (trace w1) = (fetched (trace w) ++ d)%list /\
             subsequence d (Dict.keys registry)).
  { exists []. rewrite T, app_nil_r.
    split; [reflexivity | apply subsequence_nil_l]. }
  destruct (load_verification_data P _ (fs w1)) as [data|e|c];
    [|exact N|exact N].
  destruct (import_modules P w1); [exact N|].
  destruct (loop_fetches_subsequence P resolve registry
              (S // MODELS_DOWNLOAD_DIR)
              (S // MODELS_DOWNLOAD_DIR // MODEL_VERIFICATION_FILE)
              data (Dict.keys registry) [] w1) as (d & Hd & Hs).
  exists d. split; [|exact Hs].
  rewrite <- T.
  destruct (download_loop _ _ _ _ _ _ _ _ w1) as [[l|e|c] w'];
    exact Hd.
Qed.

(* ================================================================== *)
(** * Further properties: commands and the repository *)
(* ================================================================== *)

Lemma commands_app (t u : list event) :
  commands (t ++ u) = (commands t ++ commands u)%list.
Proof. unfold commands. apply flat_map_app. Qed.

(** A command adds itself to the trace and raises nothing. *)
Lemma run_command_run (P : Platform) (command : list string) (check : bool)
    (w : World) :
  exists r w',
    run_command P command check w = (r, w') /\
    trace w' = (trace w ++ [EvCmd command])%list /\
    (forall e, r <> Raise e).
Proof.
  unfold run_command.
  destruct (run_process P command w) as [[rc out|e] fs'].
  - destruct (check && negb (rc =? 0)); do 2 eexists;
      (split; [reflexivity | split; [reflexivity | discriminate]]).
  - do 2 eexists. split; [reflexivity | split; [reflexivity | discriminate]].
Qed.

Lemma chdir_run (path : Path) (w : World) :
  exists r, chdir path w = (r, w) /\ forall c, r <> Exit c.
Proof.
  unfold chdir, reading.
  destruct (Fs.lookup path (fs w)) as [[? ?|? ?]|]; eexists;
    (split; [reflexivity | discriminate]).
Qed.

(** X9.  However the repository check ends, the only commands it has
    run are [git fetch], [git rev-parse], [git rev-list] and [git log]:
    the check changes neither the work tree nor the branch, and it runs
    no command at all when there is no repository directory or the
    directory cannot be entered. *)
Theorem check_repository_updates_only_inspects :
  forall (P : Platform) (SCRIPT_DIR : Path) (w : World),
    let run := check_repository_updates P SCRIPT_DIR w in
    (Fs.is_dir (SCRIPT_DIR // REPO_NAME) (fs w) = false -> snd run = w) /\
    exists l,
      commands (trace (snd run)) = (commands (trace w) ++ l)%list /\
      forallb inspects_repository l = true.
Proof.
  intros P S w. cbv zeta. split.
  { intros Hno. rewrite check_repository_updates_steps.
    destruct (negb (Fs.exists_ (S // REPO_NAME) (fs w))); [reflexivity|].
    unfold chdir, reading. unfold Fs.is_dir in Hno.
    destruct (Fs.lookup (S // REPO_NAME) (fs w)) as [[? ?|? ?]|];
      now try discriminate. }
  assert (G : ((exists status,
                   fst (check_repository_updates P S w) = Ret status) \/
               (exists code,
                   fst (check_repository_updates P S w) = Exit code)) /\
              exists l,
                commands (trace (snd (check_repository_updates P S w)))
                = (commands (trace w) ++ l)%list /\
                forallb inspects_repository l = true);
    [|exact (proj2 G)].
  rewrite check_repository_updates_steps.
  destruct (negb (Fs.exists_ (S // REPO_NAME) (fs w))).
  { split; [simpl; eauto|]. exists []. simpl. now rewrite app_nil_r. }
  destruct (chdir_run (S // REPO_NAME) w) as (r & -> & Hr).
  destruct r as [[]|e|c]; [| |now destruct (Hr c)].
  2:{ split; [simpl; eauto|]. exists []. simpl. now rewrite app_nil_r. }
  destruct (run_command_run P cmd_fetch false w) as (r1 & w1 & -> & T1 & N1).
  destruct r1 as [x1|e|c]; [|now destruct (N1 e)|].
  2:{ split; [simpl; eauto|]. exists [cmd_fetch]. simpl.
      now rewrite T1, commands_app. }
  destruct (run_command_run P cmd_head false w1) as (r2 & w2 & -> & T2 & N2).
  assert (C2 : commands (trace w2)
               = (commands (trace w) ++ [cmd_fetch; cmd_head])%list)
    by (rewrite T2, T1, !commands_app, <- app_assoc; reflexivity).
  destruct r2 as [head|e|c]; [|now destruct (N2 e)|].
  2:{ split; [simpl; eauto|]. eexists. split; [exact C2 | reflexivity]. }
  destruct (run_command_run P cmd_main false w2) as (r3 & w3 & -> & T3 & N3).
  assert (C3 : commands (trace w3)
               = (commands (trace w)
                  ++ [cmd_fetch; cmd_head; cmd_main])%list)
    by (rewrite T3, commands_app, C2, <- app_assoc; reflexivity).
  destruct r3 as [main|e|c]; [|now destruct (N3 e)|].
  2:{ split; [simpl; eauto|]. eexists. split; [exact C3 | reflexivity]. }
  cbv zeta.
  destruct (PyStr.truthy (stdout_or head "") &&
            PyStr.truthy (stdout_or main "")).
  2:{ split; [simpl; eauto|]. eexists. split; [exact C3 | reflexivity]. }
  destruct (negb (String.eqb (stdout_or head "") (stdout_or main ""))).
  2:{ split; [simpl; eauto|]. eexists. split; [exact C3 | reflexivity]. }
  destruct (run_command_run P
              (cmd_count (stdout_or head "") (stdout_or main "")) false w3)
    as (r4 & w4 & -> & T4 & N4).
  assert (C4 : commands (trace w4)
               = (commands (trace w)
                  ++ [cmd_fetch; cmd_head; cmd_main;
                      cmd_count (stdout_or head "") (stdout_or main "")])%list)
    by (rewrite T4, commands_app, C3, <- app_assoc; reflexivity).
  destruct r4 as [count|e|c]; [|now destruct (N4 e)|].
  2:{ split; [simpl; eauto|]. eexists. split; [exact C4 | reflexivity]. }
  destruct (count_or_zero P count) as [behind|e|c].
  2,3: (split; [simpl; eauto|]; eexists; split; [exact C4 | reflexivity]).
  destruct (run_command_run P cmd_log false w4) as (r5 & w5 & -> & T5 & N5).
  assert (C5 : commands (trace w5)
               = (commands (trace w)
                  ++ [cmd_fetch; cmd_head; cmd_main;
                      cmd_count (stdout_or head "") (stdout_or main "");
                      cmd_log])%list)
    by (rewrite T5, commands_app, C4, <- app_assoc; reflexivity).
  destruct r5 as [message|e|c]; [|now destruct (N5 e)|];
    (split; [simpl; eauto|]; eexists; split; [exact C5 | reflexivity]).
Qed.

Lemma run_command_unchecked (P : Platform) (command : list string)
    (w : World) (rc : Z) (out : string) (fs' : FS) :
  run_process P command w = (Completed rc out, fs') ->
  run_command P command false w
  = (Ret (mkCompleted rc out), mkWorld fs' (trace w ++ [EvCmd command])).
Proof. intros H. unfold run_command. now rewrite H. Qed.

(** The refresh of the repository, command by command. *)
Lemma update_repository_steps (P : Platform) (SCRIPT_DIR : Path)
    (w : World) :
  Fs.is_dir (SCRIPT_DIR // REPO_NAME) (fs w) = true ->
  update_repository P SCRIPT_DIR w =
  match run_command P ["git"; "stash"] false w with
  | (Ret _, w1) =>
      match run_command P ["git"; "pull"; "origin"; "main"] false w1 with
      | (Ret res, w2) =>
          if negb (returncode res =? 0) then (Ret false, w2)
          else
            match run_command P ["./bin/uv"; "sync"] false w2 with
            | (Ret _, w3) =>
                match run_command P
                        ["./bin/uv"; "sync"; "--extra"; "compile"]
                        false w3 with
                | (Ret _, w4) => (Ret true, w4)
                | (Raise _, w4) => (Ret false, w4)
                | (Exit c, w4) => (Exit c, w4)
                end
            | (Raise _, w3) => (Ret false, w3)
            | (Exit c, w3) => (Exit c, w3)
            end
      | (Raise _, w2) => (Ret false, w2)
      | (Exit c, w2) => (Exit c, w2)
      end
  | (Raise _, w1) => (Ret false, w1)
  | (Exit c, w1) => (Exit c, w1)
  end.
Proof.
  intros Hdir. unfold update_repository, INSTALL_DIR.
  unfold mbind at 1, reading at 1.
  rewrite (is_dir_exists _ _ Hdir). change (negb true) with false.
  cbv beta iota.
  unfold except_Exception, mbind, mret.
  rewrite (chdir_dir _ _ Hdir).
  destruct (run_command P ["git"; "stash"] false w) as [[r1|e|c] w1];
    try reflexivity.
  destruct (run_command P ["git"; "pull"; "origin"; "main"] false w1)
    as [[r2|e|c] w2]; try reflexivity.
  destruct (negb (returncode r2 =? 0)); [reflexivity|].
  destruct (run_command P ["./bin/uv"; "sync"] false w2)
    as [[r3|e|c] w3]; try reflexivity.
  destruct (run_command P ["./bin/uv"; "sync"; "--extra"; "compile"]
              false w3) as [[r4|e|c] w4]; reflexivity.
Qed.

(** X10.  In an installed repository, on a machine where every command
    can be started, the refresh of the repository returns what the pull
    decides and nothing else: [False] after the stash and the pull when
    the pull fails, [True] after the stash, the pull and the two syncs
    when the pull succeeds.  The return codes of the stash and of the
    two syncs are not looked at.  (The working directory, which the
    function restores at its end, is not part of the model.) *)
Theorem update_repository_follows_pull :
  forall (P : Platform) (SCRIPT_DIR : Path) (w : World) (pull_code : Z),
    Fs.is_dir (SCRIPT_DIR // REPO_NAME) (fs w) = true ->
    (forall command w', exists rc out fs',
        run_process P command w' = (Completed rc out, fs')) ->
    (forall w', exists out fs',
        run_process P ["git"; "pull"; "origin"; "main"] w'
        = (Completed pull_code out, fs')) ->
    let run := update_repository P SCRIPT_DIR w in
    fst run = Ret (pull_code =? 0) /\
    commands (trace (snd run))
    = (commands (trace w)
       ++ [["git"; "stash"]; ["git"; "pull"; "origin"; "main"]]
       ++ (if pull_code =? 0
           then [["./bin/uv"; "sync"];
                 ["./bin/uv"; "sync"; "--extra"; "compile"]]
           else []))%list.
Proof.
  intros P S w code Hdir Hall Hpull. cbv zeta.
  rewrite (update_repository_steps P S w Hdir).
  destruct (Hall ["git"; "stash"] w) as (rc1 & out1 & fs1 & E1).
  rewrite (run_command_unchecked _ _ _ _ _ _ E1).
  set (w1 := mkWorld fs1 _).
  destruct (Hpull w1) as (out2 & fs2 & E2).
  rewrite (run_command_unchecked _ _ _ _ _ _ E2).
  set (w2 := mkWorld fs2 _). simpl returncode.
  destruct (code =? 0); simpl negb; cbv iota.
  - destruct (Hall ["./bin/uv"; "sync"] w2) as (rc3 & out3 & fs3 & E3).
    rewrite (run_command_unchecked _ _ _ _ _ _ E3).
    set (w3 := mkWorld fs3 _).
    destruct (Hall ["./bin/uv"; "sync"; "--extra"; "compile"] w3)
      as (rc4 & out4 & fs4 & E4).
    rewrite (run_command_unchecked _ _ _ _ _ _ E4).
    split; [reflexivity|]. simpl.
    rewrite !commands_app, <- !app_assoc. reflexivity.
  - split; [reflexivity|]. simpl.
    rewrite !commands_app, <- !app_assoc. reflexivity.
Qed.

Lemma update_repository_follows_pull_witness :
  update_repository (Sample.platform_with_git Sample.sync_fails)
    Sample.SCRIPT_DIR (Sample.world Sample.fs_installed)
  = (Ret true,
     mkWorld Sample.fs_installed
       [EvCmd ["git"; "stash"]; EvCmd ["git"; "pull"; "origin"; "main"];
        EvCmd ["./bin/uv"; "sync"];
        EvCmd ["./bin/uv"; "sync"; "--extra"; "compile"]]) /\
  fst (update_repository (Sample.platform_with_git Sample.git_pull_fails)
         Sample.SCRIPT_DIR (Sample.world Sample.fs_installed))
  = Ret false.
Proof.
  split; [reflexivity|].
  apply (update_repository_follows_pull
           (Sample.platform_with_git Sample.git_pull_fails)
           Sample.SCRIPT_DIR (Sample.world Sample.fs_installed) 1
           eq_refl).
  - intros command w'. simpl. unfold Sample.git_pull_fails.
    repeat match goal with
           | |- context [match ?x with _ => _ end] =>
               is_var x; destruct x; try (do 3 eexists; reflexivity)
           end.
  - intros w'. simpl. eauto.
Defined.

Lemma dict_get_remove_same {V} (k : string) (d : list (string * V)) :
  Dict.get k (Dict.remove k d) = None.
Proof.
  unfold Dict.remove.
  induction d as [|[k' v'] d IH]; simpl; [reflexivity|].
  destruct (String.eqb k k') eqn:E; simpl; [exact IH|].
  now rewrite E.
Qed.

(** Unlinking a file: the name is gone and its directory stays. *)
Lemma unlink_file (d : Path) (s : string) :
  forall (fs : FS) (r : bool) (c : string),
    Fs.lookup (d ++ [s])%list fs = Some (File r c) ->
    exists fs',
      Fs.unlink (d ++ [s])%list fs = Some fs' /\
      Fs.lookup (d ++ [s])%list fs' = None /\
      Fs.is_dir d fs' = true.
Proof.
  unfold Fs.is_dir.
  induction d as [|a d IH]; intros fs r c H.
  - destruct fs as [r0 c0|m es]; simpl in H; [discriminate|].
    destruct (Dict.get s es) as [[r1 c1|m1 es1]|] eqn:G;
      try discriminate.
    exists (Dir m (Dict.remove s es)). simpl. rewrite G.
    now rewrite dict_get_remove_same.
  - destruct fs as [r0 c0|m es]; [discriminate|].
    simpl in H. destruct (Dict.get a es) as [child|] eqn:G;
      [|discriminate].
    destruct (IH child r c H) as (child' & U & L & D).
    exists (Dir m (Dict.set a child' es)).
    assert (E : Fs.unlink ((a :: d) ++ [s])%list (Dir m es)
                = Some (Dir m (Dict.set a child' es))).
    { simpl. destruct (d ++ [s])%list eqn:Eq.
      - now destruct d.
      - now rewrite G, U. }
    split; [exact E|]. simpl. rewrite dict_get_set_same. auto.
Qed.

(** The program's [download_models] when the models directory is there
    and the verification document is not. *)
Lemma download_models_without_document (P : Platform) (SCRIPT_DIR : Path)
    (w : World) :
  Fs.is_dir (SCRIPT_DIR // MODELS_DOWNLOAD_DIR) (fs w) = true ->
  Fs.lookup (SCRIPT_DIR // MODELS_DOWNLOAD_DIR // MODEL_VERIFICATION_FILE)
    (fs w) = None ->
  download_models P SCRIPT_DIR w = (Exit 1, w).
Proof.
  intros Hdir Hnone. unfold download_models.
  rewrite download_models_in_place by now apply is_dir_exists.
  unfold load_verification_data, Fs.exists_. rewrite Hnone. simpl.
  destruct (import_modules P w); reflexivity.
Qed.

(** X11.  [update_models] on an installation that holds a verification
    document: the document is deleted, and the download that follows
    does not put one back, because it ends before any fetch.  The
    function returns [False] or the process exits with status 1; either
    way the installation is left without its verification document and
    nothing has been fetched. *)
Theorem update_models_loses_verification_document :
  forall (P : Platform) (SCRIPT_DIR : Path) (w : World)
         (readable : bool) (content : string),
    let verification_file :=
      SCRIPT_DIR // MODELS_DOWNLOAD_DIR // MODEL_VERIFICATION_FILE in
    Fs.lookup verification_file (fs w) = Some (File readable content) ->
    let run := update_models P SCRIPT_DIR w in
    (fst run = Ret false \/ fst run = Exit 1) /\
    Fs.unlink verification_file (fs w) = Some (fs (snd run)) /\
    Fs.exists_ verification_file (fs (snd run)) = false /\
    trace (snd run) = trace w.
Proof.
  intros P S w r c vf H. cbv zeta.
  change vf with ((S // MODELS_DOWNLOAD_DIR) ++ [MODEL_VERIFICATION_FILE])%list
    in *.
  destruct (unlink_file _ _ _ _ _ H) as (fs' & U & L & D).
  assert (R : remove_verification_file
                ((S // MODELS_DOWNLOAD_DIR) ++ [MODEL_VERIFICATION_FILE])%list
                w = (Ret tt, mkWorld fs' (trace w))).
  { unfold remove_verification_file, Fs.exists_. now rewrite H, U. }
  assert (E : exists res,
             update_models P S w = (res, mkWorld fs' (trace w)) /\
             (res = Ret false \/ res = Exit 1)).
  { unfold update_models. unfold mbind at 1.
    change (S // MODELS_DOWNLOAD_DIR // MODEL_VERIFICATION_FILE)
      with ((S // MODELS_DOWNLOAD_DIR) ++ [MODEL_VERIFICATION_FILE])%list.
    rewrite R. set (w0 := mkWorld fs' (trace w)).
    unfold except_Exception, mbind.
    destruct (chdir_run (INSTALL_DIR S // REPO_NAME) w0) as (rc & -> & Hrc).
    destruct rc as [[]|e|code]; [| |now destruct (Hrc code)].
    - rewrite (download_models_without_document P S w0 D L). eauto.
    - unfold mret. eauto. }
  destruct E as (res & -> & Hres). simpl.
  split; [exact Hres|]. split; [exact U|]. split; [|reflexivity].
  unfold Fs.exists_. now rewrite L.
Qed.

Lemma update_models_loses_verification_document_witness :
  fst (update_models Sample.platform Sample.SCRIPT_DIR
         (Sample.world Sample.fs_cached)) = Exit 1 /\
  Fs.exists_ Sample.verification_file
    (fs (snd (update_models Sample.platform Sample.SCRIPT_DIR
                (Sample.world Sample.fs_cached)))) = false.
Proof.
  split; [reflexivity|].
  apply (update_models_loses_verification_document Sample.platform
           Sample.SCRIPT_DIR (Sample.world Sample.fs_cached) true
           Sample.doc_text eq_refl).
Defined.

(* ================================================================== *)
(** * Further properties: the apply phase *)
(* ================================================================== *)

(** The apply phase for a choice that names no domain. *)
Lemma update_zonos_apply_idle (P : Platform) (SCRIPT_DIR : Path)
    (choice : string) (w : World) :
  one_of choice ["repo"; "both"; "models"] = false ->
  update_zonos_apply P SCRIPT_DIR choice w
  = (Ret tt,
     mkWorld (fs w)
       (trace w
        ++ (if String.eqb choice "none"
            then [EvLog "INFO" "Update cancelled by user."] else [])
        ++ [EvPrint (newline ++ repeat_string "=" 60);
            EvLog "INFO" "Update check completed!"])%list).
Proof.
  intros H. unfold one_of in H. simpl existsb in H.
  unfold update_zonos_apply, one_of. simpl existsb.
  destruct (String.eqb choice "repo"); [discriminate|].
  destruct (String.eqb choice "both"); [discriminate|].
  destruct (String.eqb choice "models"); [discriminate|].
  unfold mbind, mret, log, print, emit. simpl.
  destruct (String.eqb choice "none"); simpl;
    now rewrite <- !app_assoc.
Qed.

(** X12.  The apply phase acts only on the choices [repo], [models] and
    [both].  On any other choice it runs no command and fetches nothing:
    it leaves the file system as it is and adds only the closing report,
    preceded by the cancellation notice when the choice is [none].  So
    an answer such as [yes] to the question with four options updates
    nothing and is not reported as a cancellation. *)
Theorem update_zonos_apply_other_choice :
  forall (P : Platform) (SCRIPT_DIR : Path) (choice : string) (w : World),
    one_of choice ["repo"; "both"; "models"] = false ->
    update_zonos_apply P SCRIPT_DIR choice w
    = (Ret tt,
       mkWorld (fs w)
         (trace w
          ++ (if String.eqb choice "none"
              then [EvLog "INFO" "Update cancelled by user."] else [])
          ++ [EvPrint (newline ++ repeat_string "=" 60);
              EvLog "INFO" "Update check completed!"])%list).
Proof. exact update_zonos_apply_idle. Qed.

Lemma update_zonos_apply_other_choice_witness :
  normalized_choice true true "yes" = "yes" /\
  update_zonos_apply Sample.platform Sample.SCRIPT_DIR "yes"
    (Sample.world Sample.fs_installed)
  = (Ret tt,
     mkWorld Sample.fs_installed
       [EvPrint (newline ++ repeat_string "=" 60);
        EvLog "INFO" "Update check completed!"]).
Proof.
  split; [reflexivity|].
  apply (update_zonos_apply_other_choice Sample.platform Sample.SCRIPT_DIR
           "yes" (Sample.world Sample.fs_installed) eq_refl).
Defined.

Lemma remove_verification_file_trace (f : Path) (w : World) :
  exists w0, remove_verification_file f w = (Ret tt, w0) /\
             trace w0 = trace w.
Proof.
  unfold remove_verification_file.
  destruct (Fs.exists_ f (fs w)); [|eauto].
  destruct (Fs.unlink f (fs w)); eauto.
Qed.

(** The model refresh of the program, with what it adds to the trace. *)
Lemma update_models_run (P : Platform) (SCRIPT_DIR : Path) (w : World) :
  exists r w', update_models P SCRIPT_DIR w = (r, w') /\
               (r = Ret false \/ r = Exit 1) /\ trace w' = trace w.
Proof.
  unfold update_models. unfold mbind at 1.
  destruct (remove_verification_file_trace
              (SCRIPT_DIR // MODELS_DOWNLOAD_DIR // MODEL_VERIFICATION_FILE) w)
    as (w0 & -> & T0).
  unfold except_Exception, mbind.
  destruct (chdir_run (INSTALL_DIR SCRIPT_DIR // REPO_NAME) w0)
    as (rc & -> & Hrc).
  destruct rc as [[]|e|code]; [| |now destruct (Hrc code)].
  - destruct (download_models_run P SCRIPT_DIR w0)
      as (r & w2 & -> & [->|[e ->]] & T2); unfold mret;
      do 2 eexists; (split; [reflexivity|]); split; auto; congruence.
  - unfold mret. do 2 eexists. split; [reflexivity|]. auto.
Qed.

(** X13.  The choice [models], on every platform and in every world:
    the model refresh is announced, and then either the process exits
    with status 1 at once, or the failure of the refresh is logged and
    the closing report follows.  No command is run, nothing is fetched,
    and success is never reported. *)
Theorem update_zonos_apply_models_never_succeeds :
  forall (P : Platform) (SCRIPT_DIR : Path) (w : World),
    let run := update_zonos_apply P SCRIPT_DIR "models" w in
    (fst run = Exit 1 /\
     trace (snd run)
     = (trace w ++ [EvPrint (newline ++ "🔄 Updating models...")])%list) \/
    (fst run = Ret tt /\
     trace (snd run)
     = (trace w ++ [EvPrint (newline ++ "🔄 Updating models...");
                    EvLog "ERROR" "❌ Model update failed!";
                    EvPrint (newline ++ repeat_string "=" 60);
                    EvLog "INFO" "Update check completed!"])%list).
Proof.
  intros P S w. cbv zeta.
  assert (E : exists r w',
             update_zonos_apply P S "models" w = (r, w') /\
             ((r = Exit 1 /\
               trace w'
               = (trace w
                  ++ [EvPrint (newline ++ "🔄 Updating models...")])%list) \/
              (r = Ret tt /\
               trace w'
               = (trace w ++ [EvPrint (newline ++ "🔄 Updating models...");
                              EvLog "ERROR" "❌ Model update failed!";
                              EvPrint (newline ++ repeat_string "=" 60);
                              EvLog "INFO" "Update check completed!"])%list))).
  { unfold update_zonos_apply, one_of. simpl existsb. cbv iota.
    unfold mbind at 1. unfold mret at 1.
    unfold mbind at 1. unfold mbind at 1.
    unfold print at 1, emit at 1.
    set (w1 := mkWorld (fs w) _).
    unfold mbind at 1.
    destruct (update_models_run P S w1) as (r & w2 & -> & Hr & T2).
    destruct Hr as [-> | ->].
    - unfold mbind, mret, log, print, emit. simpl.
      do 2 eexists. split; [reflexivity|]. right. split; [reflexivity|].
      rewrite T2. simpl. now rewrite <- !app_assoc.
    - do 2 eexists. split; [reflexivity|]. left. split; [reflexivity|].
      exact T2. }
  destruct E as (r & w' & -> & H). exact H.
Qed.

(* ================================================================== *)
(** * Further properties: the model check and the verification command *)
(* ================================================================== *)

Lemma verify_files_no_exit (P : Platform) (files : list string)
    (dir : Path) (stored : json) (fs : FS) (c : Z) :
  verify_files P files dir stored fs <> Exit c.
Proof.
  induction files as [|f rest IH]; simpl; [discriminate|].
  destruct (negb (Fs.exists_ (dir // f) fs)); [discriminate|].
  unfold calculate_file_hash, Fs.read.
  destruct (Fs.lookup (dir // f) fs) as [[[|] t|m es]|]; simpl;
    try discriminate.
  destruct (negb (PyStr.truthy (sha256_hexdigest P t))); [discriminate|].
  destruct stored as [| ? | ? | s | l | d]; simpl; try discriminate.
  - destruct (negb (PyStr.contains f s)); discriminate.
  - destruct (negb (existsb (is_str f) l)); discriminate.
  - destruct (negb (Dict.mem f d)); [discriminate|].
    destruct (Dict.get f d); simpl; [|discriminate].
    destruct (py_ne_str _ _); [discriminate | exact IH].
Qed.

Lemma model_files_dir_of_no_exit (cache_path : Path) (fs : FS) (c : Z) :
  model_files_dir_of cache_path fs <> Exit c.
Proof.
  unfold model_files_dir_of, snapshot_dirs, Fs.iterdir.
  destruct (Fs.exists_ _ fs); [|discriminate].
  destruct (Fs.lookup _ fs) as [[? ?|? es]|]; simpl; try discriminate.
  destruct (filter _ _); discriminate.
Qed.

(** The verifier ends the process only if the resolver does. *)
Lemma verifier_no_exit (P : Platform) (resolve : Resolver)
    (registry : Registry) (model_name : string) (models_dir : Path)
    (verification_data : json) (fs : FS) (c : Z) :
  (forall name dir fs' code, resolve name dir fs' <> Exit code) ->
  verify_model_integrity_via P resolve registry model_name models_dir
    verification_data fs <> Exit c.
Proof.
  intros Hres. unfold verify_model_integrity_via.
  destruct (Dict.get model_name registry) as [cfg|]; [|discriminate].
  destruct (resolve model_name models_dir fs) as [[cp|]|e|code] eqn:R;
    simpl; try discriminate; [|now apply Hres in R].
  destruct (negb (Fs.exists_ cp fs)); [discriminate|].
  destruct verification_data as [| ? | ? | s | l | d]; simpl;
    try discriminate.
  - destruct (negb (PyStr.contains _ s)); discriminate.
  - destruct (negb (existsb _ l)); discriminate.
  - destruct (negb (Dict.mem _ d)); [discriminate|].
    destruct (Dict.get _ d); simpl; [|discriminate].
    pose proof (model_files_dir_of_no_exit cp fs) as Hm.
    destruct (model_files_dir_of cp fs) as [mdir|e|code]; simpl;
      [apply verify_files_no_exit | discriminate | now destruct (Hm code)].
Qed.

Section Checker.
Context (P : Platform) (resolve : Resolver) (registry : Registry).
Context (models_dir : Path) (verification_data : json).
Hypothesis resolve_returns :
  forall name dir fs' code, resolve name dir fs' <> Exit code.

(** The check of one model: it fetches the model, and returns the list
    as it is or with the model added. *)
Lemma check_one_model_run (model_name : string) (model_config : model_config)
    (updates : list model_update) (w : World) :
  exists l w',
    check_one_model P resolve registry models_dir verification_data
      model_name model_config updates w = (Ret (updates ++ l)%list, w') /\
    trace w' = (trace w ++ [EvFetch model_name])%list /\
    (l = [] \/ exists reason,
                 l = [mkModelUpdate model_name
                        (cfg_description model_config) reason]).
Proof.
  unfold check_one_model, except_Exception, mbind, fetch, reading, mret.
  destruct (from_pretrained P model_name w) as [[e|] fs'].
  - do 2 eexists. split; [reflexivity|]. split; [reflexivity|]. eauto.
  - simpl.
    pose proof (verifier_no_exit P resolve registry model_name models_dir
                  verification_data fs') as Hv.
    destruct (verify_model_integrity_via P resolve registry model_name
                models_dir verification_data fs') as [[|]|e|code].
    + exists [], (mkWorld fs' (trace w ++ [EvFetch model_name])).
      rewrite app_nil_r. auto.
    + do 2 eexists. split; [reflexivity|]. split; [reflexivity|]. eauto.
    + do 2 eexists. split; [reflexivity|]. split; [reflexivity|]. eauto.
    + now destruct (Hv code resolve_returns).
Qed.

(** The loop of the check goes through all its models. *)
Lemma check_models_loop_run (names : list string) :
  incl names (Dict.keys registry) ->
  forall (updates : list model_update) (w : World),
  exists l w',
    check_models_loop P resolve registry models_dir verification_data
      names updates w = (Ret (updates ++ l)%list, w') /\
    fetched (trace w') = (fetched (trace w) ++ names)%list /\
    subsequence (map mu_model_name l) names.
Proof.
  induction names as [|n names IH]; intros Hincl updates w.
  - exists [], w. simpl. rewrite !app_nil_r.
    repeat split. constructor.
  - simpl.
    destruct (dict_get_of_key n registry) as [cfg ->];
      [apply Hincl; now left|].
    unfold mbind at 1.
    destruct (check_one_model_run n cfg updates w)
      as (l1 & w1 & -> & T1 & Hl1).
    destruct (IH (fun x Hx => Hincl x (or_intror Hx)) (updates ++ l1)%list w1)
      as (l2 & w2 & -> & T2 & Hs).
    exists (l1 ++ l2)%list, w2. rewrite app_assoc.
    split; [reflexivity|]. split.
    + rewrite T2, T1, fetched_app. simpl. now rewrite <- app_assoc.
    + rewrite map_app.
      destruct Hl1 as [->|[reason ->]]; simpl.
      * now apply subsequence_skip.
      * now apply subsequence_keep.
Qed.

End Checker.

(** X14.  The model check, whatever the resolver (as long as it does not
    end the process) and the registry: once the models directory is
    there, the document loads to something that is not empty and the
    imports succeed, the check fetches every registered artifact, in
    registry order, whether or not an earlier one failed; it returns
    [up_to_date] or [updates_available] with a list that is not empty,
    and the models it lists are registered ones in registry order. *)
Theorem check_model_updates_fetches_every_model :
  forall (P : Platform) (resolve : Resolver) (registry : Registry)
         (SCRIPT_DIR : Path) (w : World) (verification_data : json),
    let models_dir := SCRIPT_DIR // MODELS_DOWNLOAD_DIR in
    (forall name dir fs' code, resolve name dir fs' <> Exit code) ->
    Fs.exists_ models_dir (fs w) = true ->
    load_verification_data P (models_dir // MODEL_VERIFICATION_FILE) (fs w)
      = Ret verification_data ->
    py_truthy verification_data = true ->
    import_modules P w = None ->
    exists status w',
      check_model_updates_via P resolve registry SCRIPT_DIR w
      = (Ret status, w') /\
      fetched (trace w') = (fetched (trace w) ++ Dict.keys registry)%list /\
      (status = models_up_to_date "All models are current" \/
       exists models,
         status = models_updates_available models /\
         models <> [] /\
         subsequence (map mu_model_name models) (Dict.keys registry)).
Proof.
  intros P resolve registry S w data dir Hres Hdir Hload Htrue Himp.
  unfold check_model_updates_via. fold dir.
  unfold mbind at 1, reading at 1. rewrite Hdir. change (negb true) with false. cbv beta iota.
  unfold mbind at 1, reading at 1. rewrite Hload, Htrue.
  change (negb true) with false. cbv beta iota.
  unfold except_Exception. unfold mbind at 1. rewrite Himp.
  unfold mbind at 1.
  destruct (check_models_loop_run P resolve registry dir data Hres
              (Dict.keys registry) (incl_refl _) [] w)
    as (l & w' & -> & T & Hs).
  simpl app. destruct l as [|m l]; unfold mret.
  - do 2 eexists. split; [reflexivity|]. split; [exact T|]. now left.
  - do 2 eexists. split; [reflexivity|]. split; [exact T|]. right.
    eexists. split; [reflexivity|]. split; [discriminate | exact Hs].
Qed.

Lemma check_model_updates_fetches_every_model_witness :
  check_model_updates_via Sample.platform
    (Sample.resolve_to Sample.cache_path) Sample.hybrid_only
    Sample.SCRIPT_DIR (Sample.world Sample.fs_cached)
  = (Ret (models_updates_available
            [mkModelUpdate "Zyphra/Zonos-v0.1-hybrid"
               "Zonos v0.1 Hybrid Model" "verification_failed"]),
     mkWorld Sample.fs_cached [EvFetch "Zyphra/Zonos-v0.1-hybrid"]) /\
  exists status w',
    check_model_updates_via Sample.platform
      (Sample.resolve_to Sample.cache_path) Sample.hybrid_only
      Sample.SCRIPT_DIR (Sample.world Sample.fs_cached)
    = (Ret status, w') /\
    fetched (trace w') = ["Zyphra/Zonos-v0.1-hybrid"].
Proof.
  split; [reflexivity|].
  destruct (check_model_updates_fetches_every_model Sample.platform
              (Sample.resolve_to Sample.cache_path) Sample.hybrid_only
              Sample.SCRIPT_DIR (Sample.world Sample.fs_cached) Sample.doc
              (fun name dir fs' code H => ltac:(discriminate H))
              eq_refl eq_refl eq_refl eq_refl)
    as (status & w' & E & T & _).
  exists status, w'. split; [exact E | exact T].
Defined.

(** The program's model check when it reaches its loop. *)
Lemma check_model_updates_reports_failure :
  forall (P : Platform) (SCRIPT_DIR : Path) (w : World)
         (verification_data : json),
    let models_dir := SCRIPT_DIR // MODELS_DOWNLOAD_DIR in
    Fs.exists_ models_dir (fs w) = true ->
    load_verification_data P (models_dir // MODEL_VERIFICATION_FILE) (fs w)
      = Ret verification_data ->
    py_truthy verification_data = true ->
    import_modules P w = None ->
    exists w',
      check_model_updates P SCRIPT_DIR w
      = (Ret (models_updates_available
                [mkModelUpdate "Zyphra/Zonos-v0.1-hybrid"
                   "Zonos v0.1 Hybrid Model" "check_failed";
                 mkModelUpdate "Zyphra/Zonos-v0.1-transformer"
                   "Zonos v0.1 Transformer Model" "check_failed"]),
         w') /\
      trace w'
      = (trace w ++ [EvFetch "Zyphra/Zonos-v0.1-hybrid";
                     EvFetch "Zyphra/Zonos-v0.1-transformer"])%list.
Proof.
  intros P S w data dir Hdir Hload Htrue Himp.
  unfold check_model_updates, check_model_updates_via. fold dir.
  unfold mbind at 1, reading at 1. rewrite Hdir. change (negb true) with false. cbv beta iota.
  unfold mbind at 1, reading at 1. rewrite Hload, Htrue.
  change (negb true) with false. cbv beta iota.
  unfold except_Exception. unfold mbind at 1. rewrite Himp.
  unfold mbind at 1. simpl.
  unfold check_one_model, except_Exception, mbind, fetch, reading, mret.
  destruct (from_pretrained P "Zyphra/Zonos-v0.1-hybrid" w)
    as [[e1|] fs1]; simpl;
    match goal with
    | |- context [from_pretrained P "Zyphra/Zonos-v0.1-transformer" ?w1] =>
        destruct (from_pretrained P "Zyphra/Zonos-v0.1-transformer" w1)
          as [[e2|] fs2]
    end; simpl; eexists; (split; [reflexivity|]);
    now rewrite <- app_assoc.
Qed.

(** X15.  The program's model check, on every platform: once the models
    directory is there, the document loads to something that is not
    empty and the imports succeed, the check fetches both registered
    models and reports both with the reason [check_failed].  The
    resolver raises in the verifier, and the handler of the loop takes
    that for a failed check; so the program never reports [up_to_date]
    and never the reason [verification_failed]. *)
Theorem check_model_updates_reports_check_failed :
  forall (P : Platform) (SCRIPT_DIR : Path) (w : World)
         (verification_data : json),
    let models_dir := SCRIPT_DIR // MODELS_DOWNLOAD_DIR in
    Fs.exists_ models_dir (fs w) = true ->
    load_verification_data P (models_dir // MODEL_VERIFICATION_FILE) (fs w)
      = Ret verification_data ->
    py_truthy verification_data = true ->
    import_modules P w = None ->
    exists w',
      check_model_updates P SCRIPT_DIR w
      = (Ret (models_updates_available
                [mkModelUpdate "Zyphra/Zonos-v0.1-hybrid"
                   "Zonos v0.1 Hybrid Model" "check_failed";
                 mkModelUpdate "Zyphra/Zonos-v0.1-transformer"
                   "Zonos v0.1 Transformer Model" "check_failed"]),
         w') /\
      trace w'
      = (trace w ++ [EvFetch "Zyphra/Zonos-v0.1-hybrid";
                     EvFetch "Zyphra/Zonos-v0.1-transformer"])%list.
Proof. exact check_model_updates_reports_failure. Qed.

Lemma check_model_updates_reports_check_failed_witness :
  exists w',
    check_model_updates Sample.platform Sample.SCRIPT_DIR
      (Sample.world Sample.fs_cached)
    = (Ret (models_updates_available
              [mkModelUpdate "Zyphra/Zonos-v0.1-hybrid"
                 "Zonos v0.1 Hybrid Model" "check_failed";
               mkModelUpdate "Zyphra/Zonos-v0.1-transformer"
                 "Zonos v0.1 Transformer Model" "check_failed"]),
       w') /\
    trace w'
    = (trace (Sample.world Sample.fs_cached)
       ++ [EvFetch "Zyphra/Zonos-v0.1-hybrid";
           EvFetch "Zyphra/Zonos-v0.1-transformer"])%list.
Proof.
  apply (check_model_updates_reports_check_failed Sample.platform
           Sample.SCRIPT_DIR (Sample.world Sample.fs_cached) Sample.doc
           eq_refl eq_refl eq_refl eq_refl).
Defined.

(** X16.  The program's verification command.  Without a models
    directory the process exits with status 1.  With one, and a document
    that is missing, empty or an empty mapping, the command returns and
    prints nothing.  With a document that holds anything, the command
    raises the [TypeError] of the resolver: it verifies no model and
    prints no summary. *)
Theorem verify_models_outcomes :
  forall (P : Platform) (SCRIPT_DIR : Path) (w : World),
    let models_dir := SCRIPT_DIR // MODELS_DOWNLOAD_DIR in
    let verification_file := models_dir // MODEL_VERIFICATION_FILE in
    (Fs.exists_ models_dir (fs w) = false ->
     verify_models P SCRIPT_DIR w = (Exit 1, w)) /\
    (forall verification_data,
        Fs.exists_ models_dir (fs w) = true ->
        load_verification_data P verification_file (fs w)
          = Ret verification_data ->
        verify_models P SCRIPT_DIR w
        = (if py_truthy verification_data
           then Raise path_plus_str_error else Ret tt, w)).
Proof.
  intros P S w dir vf. split.
  - intros H. unfold verify_models, verify_models_via. fold dir.
    unfold mbind, reading. now rewrite H.
  - intros data Hdir Hload.
    unfold verify_models, verify_models_via. fold dir. fold vf.
    unfold mbind at 1, reading at 1. rewrite Hdir.
    change (negb true) with false. cbv beta iota.
    unfold mbind at 1, reading at 1. rewrite Hload.
    destruct (py_truthy data); reflexivity.
Qed.

Lemma mbind_ret {A B} (m : M A) (k : A -> M B) (w w' : World) (a : A) :
  m w = (Ret a, w') -> mbind m k w = k a w'.
Proof. intros H. unfold mbind. now rewrite H. Qed.

Lemma print_run (text : string) (w : World) :
  print text w = (Ret tt, mkWorld (fs w) (trace w ++ [EvPrint text])).
Proof. reflexivity. Qed.

Lemma log_run (level message : string) (w : World) :
  log level message w
  = (Ret tt, mkWorld (fs w) (trace w ++ [EvLog level message])).
Proof. reflexivity. Qed.

Lemma print_lines_run (lines : list string) :
  forall w : World,
    print_lines lines w
    = (Ret tt, mkWorld (fs w) (trace w ++ map EvPrint lines)).
Proof.
  induction lines as [|x lines IH]; intros w.
  - simpl. unfold mret. rewrite app_nil_r. now destruct w.
  - simpl. rewrite (mbind_ret _ _ _ _ _ (print_run x w)), IH. simpl.
    now rewrite <- app_assoc.
Qed.

(** The loop of the verification command when the verifier answers. *)
Lemma verify_models_loop_answers (P : Platform) (resolve : Resolver)
    (registry : Registry) (models_dir : Path) (verification_data : json)
    (fs : FS) (ok : string -> bool) (names : list string) :
  (forall model_name,
      In model_name names ->
      In model_name (Dict.keys registry) /\
      verify_model_integrity_via P resolve registry model_name models_dir
        verification_data fs = Ret (ok model_name)) ->
  forall failed_models,
    verify_models_loop P resolve registry models_dir verification_data
      names failed_models fs
    = Ret (failed_models
           ++ map (description_of registry)
                  (filter (fun name => negb (ok name)) names))%list.
Proof.
  induction names as [|n names IH]; intros H failed.
  - simpl. now rewrite app_nil_r.
  - destruct (H n (or_introl eq_refl)) as [Hin Hv].
    destruct (dict_get_of_key n registry Hin) as [cfg G].
    assert (D : description_of registry n = cfg_description cfg)
      by (unfold description_of; now rewrite G).
    simpl. rewrite G, Hv. simpl.
    destruct (ok n); simpl;
      rewrite IH by (intros x Hx; apply H; now right).
    + reflexivity.
    + now rewrite D, <- app_assoc.
Qed.

(** X17.  The verification command over a resolver that works: when the
    verifier answers for every registered model, the command returns,
    leaves the file system as it is, and prints the summary of exactly
    the models the verifier rejected, by their descriptions and in
    registry order; it prints nothing when there is none. *)
Theorem verify_models_summary :
  forall (P : Platform) (resolve : Resolver) (registry : Registry)
         (SCRIPT_DIR : Path) (w : World) (verification_data : json)
         (ok : string -> bool),
    let models_dir := SCRIPT_DIR // MODELS_DOWNLOAD_DIR in
    Fs.exists_ models_dir (fs w) = true ->
    load_verification_data P (models_dir // MODEL_VERIFICATION_FILE) (fs w)
      = Ret verification_data ->
    py_truthy verification_data = true ->
    (forall model_name,
        In model_name (Dict.keys registry) ->
        verify_model_integrity_via P resolve registry model_name models_dir
          verification_data (fs w) = Ret (ok model_name)) ->
    verify_models_via P resolve registry SCRIPT_DIR w
    = (Ret tt,
       mkWorld (fs w)
         (trace w
          ++ verification_summary
               (map (description_of registry)
                    (filter (fun name => negb (ok name))
                            (Dict.keys registry))))%list).
Proof.
  intros P resolve registry S w data ok dir Hdir Hload Htrue Hok.
  unfold verify_models_via. fold dir.
  unfold mbind at 1, reading at 1. rewrite Hdir.
  change (negb true) with false. cbv beta iota.
  unfold mbind at 1, reading at 1. rewrite Hload, Htrue.
  change (negb true) with false. cbv beta iota.
  unfold mbind at 1, reading at 1.
  rewrite (verify_models_loop_answers P resolve registry dir data (fs w) ok).
  2:{ intros n Hn. split; [exact Hn | now apply Hok]. }
  rewrite app_nil_l.
  set (failed := map _ _).
  destruct failed as [|d failed].
  - unfold mret. simpl. rewrite app_nil_r. now destruct w.
  - rewrite (mbind_ret _ _ _ _ _ (print_run _ w)).
    rewrite (mbind_ret _ _ _ _ _ (print_lines_run _ _)).
    rewrite print_run. simpl. rewrite map_map.
    now rewrite <- !app_assoc.
Qed.

Lemma verify_models_summary_witness :
  verify_models_via Sample.platform (Sample.resolve_to Sample.cache_path)
    Sample.hybrid_only Sample.SCRIPT_DIR (Sample.world Sample.fs_cached)
  = (Ret tt,
     mkWorld Sample.fs_cached
       [EvPrint (newline ++ "Verification summary:");
        EvPrint "  ✗ Zonos v0.1 Hybrid Model";
        EvPrint (newline ++
          "You may continue using verified models, or re-download the failed ones.")]).
Proof.
  apply (verify_models_summary Sample.platform
           (Sample.resolve_to Sample.cache_path) Sample.hybrid_only
           Sample.SCRIPT_DIR (Sample.world Sample.fs_cached) Sample.doc
           (fun _ => false) eq_refl eq_refl eq_refl).
  intros model_name [<-|[]]. reflexivity.
Defined.

(* ================================================================== *)
(** * Further properties: the coordinator's decision *)
(* ================================================================== *)

Lemma actions_app (t u : list event) :
  actions (t ++ u) = (actions t ++ actions u)%list.
Proof. unfold actions. apply filter_app. Qed.

Lemma actions_prints (lines : list string) : actions (map EvPrint lines) = [].
Proof. induction lines; simpl; auto. Qed.

(** The report on the repository only prints. *)
Lemma show_repository_status_run (status : repo_status) (w : World) :
  exists said,
    show_repository_status status w
    = (Ret (match status with
            | not_installed _ => None
            | _ => Some (repository_needs_update status)
            end),
       mkWorld (fs w) (trace w ++ said)) /\
    actions said = [].
Proof.
  unfold show_repository_status.
  rewrite (mbind_ret _ _ _ _ _ (print_run _ w)).
  destruct status; unfold mbind, mret, print, emit; simpl;
    rewrite <- ?app_assoc; eexists; split; reflexivity.
Qed.

(** The report on the models only prints. *)
Lemma show_model_status_run (status : model_status) (w : World) :
  exists said,
    show_model_status status w
    = (Ret (models_need_update status),
       mkWorld (fs w) (trace w ++ said)) /\
    actions said = [].
Proof.
  unfold show_model_status.
  rewrite (mbind_ret _ _ _ _ _ (print_run _ w)).
  destruct status;
    try (unfold mbind, mret, print, emit; simpl;
         rewrite <- ?app_assoc; eexists; split; reflexivity).
  rewrite (mbind_ret _ _ _ _ _ (print_run _ _)).
  rewrite (mbind_ret _ _ _ _ _ (print_lines_run _ _)).
  unfold mret. simpl. rewrite <- !app_assoc.
  eexists. split; [reflexivity|].
  simpl. apply actions_prints.
Qed.

(** The prompt only prints. *)
Lemma ask_choice_run (repo_needs_update model_needs_update : bool)
    (answer : string) (w : World) :
  exists said,
    ask_choice repo_needs_update model_needs_update answer w
    = (Ret (normalized_choice repo_needs_update model_needs_update answer),
       mkWorld (fs w) (trace w ++ said)) /\
    actions said = [].
Proof.
  unfold ask_choice.
  rewrite (mbind_ret _ _ _ _ _ (print_run _ w)).
  destruct (repo_needs_update && model_needs_update);
    [|destruct repo_needs_update];
    unfold mbind, mret, print, emit; simpl;
    rewrite <- ?app_assoc; eexists; split; reflexivity.
Qed.

(** [update_zonos] from the two statuses on: what it says carries no
    action, and the apply phase is entered only after the prompt. *)
Lemma update_zonos_with_steps (P : Platform) (SCRIPT_DIR : Path)
    (repo : repo_status) (model : model_status) (answer : string)
    (w : World) :
  exists said1 said2 said3,
    actions said1 = [] /\ actions said2 = [] /\ actions said3 = [] /\
    update_zonos_with P SCRIPT_DIR repo model answer w =
    match repo with
    | not_installed _ => (Ret tt, mkWorld (fs w) (trace w ++ said1))
    | _ =>
        if negb (repository_needs_update repo) &&
           negb (models_need_update model)
        then (Ret tt, mkWorld (fs w) (trace w ++ said2))
        else update_zonos_apply P SCRIPT_DIR
               (normalized_choice (repository_needs_update repo)
                  (models_need_update model) answer)
               (mkWorld (fs w) (trace w ++ said3))
    end.
Proof.
  unfold update_zonos_with.
  rewrite (mbind_ret _ _ _ _ _ (print_run _ w)).
  rewrite (mbind_ret _ _ _ _ _ (print_run _ _)).
  rewrite (mbind_ret _ _ _ _ _ (print_run _ _)).
  simpl fs. simpl trace.
  set (t0 := (((trace w ++ _) ++ _) ++ _)%list).
  assert (T0 : exists header, t0 = (trace w ++ header)%list /\
                              actions header = []).
  { unfold t0. rewrite <- !app_assoc. eexists. split; reflexivity. }
  destruct T0 as (header & T0 & A0). clearbody t0. subst t0.
  destruct (show_repository_status_run repo
              (mkWorld (fs w) (trace w ++ header))) as (r1 & E1 & A1).
  rewrite (mbind_ret _ _ _ _ _ E1). simpl fs. simpl trace.
  destruct (show_model_status_run model
              (mkWorld (fs w) ((trace w ++ header) ++ r1)))
    as (r2 & E2 & A2).
  simpl fs in E2. simpl trace in E2.
  destruct (ask_choice_run (repository_needs_update repo)
              (models_need_update model) answer
              (mkWorld (fs w) (((trace w ++ header) ++ r1) ++ r2)))
    as (r3 & E3 & A3).
  simpl fs in E3. simpl trace in E3.
  exists (header ++ r1)%list,
         (header ++ r1 ++ r2
          ++ [EvPrint (newline ++ "🎉 Everything is up to date!")])%list,
         (header ++ r1 ++ r2 ++ r3)%list.
  rewrite !actions_app, A0, A1, A2, A3.
  split; [reflexivity|]. split; [reflexivity|]. split; [reflexivity|].
  rewrite !app_assoc.
  destruct repo as [message|commit|cur rem behind latest|message];
    [reflexivity| | |];
    rewrite (mbind_ret _ _ _ _ _ E2);
    (destruct (negb _ && negb (models_need_update model));
     [rewrite print_run; reflexivity
     |rewrite (mbind_ret _ _ _ _ _ E3); reflexivity]).
Qed.

(** X18.  [update_zonos], once it has the two statuses, acts only on
    request.  It returns without a command, a fetch or a change of the
    file system when the repository is not installed (it does not even
    ask), when neither the repository nor the models need an update, or
    when the choice made of the operator's answer is none of [repo],
    [models] and [both].  The choice is made of the answer stripped of
    the white space around it, which is all that [str.strip] takes for
    white space, and put in lower case: for a question about both
    domains it is that text, for a question about one domain it is the
    domain when that text is [yes] or [y] and [none] otherwise. *)
Theorem update_zonos_acts_only_on_request :
  forall (P : Platform) (SCRIPT_DIR : Path) (repo : repo_status)
         (model : model_status) (answer : string) (w : World),
    (exists message, repo = not_installed message) \/
    (repository_needs_update repo = false /\
     models_need_update model = false) \/
    one_of (normalized_choice (repository_needs_update repo)
              (models_need_update model) answer)
           ["repo"; "both"; "models"] = false ->
    let run := update_zonos_with P SCRIPT_DIR repo model answer w in
    fst run = Ret tt /\
    fs (snd run) = fs w /\
    actions (trace (snd run)) = actions (trace w).
Proof.
  intros P S repo model answer w H. cbv zeta.
  destruct (update_zonos_with_steps P S repo model answer w)
    as (s1 & s2 & s3 & A1 & A2 & A3 & ->).
  assert (Q1 : actions (trace w ++ s1) = actions (trace w))
    by now rewrite actions_app, A1, app_nil_r.
  assert (Q2 : actions (trace w ++ s2) = actions (trace w))
    by now rewrite actions_app, A2, app_nil_r.
  assert (Idle : one_of (normalized_choice (repository_needs_update repo)
                           (models_need_update model) answer)
                        ["repo"; "both"; "models"] = false ->
                 let run := update_zonos_apply P S
                              (normalized_choice
                                 (repository_needs_update repo)
                                 (models_need_update model) answer)
                              (mkWorld (fs w) (trace w ++ s3)) in
                 fst run = Ret tt /\ fs (snd run) = fs w /\
                 actions (trace (snd run)) = actions (trace w)).
  { intros Hc. cbv zeta. rewrite (update_zonos_apply_idle P S _ _ Hc).
    simpl. split; [reflexivity|]. split; [reflexivity|].
    rewrite !actions_app, A3.
    destruct (String.eqb _ "none"); simpl; now rewrite !app_nil_r. }
  destruct H as [[message ->]|[[H1 H2]|H]].
  - simpl. auto.
  - rewrite H1, H2. simpl. destruct repo; simpl; auto.
  - destruct repo; [simpl; auto| | |];
      (destruct (negb _ && negb _); [simpl; auto | now apply Idle]).
Qed.

Lemma update_zonos_acts_only_on_request_witness :
  normalized_choice true false "sure" = "none" /\
  actions (trace (snd (update_zonos_with Sample.platform Sample.SCRIPT_DIR
                         (update_available "11111111" "22222222" 3
                            "Fix the tokenizer")
                         (models_up_to_date "All models are current")
                         "sure" (Sample.world Sample.fs_installed))))
  = [].
Proof.
  split; [reflexivity|].
  apply (update_zonos_acts_only_on_request Sample.platform
           Sample.SCRIPT_DIR
           (update_available "11111111" "22222222" 3 "Fix the tokenizer")
           (models_up_to_date "All models are current")
           "sure" (Sample.world Sample.fs_installed)).
  right. right. reflexivity.
Defined.

Lemma fetched_of_actions (t : list event) : fetched (actions t) = fetched t.
Proof.
  induction t as [|e u IH]; [reflexivity|].
  destruct e; simpl; now rewrite ?IH.
Qed.

Lemma commands_of_actions (t : list event) :
  commands (actions t) = commands t.
Proof.
  induction t as [|e u IH]; [reflexivity|].
  destruct e; simpl; now rewrite ?IH.
Qed.

(** X19.  [update_zonos] on a machine without the repository, but with
    models and a verification document that holds something: the
    repository check finds nothing to run, yet the model check has been
    made before anything is reported, so both registered models are
    fetched; then the function reports that the repository is not
    installed and returns without asking.  No command is run. *)
Theorem update_zonos_without_repository_still_fetches :
  forall (P : Platform) (SCRIPT_DIR : Path) (answer : string) (w : World)
         (verification_data : json),
    let models_dir := SCRIPT_DIR // MODELS_DOWNLOAD_DIR in
    Fs.exists_ (SCRIPT_DIR // REPO_NAME) (fs w) = false ->
    Fs.exists_ models_dir (fs w) = true ->
    load_verification_data P (models_dir // MODEL_VERIFICATION_FILE) (fs w)
      = Ret verification_data ->
    py_truthy verification_data = true ->
    (forall w0, import_modules P w0 = None) ->
    exists w',
      update_zonos P SCRIPT_DIR answer w = (Ret tt, w') /\
      fetched (trace w')
      = (fetched (trace w) ++ ["Zyphra/Zonos-v0.1-hybrid";
                               "Zyphra/Zonos-v0.1-transformer"])%list /\
      commands (trace w') = commands (trace w).
Proof.
  intros P S answer w data dir Hrepo Hdir Hload Htrue Himp.
  unfold update_zonos.
  rewrite (mbind_ret _ _ _ _ _ (log_run _ _ w)).
  set (w0 := mkWorld (fs w) _).
  assert (R : check_repository_updates P S w0
              = (Ret (not_installed "Repository not found"), w0)).
  { rewrite check_repository_updates_steps. simpl fs. now rewrite Hrepo. }
  rewrite (mbind_ret _ _ _ _ _ R).
  destruct (check_model_updates_reports_failure P S w0 data Hdir Hload
              Htrue (Himp w0)) as (w1 & E1 & T1).
  rewrite (mbind_ret _ _ _ _ _ E1).
  destruct (update_zonos_with_steps P S
              (not_installed "Repository not found")
              (models_updates_available
                 [mkModelUpdate "Zyphra/Zonos-v0.1-hybrid"
                    "Zonos v0.1 Hybrid Model" "check_failed";
                  mkModelUpdate "Zyphra/Zonos-v0.1-transformer"
                    "Zonos v0.1 Transformer Model" "check_failed"])
              answer w1)
    as (s1 & s2 & s3 & A1 & _ & _ & ->).
  eexists. split; [reflexivity|]. simpl trace.
  rewrite fetched_app, commands_app, T1, fetched_app, commands_app.
  rewrite <- (fetched_of_actions s1), <- (commands_of_actions s1), A1.
  unfold w0. simpl trace. rewrite fetched_app, commands_app. simpl.
  rewrite !app_nil_r. split; reflexivity.
Qed.

Lemma update_zonos_without_repository_still_fetches_witness :
  exists w',
    update_zonos Sample.platform ["srv"] "no"
      (Sample.world
         (Dir 1 [("srv", Dir 1
            [("zonos_download_models", Dir 7
                [("model_verification.json",
                  File true Sample.doc_text)])])]))
    = (Ret tt, w') /\
    fetched (trace w')
    = ["Zyphra/Zonos-v0.1-hybrid"; "Zyphra/Zonos-v0.1-transformer"].
Proof.
  destruct (update_zonos_without_repository_still_fetches Sample.platform
              ["srv"] "no"
              (Sample.world
                 (Dir 1 [("srv", Dir 1
                    [("zonos_download_models", Dir 7
                        [("model_verification.json",
                          File true Sample.doc_text)])])]))
              Sample.doc eq_refl eq_refl eq_refl eq_refl
              (fun _ => eq_refl))
    as (w' & E & F & _).
  exists w'. split; [exact E | exact F].
Defined.

(* ================================================================== *)
(** * Further properties: the discovery of the interfaces *)
(* ================================================================== *)

Lemma dict_mem_keys {V} (k : string) (d : list (string * V)) :
  Dict.mem k d = existsb (String.eqb k) (Dict.keys d).
Proof.
  unfold Dict.mem.
  induction d as [|[k' v'] d IH]; simpl; [reflexivity|].
  destruct (String.eqb k k'); [reflexivity | exact IH].
Qed.

Lemma path_name_child (p : Path) (s : string) :
  path_name (p ++ [s])%list = s.
Proof. unfold path_name. apply last_last. Qed.

(** The loop of the discovery over the entries [es] of the directory
    [base], from the mapping [acc]. *)
Lemma discover_loop_spec (base : Path) (fs : FS) (name : string)
    (es : list (string * node)) :
  forall acc : list (string * Path),
    Dict.get name
      (discover_loop (map (fun e => (base ++ [fst e])%list) es) acc fs)
    = if Dict.mem name es &&
         Fs.is_dir (base ++ [name])%list fs &&
         Fs.exists_ (base ++ [name; "gradio_interface.py"])%list fs
      then Some (base ++ [name; "gradio_interface.py"])%list
      else Dict.get name acc.
Proof.
  induction es as [|[k n] es IH]; intros acc; [reflexivity|].
  rewrite dict_mem_keys in *. simpl map. simpl existsb.
  cbn [discover_loop]. rewrite path_name_child.
  change ((base ++ [k])%list // "gradio_interface.py")
    with ((base ++ [k]) ++ ["gradio_interface.py"])%list.
  rewrite <- app_assoc. simpl app.
  rewrite <- dict_mem_keys in *.
  destruct (String.eqb_spec name k) as [->|Hne].
  - simpl orb.
    destruct (Fs.is_dir (base ++ [k])%list fs) eqn:D; simpl.
    + destruct (Fs.exists_ (base ++ [k; "gradio_interface.py"])%list fs)
        eqn:X; rewrite IH; simpl.
      * rewrite dict_get_set_same. now destruct (Dict.mem k es).
      * now rewrite !andb_false_r.
    + rewrite IH. now rewrite andb_false_r.
  - simpl orb.
    destruct (Fs.is_dir (base ++ [k])%list fs &&
              Fs.exists_ (base ++ [k; "gradio_interface.py"])%list fs)
      eqn:C.
    + apply andb_true_iff in C. destruct C as [-> ->].
      rewrite IH. now rewrite dict_get_set_other.
    + destruct (Fs.is_dir (base ++ [k])%list fs); simpl in C;
        [rewrite C|]; now rewrite IH.
Qed.

(** X20.  [discover_gradio_interfaces] over an existing base directory:
    the mapping it returns holds exactly the entries of the base
    directory that are directories with a file [gradio_interface.py] in
    them, each under its own name and with the path of that file; an
    entry that is a file, or a directory without the file, is left
    out. *)
Theorem discover_gradio_interfaces_finds :
  forall (SCRIPT_DIR : Path) (fs : FS) (mtime : Z)
         (entries : list (string * node)),
    let base := SCRIPT_DIR // REPO_NAME // "Gradio_InterfacePY_Types" in
    Fs.lookup base fs = Some (Dir mtime entries) ->
    exists interfaces,
      discover_gradio_interfaces SCRIPT_DIR fs = Ret interfaces /\
      forall name path,
        Dict.get name interfaces = Some path <->
        (Dict.mem name entries = true /\
         Fs.is_dir (base ++ [name])%list fs = true /\
         path = (base ++ [name; "gradio_interface.py"])%list /\
         Fs.exists_ path fs = true).
Proof.
  intros S fs m es base H.
  unfold discover_gradio_interfaces, Fs.exists_, Fs.iterdir. fold base.
  rewrite H. simpl. eexists. split; [reflexivity|].
  intros name path. rewrite discover_loop_spec. simpl Dict.get.
  destruct (Dict.mem name es); simpl;
    [|split; [discriminate | intros (D & _); discriminate]].
  destruct (Fs.is_dir (base ++ [name])%list fs); simpl;
    [|split; [discriminate | intros (_ & D & _); discriminate]].
  destruct (Fs.exists_ (base ++ [name; "gradio_interface.py"])%list fs)
    eqn:X.
  - split.
    + intros E. injection E as <-. auto.
    + intros (_ & _ & -> & _). reflexivity.
  - split; [discriminate|].
    intros (_ & _ & -> & X'). unfold Fs.exists_ in X. congruence.
Qed.

Lemma discover_gradio_interfaces_finds_witness :
  discover_gradio_interfaces Sample.SCRIPT_DIR Sample.fs_with_interfaces
  = Ret [("Inference Mode Gradio",
          ["opt"; "app"; "Zonos"; "Gradio_InterfacePY_Types";
           "Inference Mode Gradio"; "gradio_interface.py"]);
         ("Streaming",
          ["opt"; "app"; "Zonos"; "Gradio_InterfacePY_Types";
           "Streaming"; "gradio_interface.py"])] /\
  exists interfaces,
    discover_gradio_interfaces Sample.SCRIPT_DIR Sample.fs_with_interfaces
    = Ret interfaces /\
    Dict.get "Drafts" interfaces = None.
Proof.
  split; [reflexivity|].
  destruct (discover_gradio_interfaces_finds Sample.SCRIPT_DIR
              Sample.fs_with_interfaces 6
              [ ("Inference Mode Gradio", Dir 6
                   [ ("gradio_interface.py", File true "import gradio") ]);
                ("Drafts", Dir 6 [ ("notes.txt", File true "todo") ]);
                ("README.md", File true "interfaces");
                ("Streaming", Dir 6
                   [ ("gradio_interface.py", File true "import gradio") ]) ]
              eq_refl) as (interfaces & E & _).
  exists interfaces. split; [exact E|].
  injection E as <-. reflexivity.
Defined.

(* ================================================================== *)
(** * Further properties: the installation *)
(* ================================================================== *)

(** Removing a directory tree: the name is gone and its parent stays. *)
Lemma rmtree_dir (d : Path) (s : string) :
  forall (fs : FS) (m : Z) (es : list (string * node)),
    Fs.lookup (d ++ [s])%list fs = Some (Dir m es) ->
    exists fs',
      Fs.rmtree (d ++ [s])%list fs = Some fs' /\
      Fs.lookup (d ++ [s])%list fs' = None /\
      Fs.is_dir d fs' = true.
Proof.
  unfold Fs.is_dir.
  induction d as [|a d IH]; intros fs m es H.
  - destruct fs as [r0 c0|m0 es0]; simpl in H; [discriminate|].
    destruct (Dict.get s es0) as [[r1 c1|m1 es1]|] eqn:G;
      try discriminate.
    exists (Dir m0 (Dict.remove s es0)). simpl. rewrite G.
    now rewrite dict_get_remove_same.
  - destruct fs as [r0 c0|m0 es0]; [discriminate|].
    simpl in H. destruct (Dict.get a es0) as [child|] eqn:G;
      [|discriminate].
    destruct (IH child m es H) as (child' & U & L & D).
    exists (Dir m0 (Dict.set a child' es0)).
    assert (E : Fs.rmtree ((a :: d) ++ [s])%list (Dir m0 es0)
                = Some (Dir m0 (Dict.set a child' es0))).
    { simpl. destruct (d ++ [s])%list eqn:Eq.
      - now destruct d.
      - now rewrite G, U. }
    split; [exact E|]. simpl. rewrite dict_get_set_same. auto.
Qed.

(** A file is no directory tree. *)
Lemma rmtree_file (d : Path) (s : string) :
  forall (fs : FS) (r : bool) (c : string),
    Fs.lookup (d ++ [s])%list fs = Some (File r c) ->
    Fs.rmtree (d ++ [s])%list fs = None.
Proof.
  induction d as [|a d IH]; intros fs r c H.
  - destruct fs as [r0 c0|m0 es0]; simpl in *; [discriminate|].
    destruct (Dict.get s es0) as [[? ?|? ?]|]; now try discriminate.
  - destruct fs as [r0 c0|m0 es0]; [reflexivity|]. simpl in H.
    simpl. destruct (d ++ [s])%list eqn:Eq; [now destruct d|].
    destruct (Dict.get a es0) as [child|]; [|reflexivity].
    now rewrite (IH child r c H).
Qed.

(** X21.  [clone_repository] over an installation that is already
    there.  When the repository is a directory, it is removed with all
    it holds before the clone command is started: the outcome is the one
    of cloning into the file system without it, so a clone that fails
    leaves no repository behind.  When a file has the name of the
    repository, the removal raises and no command is run. *)
Theorem clone_repository_removes_installation :
  forall (P : Platform) (SCRIPT_DIR : Path) (w : World) (n : node),
    let repo_path := INSTALL_DIR SCRIPT_DIR // REPO_NAME in
    Fs.lookup repo_path (fs w) = Some n ->
    match n with
    | Dir _ _ =>
        exists fs0,
          Fs.rmtree repo_path (fs w) = Some fs0 /\
          Fs.exists_ repo_path fs0 = false /\
          clone_repository P SCRIPT_DIR w
          = clone_repository P SCRIPT_DIR (mkWorld fs0 (trace w))
    | File _ _ =>
        clone_repository P SCRIPT_DIR w
        = (Raise (mkExn NotADirectoryError (path_str repo_path)), w)
    end.
Proof.
  intros P S w n repo H.
  change repo with (S ++ [REPO_NAME])%list in *.
  assert (D : Fs.is_dir S (fs w) = true)
    by exact (lookup_child_parent _ _ _ _ H).
  assert (C : forall w0 : World,
             Fs.is_dir S (fs w0) = true ->
             clone_repository P S w0 =
             mbind (reading (fun fs => Ret (Fs.exists_ (S ++ [REPO_NAME])%list fs)))
               (fun present =>
                  mbind (if present then rmtree (S ++ [REPO_NAME])%list
                         else mret tt)
                    (fun _ =>
                       mbind (run_command P ["git"; "clone"; REPO_URL] true)
                         (fun _ => chdir_or_exit (S ++ [REPO_NAME])%list)))
               w0).
  { intros w0 D0. unfold clone_repository, INSTALL_DIR.
    unfold mbind at 1. unfold chdir_or_exit at 1, except_Exception.
    now rewrite (chdir_dir _ _ D0). }
  destruct n as [r c|m es].
  - rewrite (C w D). unfold mbind at 1, reading at 1, Fs.exists_.
    rewrite H. unfold mbind at 1, rmtree.
    pose proof (rmtree_file _ _ _ _ _ H) as R.
    now rewrite R.
  - destruct (rmtree_dir _ _ _ _ _ H) as (fs0 & R & L & D0).
    exists fs0. split; [exact R|].
    assert (X0 : Fs.exists_ (S ++ [REPO_NAME])%list fs0 = false)
      by (unfold Fs.exists_; now rewrite L).
    split; [exact X0|].
    rewrite (C w D), (C (mkWorld fs0 (trace w)) D0).
    assert (E1 : reading (fun fs => Ret (Fs.exists_ (S ++ [REPO_NAME])%list fs))
                   w = (Ret true, w))
      by (unfold reading, Fs.exists_; now rewrite H).
    assert (E2 : rmtree (S ++ [REPO_NAME])%list w
                 = (Ret tt, mkWorld fs0 (trace w)))
      by (unfold rmtree; now rewrite R).
    assert (E3 : reading (fun fs => Ret (Fs.exists_ (S ++ [REPO_NAME])%list fs))
                   (mkWorld fs0 (trace w))
                 = (Ret false, mkWorld fs0 (trace w)))
      by (unfold reading; simpl; now rewrite X0).
    rewrite (mbind_ret _ _ _ _ _ E1), (mbind_ret _ _ _ _ _ E2).
    rewrite (mbind_ret _ _ _ _ _ E3).
    now rewrite (mbind_ret (mret tt) _ _ _ tt eq_refl).
Qed.

Lemma clone_repository_removes_installation_witness :
  clone_repository (Sample.platform_with_git Sample.git_missing)
    Sample.SCRIPT_DIR (Sample.world Sample.fs_cached)
  = (Exit 1,
     mkWorld (Dir 1 [("opt", Dir 1 [("app", Dir 1
                [("zonos_download_models", Dir 7
                    [ ("model_verification.json", File true Sample.doc_text);
                      ("models--Zyphra--Zonos-v0.1-hybrid", Dir 8
                         [ ("snapshots", Dir 9
                              [ ("aaa", Sample.snapshot 100 "old");
                                ("bbb", Sample.snapshot 200 "new");
                                ("README", File true "notes") ]) ]) ])])])])
       [EvCmd ["git"; "clone"; REPO_URL]]) /\
  exists fs0,
    Fs.exists_ (Sample.SCRIPT_DIR // REPO_NAME) fs0 = false /\
    clone_repository (Sample.platform_with_git Sample.git_missing)
      Sample.SCRIPT_DIR (Sample.world Sample.fs_cached)
    = clone_repository (Sample.platform_with_git Sample.git_missing)
        Sample.SCRIPT_DIR (mkWorld fs0 []).
Proof.
  split; [reflexivity|].
  destruct (clone_repository_removes_installation
              (Sample.platform_with_git Sample.git_missing)
              Sample.SCRIPT_DIR (Sample.world Sample.fs_cached)
              (Dir 5 []) eq_refl) as (fs0 & _ & X & E).
  exists fs0. split; [exact X | exact E].
Defined.

Lemma except_reraise {A} (m : M A) (w : World) :
  except_Exception m (fun e => mraise e) w = m w.
Proof.
  unfold except_Exception, mraise. now destruct (m w) as [[a|e|c] w'].
Qed.

Lemma mbind_never_returns {A B} (m : M A) (k : A -> M B) :
  (forall a w v, fst (k a w) <> Ret v) ->
  forall w v, fst (mbind m k w) <> Ret v.
Proof.
  intros Hk w v. unfold mbind.
  destruct (m w) as [[a|e|c] w']; [apply Hk | discriminate | discriminate].
Qed.

Lemma mbind_fetched {A B} (m : M A) (k : A -> M B) :
  (forall w, fetched (trace (snd (m w))) = fetched (trace w)) ->
  (forall a w, fetched (trace (snd (k a w))) = fetched (trace w)) ->
  forall w, fetched (trace (snd (mbind m k w))) = fetched (trace w).
Proof.
  intros Hm Hk w. unfold mbind. specialize (Hm w).
  destruct (m w) as [[a|e|c] w']; simpl in Hm; [|exact Hm|exact Hm].
  now rewrite Hk.
Qed.

Lemma run_command_fetched (P : Platform) (command : list string)
    (check : bool) (w : World) :
  fetched (trace (snd (run_command P command check w))) = fetched (trace w).
Proof.
  destruct (run_command_run P command check w) as (r & w' & -> & T & _).
  simpl. rewrite T, fetched_app. simpl. now rewrite app_nil_r.
Qed.

Lemma chdir_or_exit_world (path : Path) (w : World) :
  snd (chdir_or_exit path w) = w.
Proof.
  unfold chdir_or_exit, except_Exception.
  destruct (chdir_run path w) as (r & -> & _).
  now destruct r.
Qed.

Section Installation.
Context (P : Platform) (SCRIPT_DIR : Path).
Context (command_exists : string -> World -> bool).

Lemma step_fetched (command : list string) (w : World) :
  fetched (trace (snd (mbind (run_command P command true)
                         (fun _ => mret tt) w)))
  = fetched (trace w).
Proof.
  apply mbind_fetched; [apply run_command_fetched | reflexivity].
Qed.

Lemma install_system_dependencies_fetched (w : World) :
  fetched (trace (snd (install_system_dependencies P command_exists w)))
  = fetched (trace w).
Proof.
  unfold install_system_dependencies.
  apply mbind_fetched; [apply run_command_fetched|].
  intros _ w0. apply mbind_fetched; [reflexivity|].
  intros [|] w1; [apply step_fetched | reflexivity].
Qed.

Lemma clone_repository_fetched (w : World) :
  fetched (trace (snd (clone_repository P SCRIPT_DIR w)))
  = fetched (trace w).
Proof.
  unfold clone_repository.
  apply mbind_fetched; [intros w0; now rewrite chdir_or_exit_world|].
  intros _ w0. apply mbind_fetched; [reflexivity|].
  intros present w1. apply mbind_fetched.
  - intros w2. destruct present; [|reflexivity].
    unfold rmtree. now destruct (Fs.rmtree _ (fs w2)).
  - intros _ w2. apply mbind_fetched; [apply run_command_fetched|].
    intros _ w3. now rewrite chdir_or_exit_world.
Qed.

(** The steps of the installation, with the handler taken off. *)
Lemma install_zonos_steps_body (w : World) :
  install_zonos_steps P SCRIPT_DIR command_exists w =
  mbind (validate_prerequisites command_exists) (fun _ =>
  mbind (install_system_dependencies P command_exists) (fun _ =>
  mbind (clone_repository P SCRIPT_DIR) (fun _ =>
  mbind (setup_virtual_environment P) (fun _ =>
  mbind (install_uv P) (fun _ =>
  mbind (sync_dependencies P) (fun _ =>
  mbind (sync_compile_dependencies P) (fun _ =>
  mbind (download_models P SCRIPT_DIR) (fun _ => mret tt)))))))) w.
Proof. unfold install_zonos_steps. apply except_reraise. Qed.

End Installation.

(** X22.  The steps of [install_zonos] never run to their end, on any
    platform and in any world: the block ends in an exit or an
    exception, at the latest in [download_models], so the final
    permissions pass and the report of a completed installation are
    never reached.  No model is fetched on the way. *)
Theorem install_zonos_never_completes :
  forall (P : Platform) (SCRIPT_DIR : Path)
         (command_exists : string -> World -> bool) (w : World),
    let run := install_zonos_steps P SCRIPT_DIR command_exists w in
    ((exists code, fst run = Exit code) \/ (exists e, fst run = Raise e)) /\
    fetched (trace (snd run)) = fetched (trace w).
Proof.
  intros P S ce w. cbv zeta. rewrite install_zonos_steps_body. split.
  - assert (N : forall v,
               fst (mbind (validate_prerequisites ce) (fun _ =>
                    mbind (install_system_dependencies P ce) (fun _ =>
                    mbind (clone_repository P S) (fun _ =>
                    mbind (setup_virtual_environment P) (fun _ =>
                    mbind (install_uv P) (fun _ =>
                    mbind (sync_dependencies P) (fun _ =>
                    mbind (sync_compile_dependencies P) (fun _ =>
                    mbind (download_models P S)
                      (fun _ => mret tt)))))))) w) <> Ret v).
    { revert w. do 7 (apply mbind_never_returns; intros _).
      intros w v. unfold mbind.
      destruct (download_models_run P S w)
        as (r & w' & -> & [->|[e ->]] & _); discriminate. }
    destruct (fst _) as [[]|e|c]; [now destruct (N tt) | eauto | eauto].
  - revert w. apply mbind_fetched.
    { intros w. unfold validate_prerequisites.
      destruct (negb _); [reflexivity|].
      destruct (negb _); [reflexivity|].
      destruct (negb _); reflexivity. }
    intros _.
    apply mbind_fetched; [apply install_system_dependencies_fetched|].
    intros _. apply mbind_fetched; [apply clone_repository_fetched|].
    intros _. apply mbind_fetched; [apply step_fetched|].
    intros _. apply mbind_fetched; [apply step_fetched|].
    intros _. apply mbind_fetched; [apply step_fetched|].
    intros _. apply mbind_fetched; [apply step_fetched|].
    intros _. apply mbind_fetched; [|reflexivity].
    intros w.
    destruct (download_models_run P S w) as (r & w' & -> & _ & T).
    simpl. now rewrite T.
Qed.

(** X23.  The steps of [install_zonos] on a machine that lacks one of
    [git], [python3] and [apt]: the process exits with status 1 before
    anything is done; no command has been run and the file system is as
    it was. *)
Theorem install_zonos_requires_prerequisites :
  forall (P : Platform) (SCRIPT_DIR : Path)
         (command_exists : string -> World -> bool) (w : World)
         (command : string),
    In command ["git"; "python3"; "apt"] ->
    command_exists command w = false ->
    install_zonos_steps P SCRIPT_DIR command_exists w = (Exit 1, w).
Proof.
  intros P S ce w command Hin Hmiss.
  rewrite install_zonos_steps_body. unfold mbind at 1.
  assert (V : validate_prerequisites ce w = (Exit 1, w)).
  { unfold validate_prerequisites.
    destruct Hin as [<-|[<-|[<-|[]]]]; rewrite ?Hmiss; simpl.
    - reflexivity.
    - now destruct (negb (ce "git" w)).
    - destruct (negb (ce "git" w)); [reflexivity|].
      now destruct (negb (ce "python3" w)). }
  now rewrite V.
Qed.

Lemma install_zonos_requires_prerequisites_witness :
  install_zonos_steps Sample.platform Sample.SCRIPT_DIR Sample.without_apt
    (Sample.world Sample.fs_installed)
  = (Exit 1, Sample.world Sample.fs_installed).
Proof.
  apply (install_zonos_requires_prerequisites Sample.platform
           Sample.SCRIPT_DIR Sample.without_apt
           (Sample.world Sample.fs_installed) "apt").
  - simpl. auto.
  - reflexivity.
Defined.

(* ================================================================== *)
(** * Further properties: the program's recorder *)
(* ================================================================== *)

(** X24.  The program's [save_model_verification] never writes: for
    every model, registered or not, it leaves the world as it found it.
    For a registered model whose existing document can be read, it
    raises the [TypeError] of the resolver before it has hashed a
    file. *)
Theorem save_model_verification_never_writes :
  forall (P : Platform) (model_name : string)
         (models_dir verification_file : Path) (w : World),
    let run := save_model_verification P model_name models_dir
                 verification_file w in
    snd run = w /\
    (forall model_config verification_data,
        Dict.get model_name MODEL_CONFIGS = Some model_config ->
        existing_verification_data P verification_file (fs w)
          = Ret verification_data ->
        fst run = Raise path_plus_str_error).
Proof.
  intros P name dir f w. cbv zeta.
  assert (E : save_model_verification P name dir f w =
              (match Dict.get name MODEL_CONFIGS with
               | None => Ret tt
               | Some _ =>
                   match existing_verification_data P f (fs w) with
                   | Ret _ => Raise path_plus_str_error
                   | Raise e => Raise e
                   | Exit c => Exit c
                   end
               end, w)).
  { unfold save_model_verification, save_model_verification_via.
    destruct (Dict.get name MODEL_CONFIGS) as [cfg|]; [|reflexivity].
    unfold mbind at 1, reading at 1.
    destruct (existing_verification_data P f (fs w)); reflexivity. }
  rewrite E. simpl. split; [reflexivity|].
  intros cfg data Hcfg Hload. now rewrite Hcfg, Hload.
Qed.
